(** * Taskflow: the reclassification engine of src/main.ts

    A shallow embedding of the two plugin variants found in src/main.ts
    (the extended one with a root folder and a task counter, and the basic
    one), over an abstract host interface (the Obsidian [App]: vault,
    metadata cache, file manager) and over a reference in-memory vault. *)

From Stdlib Require Import String Ascii NArith ZArith List Bool Lia.
From stdpp Require Import gmap strings list fin_maps pretty.

Local Open Scope string_scope.

(** ** JavaScript values and strings *)

(** The values a property of a header object can hold: the scalars
    (booleans, strings, integral numbers, [NaN], null), and [VObject] for
    every other value, of which only the truthiness matters here: a list, a
    nested mapping, a function.  The header is a map from its own keys to
    values; an absent key is [None] at lookup. *)
Inductive JsValue : Type :=
| VBool (b : bool)
| VStr (s : string)
| VNum (z : Z)
| VNaN
| VNull
| VObject.

Global Instance JsValue_eq_dec : EqDecision JsValue.
Proof. solve_decision. Defined.

(** The frontmatter object, used by the source as a map from keys to values. *)
Abbreviation Frontmatter := (gmap string JsValue).

(** [!s] is true of the empty string only. *)
Definition str_truthy (s : string) : bool := negb (String.eqb s "").

(** JavaScript truthiness of a value read from an object: undefined, null,
    false, 0, NaN and the empty string are falsy. *)
Definition truthy (v : option JsValue) : bool :=
  match v with
  | None => false
  | Some VNull => false
  | Some (VBool b) => b
  | Some (VNum z) => negb (Z.eqb z 0)
  | Some VNaN => false
  | Some (VStr s) => str_truthy s
  | Some VObject => true
  end.

(** The properties every plain object inherits from [Object.prototype]:
    functions, and under [__proto__] the prototype itself. *)
Definition Object_prototype : list string :=
  ["constructor"; "hasOwnProperty"; "isPrototypeOf"; "propertyIsEnumerable";
   "toLocaleString"; "toString"; "valueOf"; "__proto__"; "__defineGetter__";
   "__defineSetter__"; "__lookupGetter__"; "__lookupSetter__"].

(** [obj[key]] on a header object: the own property if there is one, and
    otherwise what the prototype supplies.  An inherited value is never a
    boolean, so where the source compares [obj[key]] with [true] and [false]
    the own lookup decides the same. *)
Definition js_get (fm : Frontmatter) (key : string) : option JsValue :=
  match fm !! key with
  | Some v => Some v
  | None => if bool_decide (key ∈ Object_prototype) then Some VObject else None
  end.

(** [s.startsWith(p)] *)
Fixpoint startsWith (s p : string) : bool :=
  match p, s with
  | EmptyString, _ => true
  | String a p', String b s' => Ascii.eqb a b && startsWith s' p'
  | String _ _, EmptyString => false
  end.

(** [s.split('/')], through an accumulator holding the current component. *)
Fixpoint split_go (sep : ascii) (cur : string) (s : string) : list string :=
  match s with
  | EmptyString => [cur]
  | String c s' =>
      if Ascii.eqb c sep then cur :: split_go sep EmptyString s'
      else split_go sep (cur ++ String c EmptyString) s'
  end.

Definition split (sep : ascii) (s : string) : list string :=
  split_go sep EmptyString s.

Definition slash : ascii := "/"%char.

(** ** Host objects *)

(** A [TFile] is a reference to a host object; the object's fields ([path],
    [name], [parent]) live in the host and change under [rename]. *)
Definition TFile := nat.

Inductive TAbstractFile : Type :=
| IsFile (f : TFile)
| IsFolder (p : string).

Record CachedMetadata : Type := mkCache { frontmatter : option Frontmatter }.

Definition Err := string.

Inductive Res (A : Type) : Type :=
| Ok (a : A)
| Fail (e : Err).
Arguments Ok {A} a.
Arguments Fail {A} e.

(** Milliseconds since the epoch, as [new Date()] yields. *)
Definition Date := Z.

(** The host interface consumed by the plugin: [app.vault],
    [app.metadataCache], [app.fileManager], the clock and the date
    formatting library.  Reads are functions of the host state; calls that
    may reject return a [Res] and the next host state. *)
Class Host (H : Type) : Type := {
  file_path : H -> TFile -> string;
  file_name : H -> TFile -> string;
  (** [file.parent?.path] *)
  file_parent_path : H -> TFile -> option string;
  getFileCache : H -> TFile -> option CachedMetadata;
  getAbstractFileByPath : H -> string -> option TAbstractFile;
  getMarkdownFiles : H -> list TFile;
  createFolder : string -> H -> Res unit * H;
  rename : TFile -> string -> H -> Res unit * H;
  processFrontMatter : TFile -> (Frontmatter -> Frontmatter) -> H -> Res unit * H;
  Date_now : H -> Date;
  resolvedTimeZone : H -> string;
  formatInTimeZone : Date -> string -> string -> string;
}.

(** The two callbacks handed to [processFrontMatter].  The stamp of the first
    is the clock reading formatted when the call is issued. *)
Inductive Patch : Type :=
| StampCompleted (key : string) (stamp : string)
| ClearCompleted (key : string).

(** [(frontmatter) => { if (!frontmatter[key]) frontmatter[key] = stamp }]
    and [(frontmatter) => { delete frontmatter[key] }]. *)
Definition apply_patch (p : Patch) (fm : Frontmatter) : Frontmatter :=
  match p with
  | StampCompleted key stamp =>
      if truthy (js_get fm key) then fm else <[key := VStr stamp]> fm
  | ClearCompleted key => delete key fm
  end.

(** ** The journal of observable effects *)

(** Every guard update, console line and mutating host call is recorded in
    order, host calls with their result ([None] on success). *)
Inductive Event : Type :=
| GuardAdd (p : string)
| GuardDelete (p : string)
| ConsoleWarn (msg : string)
| ConsoleLog (msg : string)
| ConsoleError (msg : string) (e : option Err)
| CreateFolder (p : string) (r : option Err)
| Rename (f : TFile) (newPath : string) (r : option Err)
| ProcessFrontMatter (f : TFile) (p : Patch) (r : option Err).

Definition res_err {A} (r : Res A) : option Err :=
  match r with Ok _ => None | Fail e => Some e end.

(** ** The plugin object and its monad *)

(** The plugin instance: [this.settings], [this.processing], [this.app],
    together with the journal. *)
Record Plugin (S H : Type) : Type := mkPlugin {
  settings : S;
  processing : gset string;
  journal : list Event;
  app : H;
}.
Arguments mkPlugin {S H}.
Arguments settings {S H}.
Arguments processing {S H}.
Arguments journal {S H}.
Arguments app {S H}.

(** How a block of statements ends: by falling through with a value, by a
    [return;], or by a thrown error. *)
Inductive Outcome (A : Type) : Type :=
| Normal (a : A)
| Return
| Throw (e : Err).
Arguments Normal {A} a.
Arguments Return {A}.
Arguments Throw {A} e.

Definition M (S H A : Type) : Type := Plugin S H -> Outcome A * Plugin S H.

Global Instance M_ret {S H} : MRet (M S H) := fun A a st => (Normal a, st).

Global Instance M_bind {S H} : MBind (M S H) := fun A B f m st =>
  match m st with
  | (Normal a, st') => f a st'
  | (Return, st') => (Return, st')
  | (Throw e, st') => (Throw e, st')
  end.

Section Monad.
Context {S H : Type} `{Host H}.

(** [return;] *)
Definition return_ {A} : M S H A := fun st => (Return, st).

(** Reading a field of [this] or of the host. *)
Definition gets {A} (f : Plugin S H -> A) : M S H A := fun st => (Normal (f st), st).

Definition read {A} (f : H -> A) : M S H A := gets (fun st => f (app st)).

Definition emit (e : Event) : M S H unit := fun st =>
  (Normal tt, mkPlugin (settings st) (processing st) (journal st ++ [e]) (app st)).

Definition set_processing (g : gset string) : M S H unit := fun st =>
  (Normal tt, mkPlugin (settings st) g (journal st) (app st)).

Definition set_settings (s : S) : M S H unit := fun st =>
  (Normal tt, mkPlugin s (processing st) (journal st) (app st)).

(** [this.processing.add(p)] and [this.processing.delete(p)] *)
Definition processing_add (p : string) : M S H unit :=
  g ← gets processing; set_processing (g ∪ {[p]});; emit (GuardAdd p).

Definition processing_delete (p : string) : M S H unit :=
  g ← gets processing; set_processing (g ∖ {[p]});; emit (GuardDelete p).

Definition console_warn (msg : string) : M S H unit := emit (ConsoleWarn msg).
Definition console_log (msg : string) : M S H unit := emit (ConsoleLog msg).
Definition console_error (msg : string) (e : option Err) : M S H unit :=
  emit (ConsoleError msg e).

(** An awaited host call: the host state advances, the call is journalled
    with its result, and a rejection is rethrown at the [await]. *)
Definition await (call : H -> Res unit * H) (ev : option Err -> Event) : M S H unit :=
  fun st =>
    let '(r, h') := call (app st) in
    let st' := mkPlugin (settings st) (processing st) (journal st ++ [ev (res_err r)]) h' in
    match r with
    | Ok _ => (Normal tt, st')
    | Fail e => (Throw e, st')
    end.

Definition vault_createFolder (p : string) : M S H unit :=
  await (createFolder p) (CreateFolder p).

Definition vault_rename (f : TFile) (newPath : string) : M S H unit :=
  await (rename f newPath) (Rename f newPath).

Definition fileManager_processFrontMatter (f : TFile) (p : Patch) : M S H unit :=
  await (processFrontMatter f (apply_patch p)) (ProcessFrontMatter f p).

(** [try { body } catch (e) { handler e } finally { fin }] *)
Definition try_catch_finally {A} (body : M S H A) (handler : Err -> M S H A)
    (fin : M S H unit) : M S H A := fun st =>
  let '(o1, st1) := body st in
  let '(o2, st2) :=
    match o1 with
    | Throw e => handler e st1
    | _ => (o1, st1)
    end in
  let '(o3, st3) := fin st2 in
  match o3 with
  | Normal _ => (o2, st3)
  | Return => (Return, st3)
  | Throw e => (Throw e, st3)
  end.

(** A function call: a [return;] inside the body ends the call normally. *)
Definition call (body : M S H unit) : M S H unit := fun st =>
  match body st with
  | (Normal _, st') => (Normal tt, st')
  | (Return, st') => (Normal tt, st')
  | (Throw e, st') => (Throw e, st')
  end.

(** [ensureFolder]'s loop over [parts], with the running [current]. *)
Fixpoint ensureFolder_loop (parts : list string) (current : string) : M S H unit :=
  match parts with
  | [] => mret tt
  | part :: rest =>
      let current := if str_truthy current then current ++ "/" ++ part else part in
      existing ← read (fun h => getAbstractFileByPath h current);
      (match existing with
       | None => vault_createFolder current
       | Some _ => mret tt
       end);;
      ensureFolder_loop rest current
  end.

Definition ensureFolder (folderPath : string) : M S H unit :=
  call (
    if negb (str_truthy folderPath) then return_ else
    let parts := split slash folderPath in
    ensureFolder_loop parts "").

End Monad.

(** [buildPath]: an absolute vault path from a root and a relative sub-path. *)
Definition buildPath (root sub : string) : string :=
  if negb (str_truthy root) then sub
  else if negb (str_truthy sub) then root
  else root ++ "/" ++ sub.

Definition completed_date_format : string := "yyyy-MM-dd'T'HH:mm:ssXXX".

(** The double quote character, as the log messages embed it. *)
Definition dquote : string := String (Ascii.ascii_of_nat 34) EmptyString.

(** [x || ''] for an optional string. *)
Definition or_empty (x : option string) : string :=
  match x with
  | Some p => if str_truthy p then p else ""
  | None => ""
  end.

(** ** JavaScript numbers, as far as the task counter needs them *)

(** Identifier numbers are non-negative integers held in IEEE-754 doubles: an
    integer of more than 53 significant bits is rounded to the nearest
    representable one, ties to even, and overflows to [Infinity]. *)
Inductive JsNum : Type :=
| Fin (n : N)
| Infinity.

Global Instance JsNum_eq_dec : EqDecision JsNum.
Proof. solve_decision. Defined.

Definition MAX_SAFE_INTEGER : N := 2 ^ 53 - 1.

(** Rounding of a mathematical integer to a double. *)
Definition to_double (n : N) : JsNum :=
  let sz := N.size n in
  if (sz <=? 53)%N then Fin n
  else
    let sh := (sz - 53)%N in
    let q := N.shiftr n sh in
    let r := (n - N.shiftl q sh)%N in
    let half := N.shiftl 1 (sh - 1) in
    let q' := if (half <? r)%N || ((r =? half)%N && N.odd q) then (q + 1)%N else q in
    let v := N.shiftl q' sh in
    if (2 ^ 1024 <=? v)%N then Infinity else Fin v.

(** [a + 1] *)
Definition js_succ (a : JsNum) : JsNum :=
  match a with
  | Fin n => to_double (n + 1)
  | Infinity => Infinity
  end.

(** [a > b] *)
Definition js_gt (a b : JsNum) : bool :=
  match a, b with
  | Fin x, Fin y => (y <? x)%N
  | Infinity, Fin _ => true
  | _, Infinity => false
  end.

Definition is_digit (c : ascii) : bool :=
  let n := nat_of_ascii c in (48 <=? n)%nat && (n <=? 57)%nat.

Definition digit_value (c : ascii) : N := (N_of_ascii c - 48)%N.

(** The greedy [\d+]: the longest run of digits at the head of [s], and
    what follows it. *)
Fixpoint span_digits (s : string) : string * string :=
  match s with
  | EmptyString => (EmptyString, EmptyString)
  | String c s' =>
      if is_digit c then
        let '(ds, rest) := span_digits s' in (String c ds, rest)
      else (EmptyString, s)
  end.

Fixpoint drop_chars (n : nat) (s : string) : string :=
  match n, s with
  | O, _ => s
  | Datatypes.S n', String _ s' => drop_chars n' s'
  | Datatypes.S _, EmptyString => EmptyString
  end.

(** [name.match(/^\[TASK-(\d+)\]/)]: the captured digits, if the name
    matches. *)
Definition match_task (name : string) : option string :=
  if startsWith name "[TASK-" then
    let '(ds, rest) := span_digits (drop_chars 6 name) in
    if str_truthy ds && startsWith rest "]" then Some ds else None
  else None.

Fixpoint decimal_value (acc : N) (ds : string) : N :=
  match ds with
  | EmptyString => acc
  | String c ds' => decimal_value (10 * acc + digit_value c) ds'
  end.

(** [parseInt(ds, 10)] on a non-empty string of decimal digits. *)
Definition parseInt (ds : string) : JsNum := to_double (decimal_value 0 ds).

(** ** The extended variant (root folder, task counter) *)

Module Extended.

Record TaskflowPluginSettings : Type := mkSettings {
  rootFolder : string;
  templatePath : string;
  propertyName : string;
  trueFolder : string;
  falseFolder : string;
  iceboxFolder : string;
  enableBacklog : bool;
  backlogFolder : string;
  enableCompletedDate : bool;
  completedDatePropertyName : string;
  taskCounter : JsNum;
}.

Definition DEFAULT_SETTINGS : TaskflowPluginSettings := {|
  rootFolder := "taskflow";
  templatePath := "";
  propertyName := "✅";
  trueFolder := "archive";
  falseFolder := "";
  iceboxFolder := "icebox";
  enableBacklog := false;
  backlogFolder := "backlog";
  enableCompletedDate := false;
  completedDatePropertyName := "completed_date";
  taskCounter := Fin 1;
|}.

Definition with_taskCounter (s : TaskflowPluginSettings) (n : JsNum) :
    TaskflowPluginSettings :=
  mkSettings (rootFolder s) (templatePath s) (propertyName s) (trueFolder s)
    (falseFolder s) (iceboxFolder s) (enableBacklog s) (backlogFolder s)
    (enableCompletedDate s) (completedDatePropertyName s) n.

(** The resolved containers of a configuration. *)
Definition absoluteTrueFolder (s : TaskflowPluginSettings) : string :=
  buildPath (rootFolder s) (trueFolder s).
Definition absoluteFalseFolder (s : TaskflowPluginSettings) : string :=
  buildPath (rootFolder s) (falseFolder s).

Section WithHost.
Context {H : Type} `{Host H}.

Abbreviation Task := (M TaskflowPluginSettings H).

(** The statements of [processFile] inside the [try] block, after the
    destructuring of [this.settings] into [s]. *)
Definition processFile_try (s : TaskflowPluginSettings) (file : TFile)
    (originalPath : string) : Task unit :=
  path ← read (fun h => file_path h file);
  (if str_truthy (rootFolder s) && negb (startsWith path (rootFolder s ++ "/"))
   then return_ else mret tt);;
  (if negb (str_truthy (propertyName s)) || negb (str_truthy (absoluteTrueFolder s))
      || negb (str_truthy (absoluteFalseFolder s))
   then console_warn "Taskflow Plugin: Settings are incomplete.";; return_
   else mret tt);;
  fileCache ← read (fun h => getFileCache h file);
  fm ← match fileCache with
       | None => return_
       | Some fc =>
           match frontmatter fc with
           | None => return_
           | Some fm => mret fm
           end
       end;
  let propertyValue := fm !! propertyName s in
  targetFolder ← match propertyValue with
                 | Some (VBool true) => mret (absoluteTrueFolder s)
                 | Some (VBool false) => mret (absoluteFalseFolder s)
                 | _ => return_
                 end;
  parent ← read (fun h => file_parent_path h file);
  let currentFolderPath := or_empty parent in
  (if String.eqb currentFolderPath targetFolder then return_ else mret tt);;
  name ← read (fun h => file_name h file);
  let newPath := targetFolder ++ "/" ++ name in
  ensureFolder targetFolder;;
  vault_rename file newPath;;
  console_log ("Taskflow Plugin: Moved " ++ dquote ++ originalPath ++ dquote
               ++ " to " ++ dquote ++ newPath ++ dquote);;
  if enableCompletedDate s && str_truthy (completedDatePropertyName s) then
    match propertyValue with
    | Some (VBool true) =>
        now ← read Date_now;
        timeZone ← read resolvedTimeZone;
        fileManager_processFrontMatter file
          (StampCompleted (completedDatePropertyName s)
             (formatInTimeZone now timeZone completed_date_format))
    | Some (VBool false) =>
        fileManager_processFrontMatter file
          (ClearCompleted (completedDatePropertyName s))
    | _ => mret tt
    end
  else mret tt.

Definition processFile_body (file : TFile) (originalPath : string) : Task unit :=
  s ← gets settings;
  processFile_try s file originalPath.

Definition error_message (originalPath : string) : string :=
  "Taskflow Plugin: Error processing " ++ dquote ++ originalPath ++ dquote ++ ":".

Definition processFile (file : TFile) : Task unit :=
  call (
    originalPath ← read (fun h => file_path h file);
    guard ← gets processing;
    (if decide (originalPath ∈ guard) then return_ else mret tt);;
    processing_add originalPath;;
    try_catch_finally
      (processFile_body file originalPath)
      (fun e => console_error (error_message originalPath) (Some e))
      (processing_delete originalPath)).

(** [detectTaskCounter]'s loop over the markdown files. *)
Fixpoint detect_loop (h : H) (rootFolder : string) (files : list TFile)
    (maxNum : JsNum) : JsNum :=
  match files with
  | [] => maxNum
  | file :: rest =>
      if str_truthy rootFolder
         && negb (startsWith (file_path h file) (rootFolder ++ "/"))
      then detect_loop h rootFolder rest maxNum
      else
        match match_task (file_name h file) with
        | Some ds =>
            let num := parseInt ds in
            detect_loop h rootFolder rest (if js_gt num maxNum then num else maxNum)
        | None => detect_loop h rootFolder rest maxNum
        end
  end.

(** [saveData] is the host's persistence call; it may reject. *)
Variable saveData : TaskflowPluginSettings -> H -> Res unit * H.

Definition saveSettings : Task unit := fun st =>
  let '(r, h') := saveData (settings st) (app st) in
  let st' := mkPlugin (settings st) (processing st) (journal st) h' in
  match r with
  | Ok _ => (Normal tt, st')
  | Fail e => (Throw e, st')
  end.

Definition detectTaskCounter : Task unit :=
  call (
    s ← gets settings;
    files ← read getMarkdownFiles;
    h ← gets app;
    let maxNum := detect_loop h (rootFolder s) files (Fin 0) in
    set_settings (with_taskCounter s (js_succ maxNum));;
    saveSettings).

End WithHost.

End Extended.

(** ** The basic variant *)

Module Basic.

Record TaskflowPluginSettings : Type := mkSettings {
  propertyName : string;
  trueFolder : string;
  falseFolder : string;
  enableCompletedDate : bool;
  completedDatePropertyName : string;
}.

Definition DEFAULT_SETTINGS : TaskflowPluginSettings := {|
  propertyName := "completed";
  trueFolder := "02 - Completed";
  falseFolder := "01 - Inbox";
  enableCompletedDate := false;
  completedDatePropertyName := "completed_date";
|}.

Section WithHost.
Context {H : Type} `{Host H}.

Abbreviation Task := (M TaskflowPluginSettings H).

Definition processFile_try (s : TaskflowPluginSettings) (file : TFile)
    (originalPath : string) : Task unit :=
  (if negb (str_truthy (propertyName s)) || negb (str_truthy (trueFolder s))
      || negb (str_truthy (falseFolder s))
   then console_warn "Taskflow Plugin: Settings are incomplete.";; return_
   else mret tt);;
  fileCache ← read (fun h => getFileCache h file);
  fm ← match fileCache with
       | None => return_
       | Some fc =>
           match frontmatter fc with
           | None => return_
           | Some fm => mret fm
           end
       end;
  let propertyValue := fm !! propertyName s in
  targetFolder ← match propertyValue with
                 | Some (VBool true) => mret (trueFolder s)
                 | Some (VBool false) => mret (falseFolder s)
                 | _ => return_
                 end;
  parent ← read (fun h => file_parent_path h file);
  let currentFolderPath := or_empty parent in
  (if String.eqb currentFolderPath targetFolder then return_ else mret tt);;
  name ← read (fun h => file_name h file);
  let newPath := targetFolder ++ "/" ++ name in
  targetFolderAbstractFile ← read (fun h => getAbstractFileByPath h targetFolder);
  (match targetFolderAbstractFile with
   | None => vault_createFolder targetFolder
   | Some (IsFile _) =>
       console_error ("Taskflow Plugin: Target path " ++ dquote ++ targetFolder
                      ++ dquote ++ " is a file, not a folder.") None;;
       return_
   | Some (IsFolder _) => mret tt
   end);;
  vault_rename file newPath;;
  console_log ("Taskflow Plugin: Moved " ++ dquote ++ originalPath ++ dquote
               ++ " to " ++ dquote ++ newPath ++ dquote);;
  if enableCompletedDate s && str_truthy (completedDatePropertyName s) then
    match propertyValue with
    | Some (VBool true) =>
        now ← read Date_now;
        timeZone ← read resolvedTimeZone;
        fileManager_processFrontMatter file
          (StampCompleted (completedDatePropertyName s)
             (formatInTimeZone now timeZone completed_date_format))
    | Some (VBool false) =>
        fileManager_processFrontMatter file
          (ClearCompleted (completedDatePropertyName s))
    | _ => mret tt
    end
  else mret tt.

Definition processFile_body (file : TFile) (originalPath : string) : Task unit :=
  s ← gets settings;
  processFile_try s file originalPath.

Definition error_message (originalPath : string) : string :=
  "Taskflow Plugin: Error processing " ++ dquote ++ originalPath ++ dquote ++ ":".

Definition processFile (file : TFile) : Task unit :=
  call (
    originalPath ← read (fun h => file_path h file);
    guard ← gets processing;
    (if decide (originalPath ∈ guard) then return_ else mret tt);;
    processing_add originalPath;;
    try_catch_finally
      (processFile_body file originalPath)
      (fun e => console_error (error_message originalPath) (Some e))
      (processing_delete originalPath)).

End WithHost.

End Basic.

(** ** A reference host: an in-memory vault

    The host is outside the repository; this vault follows the contracts the
    plugin relies on (spec section 6): a tree of containers and documents,
    a metadata cache that may lag behind the live header, [createFolder]
    rejecting an occupied path or a missing parent, [rename] rejecting an
    occupied destination or a missing destination container.  Whether a
    host's [createFolder] would also create missing ancestors shows only in
    the basic variant, whose single call for a nested target is rejected
    here when the parent is missing; [ensureFolder] creates parents first. *)

(** [path] split at its last separator: the parent's path, if any, and the
    name. *)
Fixpoint dir_base (s : string) : option string * string :=
  match s with
  | EmptyString => (None, EmptyString)
  | String c s' =>
      match dir_base s' with
      | (Some d, b) => (Some (String c d), b)
      | (None, b) =>
          if Ascii.eqb c slash then (Some EmptyString, b) else (None, String c b)
      end
  end.

Fixpoint endsWith_go (s suffix : string) (n : nat) : bool :=
  match n with
  | O => String.eqb s suffix
  | Datatypes.S n' =>
      match s with
      | EmptyString => false
      | String _ s' => endsWith_go s' suffix n'
      end
  end.

(** [s.endsWith(suffix)] *)
Definition endsWith (s suffix : string) : bool :=
  endsWith_go s suffix (String.length s - String.length suffix).

Module Vault.

Record FileObj : Type := mkFile {
  f_path : string;
  (** the live header of the document, the empty map when it has none *)
  f_frontmatter : Frontmatter;
  f_body : string;
  (** what the metadata cache holds for the document *)
  f_cache : option CachedMetadata;
}.

Record t : Type := mk {
  files : gmap nat FileObj;
  folders : gset string;
  clock : Date;
  zone : string;
}.

Definition with_files (v : t) (fs : gmap nat FileObj) : t :=
  mk fs (folders v) (clock v) (zone v).

Definition with_folders (v : t) (ds : gset string) : t :=
  mk (files v) ds (clock v) (zone v).

(** The document stored at a path, if any. *)
Definition file_at (v : t) (p : string) : option TFile :=
  fst <$> List.find (fun '(_, fo) => String.eqb (f_path fo) p) (map_to_list (files v)).

Definition lookup_path (v : t) (p : string) : option TAbstractFile :=
  match file_at v p with
  | Some f => Some (IsFile f)
  | None => if decide (p ∈ folders v) then Some (IsFolder p) else None
  end.

Definition path_of (v : t) (f : TFile) : string :=
  match files v !! f with
  | Some fo => f_path fo
  | None => ""
  end.

(** The parent of a top-level document is the root container, whose path
    is "/". *)
Definition parent_of (v : t) (f : TFile) : option string :=
  match files v !! f with
  | Some fo =>
      match fst (dir_base (f_path fo)) with
      | Some d => Some d
      | None => Some "/"
      end
  | None => None
  end.

Definition mkdir (p : string) (v : t) : Res unit * t :=
  if negb (str_truthy p) then (Fail "EINVAL: empty path", v)
  else
    match lookup_path v p with
    | Some _ => (Fail "Folder already exists.", v)
    | None =>
        match fst (dir_base p) with
        | Some d =>
            if decide (d ∈ folders v)
            then (Ok tt, with_folders v (folders v ∪ {[p]}))
            else (Fail "ENOENT: no such file or directory", v)
        | None => (Ok tt, with_folders v (folders v ∪ {[p]}))
        end
    end.

Definition move (f : TFile) (newPath : string) (v : t) : Res unit * t :=
  match files v !! f with
  | None => (Fail "ENOENT: no such file or directory", v)
  | Some fo =>
      match lookup_path v newPath with
      | Some _ => (Fail "Destination file already exists!", v)
      | None =>
          let moved := mkFile newPath (f_frontmatter fo) (f_body fo) (f_cache fo) in
          match fst (dir_base newPath) with
          | Some d =>
              if decide (d ∈ folders v)
              then (Ok tt, with_files v (<[f := moved]> (files v)))
              else (Fail "ENOENT: no such file or directory", v)
          | None => (Ok tt, with_files v (<[f := moved]> (files v)))
          end
      end
  end.

(** The read-modify-write of the live header; every other key is kept by
    the callback's own doing. *)
Definition patch (f : TFile) (fn : Frontmatter -> Frontmatter) (v : t) : Res unit * t :=
  match files v !! f with
  | None => (Fail "ENOENT: no such file or directory", v)
  | Some fo =>
      let patched := mkFile (f_path fo) (fn (f_frontmatter fo)) (f_body fo) (f_cache fo) in
      (Ok tt, with_files v (<[f := patched]> (files v)))
  end.

(** The indexer catching up with a document: its cache entry becomes the
    live header. *)
Definition reindex (f : TFile) (v : t) : t :=
  match files v !! f with
  | None => v
  | Some fo =>
      let fresh := mkFile (f_path fo) (f_frontmatter fo) (f_body fo)
                     (Some (mkCache (Some (f_frontmatter fo)))) in
      with_files v (<[f := fresh]> (files v))
  end.

Definition markdown_files (v : t) : list TFile :=
  fst <$> List.filter (fun '(_, fo) => endsWith (f_path fo) ".md") (map_to_list (files v)).

(** *** Formatting the completion stamp *)

Definition pad (width : nat) (n : Z) : string :=
  let s := pretty (Z.to_N n) in
  String.string_of_list_ascii (List.repeat "0"%char (width - String.length s)%nat) ++ s.

Local Open Scope Z_scope.

(** The Gregorian date of a day count from 1970-01-01. *)
Definition civil_from_days (days : Z) : Z * Z * Z :=
  let z := days + 719468 in
  let era := z / 146097 in
  let doe := z - era * 146097 in
  let yoe := (doe - doe / 1460 + doe / 36524 - doe / 146096) / 365 in
  let doy := doe - (365 * yoe + yoe / 4 - yoe / 100) in
  let mp := (5 * doy + 2) / 153 in
  let d := doy - (153 * mp + 2) / 5 + 1 in
  let m := if mp <? 10 then mp + 3 else mp - 9 in
  let y := yoe + era * 400 + (if m <=? 2 then 1 else 0) in
  (y, m, d).

(** Offsets, in minutes, of the zones the reference host knows; they have
    no daylight saving rules. *)
Definition zone_offset (timeZone : string) : Z :=
  if String.eqb timeZone "Asia/Kolkata" then 330
  else if String.eqb timeZone "Asia/Tokyo" then 540
  else if String.eqb timeZone "America/Phoenix" then -420
  else 0.

Definition format_offset (off : Z) : string :=
  if off =? 0 then "Z"
  else (if off <? 0 then "-" else "+")
       ++ pad 2 (Z.abs off / 60) ++ ":" ++ pad 2 (Z.abs off mod 60).

(** The one pattern the plugin passes, yyyy-MM-dd'T'HH:mm:ssXXX; any other
    pattern is outside this reference formatter. *)
Definition format_in_zone (now : Date) (timeZone : string) (fmt : string) : string :=
  if String.eqb fmt completed_date_format then
    let off := zone_offset timeZone in
    let secs := now / 1000 + off * 60 in
    let '(y, m, d) := civil_from_days (secs / 86400) in
    let sod := secs mod 86400 in
    pad 4 y ++ "-" ++ pad 2 m ++ "-" ++ pad 2 d ++ "T"
    ++ pad 2 (sod / 3600) ++ ":" ++ pad 2 (sod mod 3600 / 60) ++ ":" ++ pad 2 (sod mod 60)
    ++ format_offset off
  else "".

Local Close Scope Z_scope.

Global Instance host : Host t := {|
  file_path := path_of;
  file_name := fun v f => snd (dir_base (path_of v f));
  file_parent_path := parent_of;
  getFileCache := fun v f => files v !! f ≫= f_cache;
  getAbstractFileByPath := lookup_path;
  getMarkdownFiles := markdown_files;
  createFolder := mkdir;
  rename := move;
  processFrontMatter := patch;
  Date_now := clock;
  resolvedTimeZone := zone;
  formatInTimeZone := format_in_zone;
|}.

End Vault.

(** The successive values of [current] in [ensureFolder]'s loop: the
    containers along a path, ancestors first. *)
Fixpoint prefix_paths (parts : list string) (current : string) : list string :=
  match parts with
  | [] => []
  | part :: rest =>
      let current := if str_truthy current then current ++ "/" ++ part else part in
      current :: prefix_paths rest current
  end.

Definition container_paths (folderPath : string) : list string :=
  if negb (str_truthy folderPath) then []
  else prefix_paths (split slash folderPath) "".

(** * Notions used to state the properties *)

(** The error a journalled host call was rejected with. *)
Definition failed (ev : Event) : option Err :=
  match ev with
  | CreateFolder _ r => r
  | Rename _ _ r => r
  | ProcessFrontMatter _ _ r => r
  | _ => None
  end.

Definition is_guard_event (ev : Event) : bool :=
  match ev with
  | GuardAdd _ | GuardDelete _ => true
  | _ => false
  end.

(** A storage or metadata mutation attempted by the plugin. *)
Definition is_mutation (ev : Event) : bool :=
  match ev with
  | CreateFolder _ _ | Rename _ _ _ | ProcessFrontMatter _ _ _ => true
  | _ => false
  end.

Definition patch_key (p : Patch) : string :=
  match p with
  | StampCompleted key _ => key
  | ClearCompleted key => key
  end.

(** [st] with more journal entries. *)
Definition logged {S H} (st : Plugin S H) (l : list Event) : Plugin S H :=
  mkPlugin (settings st) (processing st) (journal st ++ l) (app st).

Definition is_createFolder (ev : Event) : bool :=
  match ev with
  | CreateFolder _ _ => true
  | _ => false
  end.

(** How an awaited call ends, by the host's answer. *)
Definition outcome_of (r : Res unit) : Outcome unit :=
  match r with
  | Ok _ => Normal tt
  | Fail e => Throw e
  end.

(** The entries a call journalled: those of the resulting journal beyond the
    ones present at the call. *)
Definition journalled {S H} (st : Plugin S H) (r : Outcome unit * Plugin S H) : list Event :=
  drop (length (journal st)) (journal r.2).

Section Notions.
Context {S H : Type} `{Host H}.

(** The host state a journal leads to: each journalled call is the host's
    own transition with the host's own result; console and guard entries
    leave the host alone. *)
Inductive Replay : H -> list Event -> H -> Prop :=
| Replay_nil h : Replay h [] h
| Replay_createFolder h p l h' :
    Replay (createFolder p h).2 l h' ->
    Replay h (CreateFolder p (res_err (createFolder p h).1) :: l) h'
| Replay_rename h f newPath l h' :
    Replay (rename f newPath h).2 l h' ->
    Replay h (Rename f newPath (res_err (rename f newPath h).1) :: l) h'
| Replay_processFrontMatter h f p l h' :
    Replay (processFrontMatter f (apply_patch p) h).2 l h' ->
    Replay h (ProcessFrontMatter f p
                (res_err (processFrontMatter f (apply_patch p) h).1) :: l) h'
| Replay_silent h ev l h' :
    is_mutation ev = false ->
    Replay h l h' ->
    Replay h (ev :: l) h'.

(** How a block may end, given what it journalled: a thrown error is the
    rejection of the last journalled call, and no earlier call failed. *)
Definition outcome_ok {A} (o : Outcome A) (l : list Event) : Prop :=
  match o with
  | Throw e =>
      exists (l0 : list Event) ev, l = (l0 ++ [ev])%list /\ failed ev = Some e
                    /\ Forall (fun x => failed x = None) l0
  | _ => Forall (fun x => failed x = None) l
  end.

(** A block that leaves settings and guard alone, only appends to the
    journal, changes the host only through the journalled calls, and
    journals only entries satisfying [ok]. *)
Definition tracks_at (ok : Event -> Prop) {A} (m : M S H A) (st : Plugin S H) : Prop :=
  exists l,
    settings (m st).2 = settings st
    /\ processing (m st).2 = processing st
    /\ journal (m st).2 = (journal st ++ l)%list
    /\ Replay (app st) l (app (m st).2)
    /\ Forall ok l
    /\ outcome_ok (m st).1 l.

Definition tracks (ok : Event -> Prop) {A} (m : M S H A) : Prop :=
  forall st, tracks_at ok m st.

(** The shape of [processFile]: guard test, guard entry, and the
    [try]/[catch]/[finally] around a body. *)
Definition guarded_call (body : string -> M S H unit) (msg : string -> string)
    (file : TFile) : M S H unit :=
  call (
    originalPath ← read (fun h => file_path h file);
    guard ← gets processing;
    (if decide (originalPath ∈ guard) then return_ else mret tt);;
    processing_add originalPath;;
    try_catch_finally
      (body originalPath)
      (fun e => console_error (msg originalPath) (Some e))
      (processing_delete originalPath)).

(** The plugin on entering the [try] block. *)
Definition entered (p : string) (st : Plugin S H) : Plugin S H :=
  mkPlugin (settings st) (processing st ∪ {[p]}) (journal st ++ [GuardAdd p]) (app st).

(** What [catch] journals for the way the body ended. *)
Definition caught (msg : string) (o : Outcome unit) : list Event :=
  match o with
  | Throw e => [ConsoleError msg (Some e)]
  | _ => []
  end.

(** The plugin after [catch] and [finally]. *)
Definition released (p msg : string) (r : Outcome unit * Plugin S H) : Plugin S H :=
  mkPlugin (settings r.2) (processing r.2 ∖ {[p]})
    (journal r.2 ++ caught msg r.1 ++ [GuardDelete p]) (app r.2).

(** A guarded call outside the guard: the call ends normally, settings and
    guard are as before, and the journal is the guard entry, the body's
    entries [l], what [catch] logged for the body's outcome [o], and the
    guard release. *)
Definition run_summary (ok : Event -> Prop) (msg p : string)
    (st : Plugin S H) (r : Outcome unit * Plugin S H) : Prop :=
  exists l o,
    r.1 = Normal tt
    /\ settings r.2 = settings st
    /\ processing r.2 = processing st
    /\ journal r.2 = (journal st ++ GuardAdd p :: l ++ caught msg o ++ [GuardDelete p])%list
    /\ Replay (app st) l (app r.2)
    /\ Forall ok l
    /\ outcome_ok o l.

End Notions.

(** The journal entries a [processFile] body may produce for [file]: no
    guard updates, renames of [file] only, and metadata patches of [file]
    under the one key [key] only. *)
Definition body_event (file : TFile) (key : string) (ev : Event) : Prop :=
  match ev with
  | GuardAdd _ | GuardDelete _ => False
  | Rename f _ _ => f = file
  | ProcessFrontMatter f p _ => f = file /\ patch_key p = key
  | _ => True
  end.

(** The journal entries of a relocation of [file] to [newPath]: container
    creations at paths in [dirs], the one rename, the console line, and
    patches of [file] under [key]. *)
Definition relocation_event (dirs : string -> Prop) (file : TFile) (newPath key : string)
    (ev : Event) : Prop :=
  match ev with
  | CreateFolder p _ => dirs p
  | ConsoleLog _ => True
  | Rename f np _ => f = file /\ np = newPath
  | ProcessFrontMatter f p _ => f = file /\ patch_key p = key
  | _ => False
  end.

(** ** The decisions of [processFile], read off its branches *)

Section Decisions.
Context {H : Type} `{Host H}.

(** The value the metadata snapshot of [file] holds under [key]; [None]
    when the document has no snapshot, no header, or no such key. *)
Definition snapshot_value (h : H) (file : TFile) (key : string) : option JsValue :=
  match getFileCache h file with
  | Some fc =>
      match frontmatter fc with
      | Some fm => fm !! key
      | None => None
      end
  | None => None
  end.

(** The line the catch-all logs for a document, by its original path. *)
Definition error_line (originalPath : string) : string :=
  "Taskflow Plugin: Error processing " ++ dquote ++ originalPath ++ dquote ++ ":".

Definition moved_message (originalPath newPath : string) : string :=
  "Taskflow Plugin: Moved " ++ dquote ++ originalPath ++ dquote
  ++ " to " ++ dquote ++ newPath ++ dquote.

(** The callback of the timestamp side effect for a classification value,
    with the clock read at [h]. *)
Definition completion_patch (h : H) (key : string) (value : bool) : Patch :=
  if value then
    StampCompleted key
      (formatInTimeZone (Date_now h) (resolvedTimeZone h) completed_date_format)
  else ClearCompleted key.

(** Step 2 of the relocation: the timestamp side effect. *)
Definition stamp_or_clear {S} (enable : bool) (key : string) (value : bool)
    (file : TFile) : M S H unit :=
  if enable && str_truthy key then
    if value then
      now ← read Date_now;
      timeZone ← read resolvedTimeZone;
      fileManager_processFrontMatter file
        (StampCompleted key (formatInTimeZone now timeZone completed_date_format))
    else fileManager_processFrontMatter file (ClearCompleted key)
  else mret tt.

(** Step 1 and step 2: the statements from [vault.rename] on, common to
    both variants. *)
Definition rename_and_stamp {S} (enable : bool) (key : string) (value : bool)
    (file : TFile) (originalPath newPath : string) : M S H unit :=
  vault_rename file newPath;;
  console_log (moved_message originalPath newPath);;
  stamp_or_clear enable key value file.

Definition incomplete_warning : Event :=
  ConsoleWarn "Taskflow Plugin: Settings are incomplete.".

(** *** Extended variant *)

Definition ext_in_scope (s : Extended.TaskflowPluginSettings) (h : H) (file : TFile) : bool :=
  negb (str_truthy (Extended.rootFolder s)
        && negb (startsWith (file_path h file) (Extended.rootFolder s ++ "/"))).

Definition ext_complete (s : Extended.TaskflowPluginSettings) : bool :=
  str_truthy (Extended.propertyName s)
  && str_truthy (Extended.absoluteTrueFolder s)
  && str_truthy (Extended.absoluteFalseFolder s).

Definition ext_target (s : Extended.TaskflowPluginSettings) (value : bool) : string :=
  if value then Extended.absoluteTrueFolder s else Extended.absoluteFalseFolder s.

(** Whether a notification reaches the relocation, and with which value. *)
Definition ext_relocates (s : Extended.TaskflowPluginSettings) (h : H) (file : TFile) :
    option bool :=
  if ext_in_scope s h file && ext_complete s then
    match snapshot_value h file (Extended.propertyName s) with
    | Some (VBool value) =>
        if String.eqb (or_empty (file_parent_path h file)) (ext_target s value)
        then None else Some value
    | _ => None
    end
  else None.

(** What a run that stops before the relocation journals. *)
Definition ext_skip_journal (s : Extended.TaskflowPluginSettings) (h : H) (file : TFile) :
    list Event :=
  if ext_in_scope s h file && negb (ext_complete s) then [incomplete_warning] else [].

(** *** Basic variant *)

Definition bas_complete (s : Basic.TaskflowPluginSettings) : bool :=
  str_truthy (Basic.propertyName s)
  && str_truthy (Basic.trueFolder s)
  && str_truthy (Basic.falseFolder s).

Definition bas_target (s : Basic.TaskflowPluginSettings) (value : bool) : string :=
  if value then Basic.trueFolder s else Basic.falseFolder s.

Definition target_is_file_message (targetFolder : string) : string :=
  "Taskflow Plugin: Target path " ++ dquote ++ targetFolder ++ dquote
  ++ " is a file, not a folder.".

Definition bas_relocates (s : Basic.TaskflowPluginSettings) (h : H) (file : TFile) :
    option bool :=
  if bas_complete s then
    match snapshot_value h file (Basic.propertyName s) with
    | Some (VBool value) =>
        if String.eqb (or_empty (file_parent_path h file)) (bas_target s value)
        then None else Some value
    | _ => None
    end
  else None.

Definition bas_skip_journal (s : Basic.TaskflowPluginSettings) : list Event :=
  if negb (bas_complete s) then [incomplete_warning] else [].

End Decisions.

(** A path component holds no separator. *)
Fixpoint slash_free (s : string) : bool :=
  match s with
  | EmptyString => true
  | String c s' => negb (Ascii.eqb c slash) && slash_free s'
  end.

(** The journal entries of the containers [ensureFolder] creates in [v] for
    a path: one accepted creation per missing container, ancestors first. *)
Definition creations (v : Vault.t) (paths : list string) : list Event :=
  (fun q => CreateFolder q None) <$> filter (fun q => q ∉ Vault.folders v) paths.

(** ** Task identifiers, as the counter scan reads them *)

(** The identifier number a document name carries, as a mathematical
    integer. *)
Definition task_number (name : string) : option N :=
  decimal_value 0 <$> match_task name.

(** A path is in scope when no root is configured or it lies under the root. *)
Definition in_root (rootFolder path : string) : bool :=
  negb (str_truthy rootFolder && negb (startsWith path (rootFolder ++ "/"))).

Definition highest (l : list N) : N := foldr N.max 0%N l.

Section TaskNumbers.
Context {H : Type} `{Host H}.

(** The identifier numbers of the in-scope documents among [files]. *)
Definition task_numbers (h : H) (rootFolder : string) (files : list TFile) : list N :=
  omap (fun file =>
          if in_root rootFolder (file_path h file)
          then task_number (file_name h file) else None) files.

End TaskNumbers.

(** ** What a run may change in the reference vault *)

(** [v'] differs from [v] at most in: the location of [file] and its header
    value under [key]; and containers at paths in [dirs], which may have been
    added.  Every other document, the other header keys, the body and the
    cached snapshot of [file], the clock and the zone are the same, and no
    container is removed. *)
Definition vault_frame (file : TFile) (key : string) (dirs : string -> Prop)
    (v v' : Vault.t) : Prop :=
  Vault.clock v' = Vault.clock v
  /\ Vault.zone v' = Vault.zone v
  /\ Vault.folders v ⊆ Vault.folders v'
  /\ (forall q, q ∈ Vault.folders v' -> q ∈ Vault.folders v \/ dirs q)
  /\ (forall g, g <> file -> Vault.files v' !! g = Vault.files v !! g)
  /\ match Vault.files v !! file with
     | None => Vault.files v' !! file = None
     | Some fo =>
         exists fo',
           Vault.files v' !! file = Some fo'
           /\ Vault.f_body fo' = Vault.f_body fo
           /\ Vault.f_cache fo' = Vault.f_cache fo
           /\ forall k, k <> key ->
                Vault.f_frontmatter fo' !! k = Vault.f_frontmatter fo !! k
     end.

(** What the timestamp side effect leaves in the relocated document [fo']
    (before the call: [fo]) for a classification [value]: the new path, the
    header's own property [key], and every other header key as it was.  For
    [true] the property is the stamp when the value read under [key], own or
    inherited, was falsy, and is as it was otherwise; for [false] it is
    gone. *)
Definition completion_outcome (v : Vault.t) (key : string) (value : bool) (np : string)
    (fo fo' : Vault.FileObj) : Prop :=
  Vault.f_path fo' = np
  /\ Vault.f_frontmatter fo' !! key
     = (if value then
          if truthy (js_get (Vault.f_frontmatter fo) key)
          then Vault.f_frontmatter fo !! key
          else Some (VStr (Vault.format_in_zone (Vault.clock v) (Vault.zone v)
                             completed_date_format))
        else None)
  /\ forall k, k <> key -> Vault.f_frontmatter fo' !! k = Vault.f_frontmatter fo !! k.

(** ** Fixtures: small vaults and configurations *)

Module Fixture.

Definition note (path : string) (fm : Frontmatter) : Vault.FileObj :=
  Vault.mkFile path fm "body" (Some (mkCache (Some fm))).

Definition done_true : Frontmatter := {[ "done" := VBool true ]}.
Definition done_false : Frontmatter := {[ "done" := VBool false ]}.

(** One document, [Inbox/t.md], marked done. *)
Definition inbox_vault : Vault.t :=
  Vault.mk {[ 0%nat := note "Inbox/t.md" done_true ]} {[ "Inbox" ]}
    1700000000000%Z "Asia/Kolkata".

Definition basic_settings : Basic.TaskflowPluginSettings :=
  Basic.mkSettings "done" "Done" "Inbox" true "completed_date".

Definition basic_plugin : Plugin Basic.TaskflowPluginSettings Vault.t :=
  mkPlugin basic_settings ∅ [] inbox_vault.

(** The extended variant scoped to the [taskflow] container. *)
Definition scoped_settings : Extended.TaskflowPluginSettings :=
  Extended.mkSettings "taskflow" "" "done" "archive" "" "icebox" false "backlog"
    true "completed_date" (Fin 1).

Definition scoped_plugin : Plugin Extended.TaskflowPluginSettings Vault.t :=
  mkPlugin scoped_settings ∅ [] inbox_vault.

(** The shipped defaults of the extended variant, and a document filed
    under [taskflow/archive] whose box is unticked. *)
Definition unticked : Frontmatter := {[ "✅" := VBool false ]}.

Definition archive_vault : Vault.t :=
  Vault.mk {[ 0%nat := note "taskflow/archive/t.md" unticked ]}
    {[ "taskflow"; "taskflow/archive" ]} 1700000000000%Z "UTC".

Definition default_plugin : Plugin Extended.TaskflowPluginSettings Vault.t :=
  mkPlugin Extended.DEFAULT_SETTINGS ∅ [] archive_vault.

(** The basic variant with no property name configured. *)
Definition unnamed_plugin : Plugin Basic.TaskflowPluginSettings Vault.t :=
  mkPlugin (Basic.mkSettings "" "Done" "Inbox" true "completed_date") ∅ [] inbox_vault.

(** A document already in the true-container. *)
Definition done_vault : Vault.t :=
  Vault.mk {[ 0%nat := note "Done/t.md" done_true ]} {[ "Inbox"; "Done" ]}
    1700000000000%Z "Asia/Kolkata".

Definition placed_plugin : Plugin Basic.TaskflowPluginSettings Vault.t :=
  mkPlugin basic_settings ∅ [] done_vault.

(** The destination [Done/t.md] is taken by another document. *)
Definition clash_vault : Vault.t :=
  Vault.mk {[ 0%nat := note "Inbox/t.md" done_true; 1%nat := note "Done/t.md" done_true ]}
    {[ "Inbox"; "Done" ]} 1700000000000%Z "Asia/Kolkata".

Definition clash_plugin : Plugin Basic.TaskflowPluginSettings Vault.t :=
  mkPlugin basic_settings ∅ [] clash_vault.

(** Persisting the settings succeeds and is outside the vault. *)
Definition saveData (s : Extended.TaskflowPluginSettings) (v : Vault.t) :
    Res unit * Vault.t := (Ok tt, v).

(** Tasks 7 and 12 under the root, task 40 outside it. *)
Definition tasks_vault : Vault.t :=
  Vault.mk {[ 0%nat := note "taskflow/[TASK-007] water plants.md" unticked;
              1%nat := note "taskflow/archive/[TASK-012] file taxes.md" unticked;
              2%nat := note "elsewhere/[TASK-040] other.md" unticked;
              3%nat := note "taskflow/readme.md" unticked ]}
    {[ "taskflow"; "taskflow/archive"; "elsewhere" ]} 1700000000000%Z "UTC".

Definition tasks_plugin : Plugin Extended.TaskflowPluginSettings Vault.t :=
  mkPlugin Extended.DEFAULT_SETTINGS ∅ [] tasks_vault.

(** A task whose number is 2^53. *)
Definition huge_vault : Vault.t :=
  Vault.mk {[ 0%nat := note "taskflow/[TASK-9007199254740992] far future.md" unticked ]}
    {[ "taskflow" ]} 1700000000000%Z "UTC".

Definition huge_plugin : Plugin Extended.TaskflowPluginSettings Vault.t :=
  mkPlugin Extended.DEFAULT_SETTINGS ∅ [] huge_vault.

(** A document marked done whose completion key holds [false]. *)
Definition stale : Frontmatter :=
  {[ "done" := VBool true; "completed_date" := VBool false ]}.

Definition stale_vault : Vault.t :=
  Vault.mk {[ 0%nat := note "Inbox/t.md" stale ]} {[ "Inbox"; "Done" ]}
    1700000000000%Z "Asia/Kolkata".

Definition stale_plugin : Plugin Basic.TaskflowPluginSettings Vault.t :=
  mkPlugin basic_settings ∅ [] stale_vault.

(** A target three containers deep, none of which exists yet. *)
Definition deep_settings : Extended.TaskflowPluginSettings :=
  Extended.mkSettings "" "" "done" "Done/2024/Q4" "Inbox" "icebox" false "backlog"
    true "completed_date" (Fin 1).

Definition deep_plugin : Plugin Extended.TaskflowPluginSettings Vault.t :=
  mkPlugin deep_settings ∅ [] inbox_vault.

(** The path of the true-container, [Done], is held by a document. *)
Definition blocked_vault : Vault.t :=
  Vault.mk {[ 0%nat := note "Inbox/t.md" done_true; 1%nat := note "Done" done_false ]}
    {[ "Inbox" ]} 1700000000000%Z "Asia/Kolkata".

Definition blocked_basic : Plugin Basic.TaskflowPluginSettings Vault.t :=
  mkPlugin basic_settings ∅ [] blocked_vault.

Definition blocked_extended : Plugin Extended.TaskflowPluginSettings Vault.t :=
  mkPlugin (Extended.mkSettings "" "" "done" "Done" "Inbox" "icebox" false "backlog"
              true "completed_date" (Fin 1)) ∅ [] blocked_vault.

End Fixture.

(** * The relocation on the reference vault *)

(** What the timestamp side effect journals when it is accepted. *)
Definition stamp_events (file : TFile) (enable : bool) (key : string) (value : bool)
    (v : Vault.t) : list Event :=
  if enable && str_truthy key
  then [ProcessFrontMatter file (completion_patch v key value) None] else [].

(** The header the relocated document is left with. *)
Definition stamped (enable : bool) (key : string) (value : bool) (v : Vault.t)
    (fm : Frontmatter) : Frontmatter :=
  if enable && str_truthy key then apply_patch (completion_patch v key value) fm else fm.


(** * The rest of the extended variant: commands, task creation, settings *)

(** ** Further host services *)

(** The callback [createTask] hands to [setTimeout]. *)
Inductive Deferred : Type :=
| ReleaseGuard (path : string).

(** What the commands and the task modal use beyond [Host]: the workspace,
    document creation and reading, notices, timers and the modal itself.
    [setTimeout] only registers the callback; the host runs it later. *)
Class Desk (H : Type) : Type := {
  Workspace_getActiveFile : H -> option TFile;
  Workspace_openFile : TFile -> H -> Res unit * H;
  Vault_create : string -> string -> H -> Res TFile * H;
  Vault_read : TFile -> H -> Res string * H;
  new_Notice : string -> H -> H;
  setTimeout : Deferred -> N -> H -> H;
  Modal_close : H -> H;
}.

Definition newline : string := String (Ascii.ascii_of_nat 10) EmptyString.

(** [s.padStart(width, pad)] for a one-character pad. *)
Definition padStart (width : nat) (pad : ascii) (s : string) : string :=
  String.string_of_list_ascii (List.repeat pad (width - String.length s)) ++ s.

(** A string of decimal digits. *)
Fixpoint all_digits (s : string) : bool :=
  match s with
  | EmptyString => true
  | String c s' => is_digit c && all_digits s'
  end.

(** The name [createTask] mints. *)
Definition task_fileName (paddedNum title : string) : string :=
  "[TASK-" ++ paddedNum ++ "] " ++ title ++ ".md".

(** The content of a task created without a template. *)
Definition default_content (propertyName : string) : string :=
  String.concat newline
    ["---"; propertyName ++ ": false"; "🚩: false"; "due: "; "defer: "; "started: ";
     "---"; ""].

Section MoreMonad.
Context {S H : Type}.

(** An awaited host call that is not journalled and yields a value. *)
Definition host_call {A} (c : H -> Res A * H) : M S H A := fun st =>
  let '(r, h') := c (app st) in
  let st' := mkPlugin (settings st) (processing st) (journal st) h' in
  match r with
  | Ok a => (Normal a, st')
  | Fail e => (Throw e, st')
  end.

(** A host effect that cannot fail. *)
Definition host_do (c : H -> H) : M S H unit := fun st =>
  (Normal tt, mkPlugin (settings st) (processing st) (journal st) (c (app st))).

(** Running a callback registered with [setTimeout]. *)
Definition run_deferred (d : Deferred) : M S H unit :=
  match d with
  | ReleaseGuard path => processing_delete path
  end.

End MoreMonad.

Module Commands.

Import Extended.

(** The persisted data: a JSON object holding any subset of the settings
    fields, taken as well typed. *)
Record SavedData : Type := mkSaved {
  sv_rootFolder : option string;
  sv_templatePath : option string;
  sv_propertyName : option string;
  sv_trueFolder : option string;
  sv_falseFolder : option string;
  sv_iceboxFolder : option string;
  sv_enableBacklog : option bool;
  sv_backlogFolder : option string;
  sv_enableCompletedDate : option bool;
  sv_completedDatePropertyName : option string;
  sv_taskCounter : option JsNum;
}.

(** [Object.assign({}, d, savedData)] *)
Definition assign (d : TaskflowPluginSettings) (sv : SavedData) : TaskflowPluginSettings :=
  mkSettings
    (default (rootFolder d) (sv_rootFolder sv))
    (default (templatePath d) (sv_templatePath sv))
    (default (propertyName d) (sv_propertyName sv))
    (default (trueFolder d) (sv_trueFolder sv))
    (default (falseFolder d) (sv_falseFolder sv))
    (default (iceboxFolder d) (sv_iceboxFolder sv))
    (default (enableBacklog d) (sv_enableBacklog sv))
    (default (backlogFolder d) (sv_backlogFolder sv))
    (default (enableCompletedDate d) (sv_enableCompletedDate sv))
    (default (completedDatePropertyName d) (sv_completedDatePropertyName sv))
    (default (taskCounter d) (sv_taskCounter sv)).

(** What the basic variant persisted: its five fields. *)
Definition basic_saved (b : Basic.TaskflowPluginSettings) : SavedData :=
  mkSaved None None (Some (Basic.propertyName b)) (Some (Basic.trueFolder b))
    (Some (Basic.falseFolder b)) None None None (Some (Basic.enableCompletedDate b))
    (Some (Basic.completedDatePropertyName b)) None.

(** What [saveData] is handed: every field of the settings object. *)
Definition saved_of (s : TaskflowPluginSettings) : SavedData :=
  mkSaved (Some (rootFolder s)) (Some (templatePath s)) (Some (propertyName s))
    (Some (trueFolder s)) (Some (falseFolder s)) (Some (iceboxFolder s))
    (Some (enableBacklog s)) (Some (backlogFolder s)) (Some (enableCompletedDate s))
    (Some (completedDatePropertyName s)) (Some (taskCounter s)).

Definition with_rootFolder (s : TaskflowPluginSettings) (root : string) :
    TaskflowPluginSettings :=
  mkSettings root (templatePath s) (propertyName s) (trueFolder s)
    (falseFolder s) (iceboxFolder s) (enableBacklog s) (backlogFolder s)
    (enableCompletedDate s) (completedDatePropertyName s) (taskCounter s).

Section WithDesk.
Context {H : Type} `{Host H} `{Desk H}.

Abbreviation Task := (M TaskflowPluginSettings H).

Definition Notice (msg : string) : Task unit := host_do (new_Notice msg).

(** [loadSettings]: the result tells whether the counter has to be
    detected. *)
Definition loadSettings (loadData : H -> Res (option SavedData) * H) : Task bool :=
  savedData ← host_call loadData;
  set_settings (match savedData with
                | Some sv => assign DEFAULT_SETTINGS sv
                | None => DEFAULT_SETTINGS
                end);;
  mret (match savedData with
        | Some sv => negb (bool_decide (is_Some (sv_taskCounter sv)))
        | None => true
        end).

Definition moveToIcebox : Task unit :=
  call (
    activeFile ← read Workspace_getActiveFile;
    file ← match activeFile with
           | None => return_
           | Some f => mret f
           end;
    name ← read (fun h => file_name h file);
    (if negb (startsWith name "[TASK-")
     then Notice "Taskflow: Active file is not a task file.";; return_
     else mret tt);;
    s ← gets settings;
    let absoluteIcebox := buildPath (rootFolder s) (iceboxFolder s) in
    (if negb (str_truthy absoluteIcebox)
     then Notice "Taskflow: Icebox folder is not configured.";; return_
     else mret tt);;
    parent ← read (fun h => file_parent_path h file);
    let currentFolder := or_empty parent in
    (if String.eqb currentFolder absoluteIcebox
     then Notice "Taskflow: File is already in the icebox.";; return_
     else mret tt);;
    let newPath := absoluteIcebox ++ "/" ++ name in
    ensureFolder absoluteIcebox;;
    vault_rename file newPath;;
    Notice "Taskflow: Moved to icebox.").

Definition moveOutOfBacklog : Task unit :=
  call (
    activeFile ← read Workspace_getActiveFile;
    file ← match activeFile with
           | None => return_
           | Some f => mret f
           end;
    name ← read (fun h => file_name h file);
    (if negb (startsWith name "[TASK-")
     then Notice "Taskflow: Active file is not a task file.";; return_
     else mret tt);;
    s ← gets settings;
    let targetFolder := if str_truthy (rootFolder s) then rootFolder s else "" in
    parent ← read (fun h => file_parent_path h file);
    let currentFolder := or_empty parent in
    (if String.eqb currentFolder targetFolder
     then Notice "Taskflow: File is already in the root folder.";; return_
     else mret tt);;
    let newPath := if str_truthy targetFolder then targetFolder ++ "/" ++ name else name in
    ensureFolder targetFolder;;
    vault_rename file newPath;;
    Notice "Taskflow: Moved out of backlog.").

(** [String(n)] prints an integer up to 2^53 in decimal, digit for digit.
    Above 2^53 it prints the shortest digits that read back as the same
    double, padded with zeros, and from 10^21 on in exponent notation; that
    printing is left to [shortest].  So is [trim], which removes the white
    space of the Unicode tables. *)
Variable shortest : N -> string.
Variable trim : string -> string.
Variable saveData : TaskflowPluginSettings -> H -> Res unit * H.

Definition Number_toString (a : JsNum) : string :=
  match a with
  | Fin n => if (n <=? 2 ^ 53)%N then pretty n else shortest n
  | Infinity => "Infinity"
  end.

(** The container and the path of the task [createTask] makes for a title. *)
Definition task_folder (s : TaskflowPluginSettings) : string :=
  if enableBacklog s then buildPath (rootFolder s) (backlogFolder s)
  else if str_truthy (rootFolder s) then rootFolder s else "".

Definition task_path (s : TaskflowPluginSettings) (title : string) : string :=
  let paddedNum := padStart 3 "0"%char (Number_toString (taskCounter s)) in
  let fileName := task_fileName paddedNum title in
  if str_truthy (task_folder s) then task_folder s ++ "/" ++ fileName else fileName.

(** The text of the new task: the template's, if the template path names a
    document, and the default header otherwise. *)
Definition task_content (s : TaskflowPluginSettings) : Task string :=
  templateFile ← (if str_truthy (templatePath s)
                  then read (fun h => getAbstractFileByPath h (templatePath s))
                  else mret None);
  match templateFile with
  | Some (IsFile f) => host_call (Vault_read f)
  | _ => mret (default_content (propertyName s))
  end.

Definition createTask (title : string) : Task unit :=
  call (
    let title := trim title in
    (if negb (str_truthy title) then return_ else mret tt);;
    s ← gets settings;
    let targetFolder := task_folder s in
    let filePath := task_path s title in
    content ← task_content s;
    ensureFolder targetFolder;;
    processing_add filePath;;
    file ← host_call (Vault_create filePath content);
    host_do (setTimeout (ReleaseGuard filePath) 500);;
    current ← gets settings;
    set_settings (with_taskCounter current (js_succ (taskCounter s)));;
    saveSettings saveData;;
    host_do Modal_close;;
    host_call (Workspace_openFile file)).

(** The handler of the root folder field of the settings tab. *)
Definition onChange_rootFolder (value : string) : Task unit :=
  call (
    s ← gets settings;
    set_settings (with_rootFolder s value);;
    saveSettings saveData;;
    detectTaskCounter saveData).

End WithDesk.

End Commands.

(** What a move command may journal: creations of containers along the
    target path, and renames of the active document to the new path. *)
Definition move_event (target : string) (f : TFile) (newPath : string) (ev : Event) : Prop :=
  (exists q res, ev = CreateFolder q res /\ q ∈ container_paths target)
  \/ exists res, ev = Rename f newPath res.

(** ** A reference desk: the vault, the workspace and the plugin's data *)

Module Office.

Record t : Type := mk {
  vault : Vault.t;
  (** the document of the active leaf *)
  active : option TFile;
  (** the notices shown, oldest first *)
  notices : list string;
  (** the callbacks registered with [setTimeout] and their delays *)
  timers : list (Deferred * N);
  modal_open : bool;
  (** what [saveData] stored last *)
  data : option Commands.SavedData;
}.

Definition with_vault (o : t) (v : Vault.t) : t :=
  mk v (active o) (notices o) (timers o) (modal_open o) (data o).

Definition on_vault {A} (c : Vault.t -> Res A * Vault.t) (o : t) : Res A * t :=
  let '(r, v') := c (vault o) in (r, with_vault o v').

Definition fresh_file (v : Vault.t) : TFile :=
  S (foldr Nat.max 0%nat (fst <$> map_to_list (Vault.files v))).

(** A created document holds the given text as its body; its header is
    empty and its cache entry absent, the indexer not having read it yet. *)
Definition create (path content : string) (v : Vault.t) : Res TFile * Vault.t :=
  match Vault.lookup_path v path with
  | Some _ => (Fail "File already exists.", v)
  | None =>
      let f := fresh_file v in
      let made := Vault.mkFile path ∅ content None in
      match fst (dir_base path) with
      | Some d =>
          if decide (d ∈ Vault.folders v)
          then (Ok f, Vault.with_files v (<[f := made]> (Vault.files v)))
          else (Fail "ENOENT: no such file or directory", v)
      | None => (Ok f, Vault.with_files v (<[f := made]> (Vault.files v)))
      end
  end.

Definition read_text (f : TFile) (v : Vault.t) : Res string * Vault.t :=
  match Vault.files v !! f with
  | Some fo => (Ok (Vault.f_body fo), v)
  | None => (Fail "ENOENT: no such file or directory", v)
  end.

Definition open_file (f : TFile) (o : t) : Res unit * t :=
  match Vault.files (vault o) !! f with
  | Some _ => (Ok tt, mk (vault o) (Some f) (notices o) (timers o) (modal_open o) (data o))
  | None => (Fail "ENOENT: no such file or directory", o)
  end.

Definition saveData (s : Extended.TaskflowPluginSettings) (o : t) : Res unit * t :=
  (Ok tt, mk (vault o) (active o) (notices o) (timers o) (modal_open o)
            (Some (Commands.saved_of s))).

Definition loadData (o : t) : Res (option Commands.SavedData) * t := (Ok (data o), o).

Global Instance host : Host t := {|
  file_path := fun o => Vault.path_of (vault o);
  file_name := fun o f => snd (dir_base (Vault.path_of (vault o) f));
  file_parent_path := fun o => Vault.parent_of (vault o);
  getFileCache := fun o f => Vault.files (vault o) !! f ≫= Vault.f_cache;
  getAbstractFileByPath := fun o => Vault.lookup_path (vault o);
  getMarkdownFiles := fun o => Vault.markdown_files (vault o);
  createFolder := fun p => on_vault (Vault.mkdir p);
  rename := fun f newPath => on_vault (Vault.move f newPath);
  processFrontMatter := fun f fn => on_vault (Vault.patch f fn);
  Date_now := fun o => Vault.clock (vault o);
  resolvedTimeZone := fun o => Vault.zone (vault o);
  formatInTimeZone := Vault.format_in_zone;
|}.

Global Instance desk : Desk t := {|
  Workspace_getActiveFile := active;
  Workspace_openFile := open_file;
  Vault_create := fun path content => on_vault (create path content);
  Vault_read := fun f => on_vault (read_text f);
  new_Notice := fun msg o =>
    mk (vault o) (active o) (notices o ++ [msg]) (timers o) (modal_open o) (data o);
  setTimeout := fun d ms o =>
    mk (vault o) (active o) (notices o) (timers o ++ [(d, ms)]) (modal_open o) (data o);
  Modal_close := fun o =>
    mk (vault o) (active o) (notices o) (timers o) false (data o);
|}.

(** [trim] on ASCII text: blanks, tabs and line breaks are dropped at both
    ends. *)
Definition is_space (c : ascii) : bool :=
  let n := nat_of_ascii c in (n =? 32)%nat || ((9 <=? n)%nat && (n <=? 13)%nat).

Fixpoint trim_start (s : string) : string :=
  match s with
  | String c s' => if is_space c then trim_start s' else s
  | EmptyString => EmptyString
  end.

Fixpoint trim_end (s : string) : string :=
  match s with
  | String c s' =>
      match trim_end s' with
      | EmptyString => if is_space c then EmptyString else String c EmptyString
      | t => String c t
      end
  | EmptyString => EmptyString
  end.

Definition trim (s : string) : string := trim_end (trim_start s).

(** A stand-in for the printing of numbers above 2^53, where the counters
    of the scenes below never get. *)
Definition shortest (n : N) : string := pretty n ++ "e+0".

End Office.

(** ** Scenes on the reference desk *)

Module Scene.

(** One task, open in the active leaf, under the root container; the task
    modal is showing. *)
Definition tasks : Vault.t :=
  Vault.mk {[ 0%nat := Fixture.note "taskflow/[TASK-001] water plants.md"
                         Fixture.unticked ]}
    {[ "taskflow" ]} 1700000000000%Z "UTC".

Definition office : Office.t := Office.mk tasks (Some 0%nat) [] [] true None.

(** The shipped defaults: the counter is still at 1, the number the
    existing task carries. *)
Definition unscanned_plugin : Plugin Extended.TaskflowPluginSettings Office.t :=
  mkPlugin Extended.DEFAULT_SETTINGS ∅ [] office.

(** The counter past the existing task. *)
Definition scanned_plugin : Plugin Extended.TaskflowPluginSettings Office.t :=
  mkPlugin (Extended.with_taskCounter Extended.DEFAULT_SETTINGS (Fin 2)) ∅ [] office.

(** The data the basic variant left behind. *)
Definition legacy_office : Office.t :=
  Office.mk tasks None [] [] false (Some (Commands.basic_saved Fixture.basic_settings)).

Definition legacy_plugin : Plugin Extended.TaskflowPluginSettings Office.t :=
  mkPlugin Extended.DEFAULT_SETTINGS ∅ [] legacy_office.

(** A task at the top level of the vault, and no root folder configured. *)
Definition flat : Vault.t :=
  Vault.mk {[ 0%nat := Fixture.note "[TASK-001] water plants.md" Fixture.unticked ]}
    ∅ 1700000000000%Z "UTC".

Definition rootless_settings : Extended.TaskflowPluginSettings :=
  Extended.mkSettings "" "" "done" "Done" "Inbox" "icebox" true "backlog"
    true "completed_date" (Fin 2).

Definition rootless_plugin : Plugin Extended.TaskflowPluginSettings Office.t :=
  mkPlugin rootless_settings ∅ [] (Office.mk flat (Some 0%nat) [] [] false None).

End Scene.

(** * Calls in progress: [processFile] with its [await]s as suspension points *)

(** The definitions above run a call in one piece, as if nothing else
    happened while it awaits.  Here the same code is given with every
    [await] a point where the call is suspended and the event loop may run
    other handlers on the plugin before the call resumes. *)

Module Async.

(** A call in progress from some plugin state on: it has ended, or it is
    suspended with the plugin as it stands and resumes from the plugin as
    it then is. *)
Inductive Step (S H A : Type) : Type :=
| Done (o : Outcome A) (st : Plugin S H)
| Yield (st : Plugin S H) (k : Plugin S H -> Step S H A).
Arguments Done {S H A} o st.
Arguments Yield {S H A} st k.

Definition R (S H A : Type) : Type := Plugin S H -> Step S H A.

Fixpoint step_bind {S H A B} (s : Step S H A) (f : A -> R S H B) : Step S H B :=
  match s with
  | Done (Normal a) st => f a st
  | Done Return st => Done Return st
  | Done (Throw e) st => Done (Throw e) st
  | Yield st k => Yield st (fun st' => step_bind (k st') f)
  end.

#[local] Instance R_ret {S H} : MRet (R S H) := fun A a st => Done (Normal a) st.

#[local] Instance R_bind {S H} : MBind (R S H) := fun A B f m st => step_bind (m st) f.

(** The call left to itself: every suspension resumes at once, from the
    plugin as it was left. *)
Fixpoint finish {S H A} (s : Step S H A) : Outcome A * Plugin S H :=
  match s with
  | Done o st => (o, st)
  | Yield st k => finish (k st)
  end.

(** The plugin states at which the call, left to itself, is suspended. *)
Fixpoint suspensions {S H A} (s : Step S H A) : list (Plugin S H) :=
  match s with
  | Done _ _ => []
  | Yield st k => st :: suspensions (k st)
  end.

(** [P] holds of the plugin at every suspension of the call and [Q] when it
    ends, whatever handlers run while it is suspended, as long as they hand
    the plugin back with [P]. *)
Fixpoint keeps {S H A} (P Q : Plugin S H -> Prop) (s : Step S H A) : Prop :=
  match s with
  | Done _ st => Q st
  | Yield st k => P st /\ forall st', P st' -> keeps P Q (k st')
  end.

Section Statements.
Context {S H : Type} `{Host H}.

(** Statements without an [await] run in one piece. *)
Definition sync {A} (m : M S H A) : R S H A := fun st =>
  let '(o, st') := m st in Done o st'.

(** [await e]: what [e] started runs up to its end, the caller is then
    suspended, and the result is delivered when it resumes.  A host call
    acts on the host when it is issued. *)
Fixpoint step_await {A} (s : Step S H A) : Step S H A :=
  match s with
  | Done o st => Yield st (fun st' => Done o st')
  | Yield st k => Yield st (fun st' => step_await (k st'))
  end.

Definition await {A} (r : R S H A) : R S H A := fun st => step_await (r st).

Definition return_ {A} : R S H A := sync return_.
Definition gets {A} (f : Plugin S H -> A) : R S H A := sync (gets f).
Definition read {A} (f : H -> A) : R S H A := sync (read f).
Definition processing_add (p : string) : R S H unit := sync (processing_add p).
Definition processing_delete (p : string) : R S H unit := sync (processing_delete p).
Definition console_warn (msg : string) : R S H unit := sync (console_warn msg).
Definition console_log (msg : string) : R S H unit := sync (console_log msg).
Definition console_error (msg : string) (e : option Err) : R S H unit :=
  sync (console_error msg e).
Definition vault_createFolder (p : string) : R S H unit :=
  await (sync (vault_createFolder p)).
Definition vault_rename (f : TFile) (newPath : string) : R S H unit :=
  await (sync (vault_rename f newPath)).
Definition fileManager_processFrontMatter (f : TFile) (p : Patch) : R S H unit :=
  await (sync (fileManager_processFrontMatter f p)).

Fixpoint step_catch {A} (s : Step S H A) (handler : Err -> R S H A) : Step S H A :=
  match s with
  | Done (Throw e) st => handler e st
  | Done o st => Done o st
  | Yield st k => Yield st (fun st' => step_catch (k st') handler)
  end.

(** The [finally] block has run after a block that ended with [o]. *)
Fixpoint step_after {A} (o : Outcome A) (s : Step S H unit) : Step S H A :=
  match s with
  | Done (Normal _) st => Done o st
  | Done Return st => Done Return st
  | Done (Throw e) st => Done (Throw e) st
  | Yield st k => Yield st (fun st' => step_after o (k st'))
  end.

Fixpoint step_finally {A} (s : Step S H A) (fin : R S H unit) : Step S H A :=
  match s with
  | Done o st => step_after o (fin st)
  | Yield st k => Yield st (fun st' => step_finally (k st') fin)
  end.

(** [try { body } catch (e) { handler e } finally { fin }] *)
Definition try_catch_finally {A} (body : R S H A) (handler : Err -> R S H A)
    (fin : R S H unit) : R S H A := fun st =>
  step_finally (step_catch (body st) handler) fin.

Fixpoint step_call (s : Step S H unit) : Step S H unit :=
  match s with
  | Done (Throw e) st => Done (Throw e) st
  | Done _ st => Done (Normal tt) st
  | Yield st k => Yield st (fun st' => step_call (k st'))
  end.

(** A function call: a [return;] inside the body ends the call normally. *)
Definition call (body : R S H unit) : R S H unit := fun st => step_call (body st).

Fixpoint ensureFolder_loop (parts : list string) (current : string) : R S H unit :=
  match parts with
  | [] => mret tt
  | part :: rest =>
      let current := if str_truthy current then current ++ "/" ++ part else part in
      existing ← read (fun h => getAbstractFileByPath h current);
      (match existing with
       | None => vault_createFolder current
       | Some _ => mret tt
       end);;
      ensureFolder_loop rest current
  end.

Definition ensureFolder (folderPath : string) : R S H unit :=
  call (
    if negb (str_truthy folderPath) then return_ else
    let parts := split slash folderPath in
    ensureFolder_loop parts "").

(** The shape of [processFile]: guard test, guard entry, and the
    [try]/[catch]/[finally] around a body. *)
Definition guarded_call (body : string -> R S H unit) (msg : string -> string)
    (file : TFile) : R S H unit :=
  call (
    originalPath ← read (fun h => file_path h file);
    guard ← gets processing;
    (if decide (originalPath ∈ guard) then return_ else mret tt);;
    processing_add originalPath;;
    try_catch_finally
      (body originalPath)
      (fun e => console_error (msg originalPath) (Some e))
      (processing_delete originalPath)).

End Statements.

(** ** The extended variant *)

Module ExtendedVariant.

Section WithHost.
Context {H : Type} `{Host H}.

Abbreviation Task := (R Extended.TaskflowPluginSettings H).

Definition processFile_try (s : Extended.TaskflowPluginSettings) (file : TFile)
    (originalPath : string) : Task unit :=
  path ← read (fun h => file_path h file);
  (if str_truthy (Extended.rootFolder s)
      && negb (startsWith path (Extended.rootFolder s ++ "/"))
   then return_ else mret tt);;
  (if negb (str_truthy (Extended.propertyName s))
      || negb (str_truthy (Extended.absoluteTrueFolder s))
      || negb (str_truthy (Extended.absoluteFalseFolder s))
   then console_warn "Taskflow Plugin: Settings are incomplete.";; return_
   else mret tt);;
  fileCache ← read (fun h => getFileCache h file);
  fm ← match fileCache with
       | None => return_
       | Some fc =>
           match frontmatter fc with
           | None => return_
           | Some fm => mret fm
           end
       end;
  let propertyValue := fm !! Extended.propertyName s in
  targetFolder ← match propertyValue with
                 | Some (VBool true) => mret (Extended.absoluteTrueFolder s)
                 | Some (VBool false) => mret (Extended.absoluteFalseFolder s)
                 | _ => return_
                 end;
  parent ← read (fun h => file_parent_path h file);
  let currentFolderPath := or_empty parent in
  (if String.eqb currentFolderPath targetFolder then return_ else mret tt);;
  name ← read (fun h => file_name h file);
  let newPath := targetFolder ++ "/" ++ name in
  await (ensureFolder targetFolder);;
  vault_rename file newPath;;
  console_log ("Taskflow Plugin: Moved " ++ dquote ++ originalPath ++ dquote
               ++ " to " ++ dquote ++ newPath ++ dquote);;
  if Extended.enableCompletedDate s && str_truthy (Extended.completedDatePropertyName s)
  then
    match propertyValue with
    | Some (VBool true) =>
        now ← read Date_now;
        timeZone ← read resolvedTimeZone;
        fileManager_processFrontMatter file
          (StampCompleted (Extended.completedDatePropertyName s)
             (formatInTimeZone now timeZone completed_date_format))
    | Some (VBool false) =>
        fileManager_processFrontMatter file
          (ClearCompleted (Extended.completedDatePropertyName s))
    | _ => mret tt
    end
  else mret tt.

Definition processFile_body (file : TFile) (originalPath : string) : Task unit :=
  s ← gets settings;
  processFile_try s file originalPath.

Definition processFile (file : TFile) : Task unit :=
  call (
    originalPath ← read (fun h => file_path h file);
    guard ← gets processing;
    (if decide (originalPath ∈ guard) then return_ else mret tt);;
    processing_add originalPath;;
    try_catch_finally
      (processFile_body file originalPath)
      (fun e => console_error (Extended.error_message originalPath) (Some e))
      (processing_delete originalPath)).

End WithHost.

End ExtendedVariant.

(** ** The basic variant *)

Module BasicVariant.

Section WithHost.
Context {H : Type} `{Host H}.

Abbreviation Task := (R Basic.TaskflowPluginSettings H).

Definition processFile_try (s : Basic.TaskflowPluginSettings) (file : TFile)
    (originalPath : string) : Task unit :=
  (if negb (str_truthy (Basic.propertyName s)) || negb (str_truthy (Basic.trueFolder s))
      || negb (str_truthy (Basic.falseFolder s))
   then console_warn "Taskflow Plugin: Settings are incomplete.";; return_
   else mret tt);;
  fileCache ← read (fun h => getFileCache h file);
  fm ← match fileCache with
       | None => return_
       | Some fc =>
           match frontmatter fc with
           | None => return_
           | Some fm => mret fm
           end
       end;
  let propertyValue := fm !! Basic.propertyName s in
  targetFolder ← match propertyValue with
                 | Some (VBool true) => mret (Basic.trueFolder s)
                 | Some (VBool false) => mret (Basic.falseFolder s)
                 | _ => return_
                 end;
  parent ← read (fun h => file_parent_path h file);
  let currentFolderPath := or_empty parent in
  (if String.eqb currentFolderPath targetFolder then return_ else mret tt);;
  name ← read (fun h => file_name h file);
  let newPath := targetFolder ++ "/" ++ name in
  targetFolderAbstractFile ← read (fun h => getAbstractFileByPath h targetFolder);
  (match targetFolderAbstractFile with
   | None => vault_createFolder targetFolder
   | Some (IsFile _) =>
       console_error ("Taskflow Plugin: Target path " ++ dquote ++ targetFolder
                      ++ dquote ++ " is a file, not a folder.") None;;
       return_
   | Some (IsFolder _) => mret tt
   end);;
  vault_rename file newPath;;
  console_log ("Taskflow Plugin: Moved " ++ dquote ++ originalPath ++ dquote
               ++ " to " ++ dquote ++ newPath ++ dquote);;
  if Basic.enableCompletedDate s && str_truthy (Basic.completedDatePropertyName s) then
    match propertyValue with
    | Some (VBool true) =>
        now ← read Date_now;
        timeZone ← read resolvedTimeZone;
        fileManager_processFrontMatter file
          (StampCompleted (Basic.completedDatePropertyName s)
             (formatInTimeZone now timeZone completed_date_format))
    | Some (VBool false) =>
        fileManager_processFrontMatter file
          (ClearCompleted (Basic.completedDatePropertyName s))
    | _ => mret tt
    end
  else mret tt.

Definition processFile_body (file : TFile) (originalPath : string) : Task unit :=
  s ← gets settings;
  processFile_try s file originalPath.

Definition processFile (file : TFile) : Task unit :=
  call (
    originalPath ← read (fun h => file_path h file);
    guard ← gets processing;
    (if decide (originalPath ∈ guard) then return_ else mret tt);;
    processing_add originalPath;;
    try_catch_finally
      (processFile_body file originalPath)
      (fun e => console_error (Basic.error_message originalPath) (Some e))
      (processing_delete originalPath)).

End WithHost.

End BasicVariant.

End Async.

(** The call in progress, left to itself, is the call run in one piece. *)
Definition agrees {S H A} (r : Async.R S H A) (m : M S H A) : Prop :=
  forall st, Async.finish (r st) = m st.

(** A block that, started with [P], has [P] at each of its suspensions and
    at its end, as long as the plugin is handed back to it with [P]. *)
Definition preserves {S H A} (P : Plugin S H -> Prop) (r : Async.R S H A) : Prop :=
  forall st, P st -> Async.keeps P P (r st).
(** * Reasoning about plugin code over an arbitrary host *)

Lemma str_truthy_true s : str_truthy s = true <-> s <> "".
Proof.
  unfold str_truthy. destruct (String.eqb_spec s ""); simpl; split; congruence.
Qed.

Lemma str_truthy_false s : str_truthy s = false <-> s = "".
Proof.
  unfold str_truthy. destruct (String.eqb_spec s ""); simpl; split; congruence.
Qed.

Section Generic.
Context {S H : Type} `{Host H}.

Lemma Replay_app h1 l1 h2 l2 h3 :
  Replay h1 l1 h2 -> Replay h2 l2 h3 -> Replay h1 (l1 ++ l2) h3.
Proof.
  induction 1; intros Hrest; simpl; [assumption | constructor; auto ..].
Qed.

Section Tracks.
Variable ok : Event -> Prop.

Lemma tracks_pure {A} (o : Outcome A) :
  (forall e, o <> Throw e) -> tracks ok (fun st : Plugin S H => (o, st)).
Proof.
  intros Ho st. unfold tracks_at. exists []. simpl. rewrite app_nil_r.
  repeat split; auto using Replay_nil.
  destruct o; [constructor .. | exfalso; eapply Ho; reflexivity].
Qed.

Lemma tracks_ret {A} (a : A) : tracks ok (mret a : M S H A).
Proof. apply (tracks_pure (Normal a)). discriminate. Qed.

Lemma tracks_return {A} : tracks ok (return_ : M S H A).
Proof. apply (tracks_pure Return). discriminate. Qed.

Lemma tracks_gets {A} (f : Plugin S H -> A) : tracks ok (gets f).
Proof.
  intros st. unfold tracks_at. exists []. simpl. rewrite app_nil_r.
  repeat split; auto using Replay_nil; constructor.
Qed.

Lemma tracks_read {A} (f : H -> A) : tracks ok (read f : M S H A).
Proof. apply tracks_gets. Qed.

Lemma tracks_emit ev :
  is_mutation ev = false -> ok ev -> tracks ok (emit ev : M S H unit).
Proof.
  intros Hev Hok st. unfold tracks_at. exists [ev]. simpl.
  repeat split; auto.
  - apply Replay_silent; auto using Replay_nil.
  - constructor; [| constructor]. destruct ev; try reflexivity; discriminate.
Qed.

Lemma tracks_bind {A B} (m : M S H A) (f : A -> M S H B) :
  tracks ok m -> (forall a, tracks ok (f a)) -> tracks ok (m ≫= f).
Proof.
  intros Hm Hf st. unfold tracks_at, mbind, M_bind.
  destruct (Hm st) as (l1 & Hs1 & Hp1 & Hj1 & Hr1 & Hk1 & Ho1).
  destruct (m st) as [[a | | e] st1]; simpl in *.
  - destruct (Hf a st1) as (l2 & Hs2 & Hp2 & Hj2 & Hr2 & Hk2 & Ho2).
    exists (l1 ++ l2)%list. rewrite Hs2, Hp2, Hj2, Hs1, Hp1, Hj1, app_assoc.
    repeat split; auto.
    + eapply Replay_app; eauto.
    + apply Forall_app; split; auto.
    + destruct ((f a st1).1) as [b | | e]; simpl in *.
      * apply Forall_app; auto.
      * apply Forall_app; auto.
      * destruct Ho2 as (l0 & ev & -> & Hev & Hl0).
        exists (l1 ++ l0)%list, ev. rewrite app_assoc.
        repeat split; auto. apply Forall_app; auto.
  - exists l1. repeat split; auto.
  - exists l1. repeat split; auto.
Qed.

Lemma tracks_await (c : H -> Res unit * H) (ev : option Err -> Event) :
  (forall r, failed (ev r) = r) ->
  (forall r, ok (ev r)) ->
  (forall h, Replay h [ev (res_err (c h).1)] (c h).2) ->
  tracks ok (await c ev : M S H unit).
Proof.
  intros Hfail Hok Hrep st. unfold tracks_at, await.
  specialize (Hrep (app st)).
  destruct (c (app st)) as [r h'] eqn:Hc; simpl in *.
  exists [ev (res_err r)].
  destruct r as [[] | e]; simpl in *;
    do 3 (split; [reflexivity |]); (split; [assumption |]);
    (split; [repeat constructor; apply Hok |]).
  - repeat constructor. apply Hfail.
  - exists [], (ev (Some e)). simpl. repeat split; auto.
Qed.

Lemma tracks_createFolder p :
  (forall r, ok (CreateFolder p r)) -> tracks ok (vault_createFolder p : M S H unit).
Proof.
  intros Hok. apply tracks_await; auto.
  intros h. apply Replay_createFolder, Replay_nil.
Qed.

Lemma tracks_rename f newPath :
  (forall r, ok (Rename f newPath r)) -> tracks ok (vault_rename f newPath : M S H unit).
Proof.
  intros Hok. apply tracks_await; auto.
  intros h. apply Replay_rename, Replay_nil.
Qed.

Lemma tracks_processFrontMatter f p :
  (forall r, ok (ProcessFrontMatter f p r)) ->
  tracks ok (fileManager_processFrontMatter f p : M S H unit).
Proof.
  intros Hok. apply tracks_await; auto.
  intros h. apply Replay_processFrontMatter, Replay_nil.
Qed.

Lemma tracks_call (m : M S H unit) : tracks ok m -> tracks ok (call m).
Proof.
  intros Hm st. unfold tracks_at, call.
  destruct (Hm st) as (l & Hs & Hp & Hj & Hr & Hk & Ho).
  exists l. destruct (m st) as [[[] | | e] st1]; simpl in *; repeat split; auto.
Qed.

Lemma tracks_ensureFolder_loop parts current :
  (forall p r, p ∈ prefix_paths parts current -> ok (CreateFolder p r)) ->
  tracks ok (ensureFolder_loop parts current : M S H unit).
Proof.
  revert current.
  induction parts as [| part rest IH]; intros current Hok; simpl.
  - apply tracks_ret.
  - apply tracks_bind; [apply tracks_read |]. intros existing.
    apply tracks_bind.
    + destruct existing; [apply tracks_ret |].
      apply tracks_createFolder. intros r. apply Hok. simpl. apply list_elem_of_here.
    + intros _. apply IH. intros p r Hp. apply Hok. simpl.
      by apply list_elem_of_further.
Qed.

Lemma tracks_ensureFolder folderPath :
  (forall p r, p ∈ container_paths folderPath -> ok (CreateFolder p r)) ->
  tracks ok (ensureFolder folderPath : M S H unit).
Proof.
  intros Hok. apply tracks_call. unfold container_paths in Hok.
  destruct (negb (str_truthy folderPath));
    [apply tracks_return | apply tracks_ensureFolder_loop; auto].
Qed.

End Tracks.

End Generic.

(** ** The reentrancy frame shared by both [processFile]s *)

Section Guarded.
Context {S H : Type} `{Host H}.

Lemma guarded_call_in body msg file (st : Plugin S H) :
  file_path (app st) file ∈ processing st ->
  guarded_call body msg file st = (Normal tt, st).
Proof.
  intros Hin. unfold guarded_call, call, mbind, M_bind, read, gets. simpl.
  destruct (decide _) as [_ | Hout]; [reflexivity | contradiction].
Qed.

Lemma guarded_call_out body msg file (st : Plugin S H) :
  file_path (app st) file ∉ processing st ->
  guarded_call body msg file st =
    (Normal tt,
     released (file_path (app st) file) (msg (file_path (app st) file))
       (body (file_path (app st) file) (entered (file_path (app st) file) st))).
Proof.
  intros Hout.
  unfold guarded_call, call, mbind, M_bind, read, gets, try_catch_finally. simpl.
  destruct (decide _) as [Hin | _]; [contradiction |]. simpl.
  fold (entered (file_path (app st) file) st).
  destruct (body _ (entered _ st)) as [[[] | | e] st2]; simpl; try reflexivity.
  unfold released; simpl. by rewrite <- app_assoc.
Qed.

Lemma guard_restored (g : gset string) (p : string) : p ∉ g -> (g ∪ {[p]}) ∖ {[p]} = g.
Proof.
  intros Hp. apply set_eq. intros x.
  rewrite elem_of_difference, elem_of_union, elem_of_singleton.
  split; [tauto |]. intros Hx. split; [tauto |]. intros ->. contradiction.
Qed.

End Guarded.

Ltac tracks_step :=
  first
    [ apply tracks_ret
    | apply tracks_return
    | apply tracks_read
    | apply tracks_gets
    | apply tracks_ensureFolder; intros; exact I
    | apply tracks_createFolder; intros; exact I
    | apply tracks_rename; intros; reflexivity
    | apply tracks_processFrontMatter; intros; split; reflexivity
    | apply tracks_emit; [reflexivity | exact I]
    | apply tracks_bind; [| intros ?]
    | match goal with
      | |- tracks _ (match ?x with _ => _ end) => destruct x
      end ].

Lemma extended_try_tracks {H : Type} `{Host H} s file originalPath :
  tracks (body_event file (Extended.completedDatePropertyName s))
    (Extended.processFile_try s file originalPath).
Proof. unfold Extended.processFile_try. repeat tracks_step. Qed.

Lemma basic_try_tracks {H : Type} `{Host H} s file originalPath :
  tracks (body_event file (Basic.completedDatePropertyName s))
    (Basic.processFile_try s file originalPath).
Proof. unfold Basic.processFile_try. repeat tracks_step. Qed.

(** ** The branches of [processFile] *)

Section Branches.
Context {H : Type} `{Host H}.

Lemma ext_try_eq s file originalPath (st : Plugin Extended.TaskflowPluginSettings H) :
  Extended.processFile_try s file originalPath st =
    if negb (ext_in_scope s (app st) file) then (Return, st)
    else if negb (ext_complete s) then (Return, logged st [incomplete_warning])
    else
      match snapshot_value (app st) file (Extended.propertyName s) with
      | Some (VBool value) =>
          if String.eqb (or_empty (file_parent_path (app st) file)) (ext_target s value)
          then (Return, st)
          else
            (ensureFolder (ext_target s value);;
             rename_and_stamp (Extended.enableCompletedDate s)
               (Extended.completedDatePropertyName s) value file originalPath
               (ext_target s value ++ "/" ++ file_name (app st) file)) st
      | _ => (Return, st)
      end.
Proof.
  unfold Extended.processFile_try, ext_in_scope, ext_complete, snapshot_value.
  unfold mbind at 1, M_bind at 1, read at 1, gets at 1.
  cbv beta iota.
  destruct (str_truthy (Extended.rootFolder s)
            && negb (startsWith (file_path (app st) file) (Extended.rootFolder s ++ "/")));
    [reflexivity |].
  destruct (str_truthy (Extended.propertyName s)),
           (str_truthy (Extended.absoluteTrueFolder s)),
           (str_truthy (Extended.absoluteFalseFolder s)); try reflexivity.
  unfold mbind, M_bind, read, gets, mret, M_ret, return_. cbn.
  destruct (getFileCache (app st) file) as [[[fm |]] |]; cbn; try reflexivity.
  destruct (fm !! Extended.propertyName s) as [[[] | | | | |] |]; cbn; try reflexivity.
  - destruct (String.eqb _ _); reflexivity.
  - destruct (String.eqb _ _); reflexivity.
Qed.

Lemma bas_try_eq s file originalPath (st : Plugin Basic.TaskflowPluginSettings H) :
  Basic.processFile_try s file originalPath st =
    if negb (bas_complete s) then (Return, logged st [incomplete_warning])
    else
      match snapshot_value (app st) file (Basic.propertyName s) with
      | Some (VBool value) =>
          if String.eqb (or_empty (file_parent_path (app st) file)) (bas_target s value)
          then (Return, st)
          else
            match getAbstractFileByPath (app st) (bas_target s value) with
            | Some (IsFile _) =>
                (Return,
                 logged st [ConsoleError (target_is_file_message (bas_target s value)) None])
            | Some (IsFolder _) =>
                rename_and_stamp (Basic.enableCompletedDate s)
                  (Basic.completedDatePropertyName s) value file originalPath
                  (bas_target s value ++ "/" ++ file_name (app st) file) st
            | None =>
                (vault_createFolder (bas_target s value);;
                 rename_and_stamp (Basic.enableCompletedDate s)
                   (Basic.completedDatePropertyName s) value file originalPath
                   (bas_target s value ++ "/" ++ file_name (app st) file)) st
            end
      | _ => (Return, st)
      end.
Proof.
  unfold Basic.processFile_try, bas_complete, snapshot_value.
  destruct (str_truthy (Basic.propertyName s)),
           (str_truthy (Basic.trueFolder s)),
           (str_truthy (Basic.falseFolder s)); try reflexivity.
  unfold mbind, M_bind, read, gets, mret, M_ret, return_. cbn.
  destruct (getFileCache (app st) file) as [[[fm |]] |]; cbn; try reflexivity.
  destruct (fm !! Basic.propertyName s) as [[[] | | | | |] |]; cbn; try reflexivity.
  - destruct (String.eqb _ _); [reflexivity |].
    destruct (getAbstractFileByPath _ _) as [[] |]; reflexivity.
  - destruct (String.eqb _ _); [reflexivity |].
    destruct (getAbstractFileByPath _ _) as [[] |]; reflexivity.
Qed.

End Branches.

(** ** One run of [processFile], summarised *)

Section Runs.
Context {S H : Type} `{Host H}.

Lemma guarded_call_run (ok : Event -> Prop) body msg file (st : Plugin S H) :
  let p := file_path (app st) file in
  p ∉ processing st ->
  tracks_at ok (body p) (entered p st) ->
  run_summary ok (msg p) p st (guarded_call body msg file st).
Proof.
  intros p Hout (l & Hs & Hp & Hj & Hr & Hk & Ho).
  rewrite guarded_call_out by exact Hout. fold p.
  exists l, (body p (entered p st)).1. unfold released; simpl.
  rewrite Hs, Hp, Hj. simpl.
  repeat split; auto.
  - by apply guard_restored.
  - by rewrite <- !app_assoc.
Qed.

Lemma body_event_not_guard file key ev :
  body_event file key ev -> is_guard_event ev = false.
Proof. destruct ev; simpl; auto; contradiction. Qed.

Lemma caught_not_guard msg (o : Outcome unit) :
  Forall (fun ev => is_guard_event ev = false) (caught msg o).
Proof. destruct o; repeat constructor. Qed.

Lemma caught_not_failed msg (o : Outcome unit) :
  Forall (fun ev => failed ev = None) (caught msg o).
Proof. destruct o; repeat constructor. Qed.

(** A failed entry of a block's journal is its last entry, and the block
    threw that error. *)
Lemma outcome_ok_failed {A} (o : Outcome A) l ev e :
  outcome_ok o l -> ev ∈ l -> failed ev = Some e ->
  o = Throw e /\ exists l0, l = (l0 ++ [ev])%list.
Proof.
  intros Ho Hin Hev. destruct o as [a | | e']; simpl in Ho.
  - rewrite Forall_forall in Ho. rewrite (Ho ev) in Hev by exact Hin. discriminate.
  - rewrite Forall_forall in Ho. rewrite (Ho ev) in Hev by exact Hin. discriminate.
  - destruct Ho as (l0 & ev' & -> & Hev' & Hl0).
    apply elem_of_app in Hin as [Hin | Hin].
    + rewrite Forall_forall in Hl0. rewrite (Hl0 ev) in Hev by exact Hin. discriminate.
    + apply list_elem_of_singleton in Hin as ->.
      split; [congruence | eauto].
Qed.

(** The guard brackets everything a run journals. *)
Lemma run_summary_bracket file key msg p (st : Plugin S H) r :
  run_summary (body_event file key) msg p st r ->
  exists mid,
    journal r.2 = (journal st ++ GuardAdd p :: mid ++ [GuardDelete p])%list
    /\ Forall (fun ev => is_guard_event ev = false) mid.
Proof.
  intros (l & o & _ & _ & _ & Hj & _ & Hk & _).
  exists (l ++ caught msg o)%list. split.
  - rewrite Hj. by rewrite <- app_assoc.
  - apply Forall_app; split; [| apply caught_not_guard].
    eapply Forall_impl; [exact Hk |]. intros ev. apply body_event_not_guard.
Qed.

(** A rejected host call is followed by the [catch] log line and the guard
    release, and by nothing else. *)
Lemma run_summary_failure ok msg p (st : Plugin S H) r :
  run_summary ok msg p st r ->
  exists l,
    journal r.2 = (journal st ++ l)%list
    /\ forall ev e, ev ∈ l -> failed ev = Some e ->
         exists l0, l = (l0 ++ [ev; ConsoleError msg (Some e); GuardDelete p])%list.
Proof.
  intros (l & o & _ & _ & _ & Hj & _ & _ & Ho).
  eexists. split; [exact Hj |].
  intros ev e Hin Hev.
  assert (Hl : ev ∈ l).
  { apply elem_of_cons in Hin as [-> | Hin]; [discriminate |].
    apply elem_of_app in Hin as [Hin | Hin]; [exact Hin |].
    apply elem_of_app in Hin as [Hin | Hin].
    - pose proof (caught_not_failed msg o) as Hc. rewrite Forall_forall in Hc.
      rewrite (Hc ev Hin) in Hev. discriminate.
    - apply list_elem_of_singleton in Hin as ->. discriminate. }
  destruct (outcome_ok_failed _ _ _ _ Ho Hl Hev) as [-> [l0 ->]].
  exists (GuardAdd p :: l0). simpl. by rewrite <- app_assoc.
Qed.

End Runs.

Section VariantRuns.
Context {H : Type} `{Host H}.

Lemma ext_processFile_eq file (st : Plugin Extended.TaskflowPluginSettings H) :
  Extended.processFile file st =
    let p := file_path (app st) file in
    if decide (p ∈ processing st) then (Normal tt, st)
    else (Normal tt,
          released p (Extended.error_message p)
            (Extended.processFile_try (settings st) file p (entered p st))).
Proof.
  change (Extended.processFile file)
    with (guarded_call (Extended.processFile_body file) Extended.error_message file).
  simpl. destruct (decide _) as [Hin | Hout].
  - by apply guarded_call_in.
  - by rewrite guarded_call_out.
Qed.

Lemma bas_processFile_eq file (st : Plugin Basic.TaskflowPluginSettings H) :
  Basic.processFile file st =
    let p := file_path (app st) file in
    if decide (p ∈ processing st) then (Normal tt, st)
    else (Normal tt,
          released p (Basic.error_message p)
            (Basic.processFile_try (settings st) file p (entered p st))).
Proof.
  change (Basic.processFile file)
    with (guarded_call (Basic.processFile_body file) Basic.error_message file).
  simpl. destruct (decide _) as [Hin | Hout].
  - by apply guarded_call_in.
  - by rewrite guarded_call_out.
Qed.

Lemma ext_processFile_run file (st : Plugin Extended.TaskflowPluginSettings H) :
  let p := file_path (app st) file in
  p ∉ processing st ->
  run_summary (body_event file (Extended.completedDatePropertyName (settings st)))
    (Extended.error_message p) p st (Extended.processFile file st).
Proof.
  intros p Hout.
  apply (guarded_call_run
           (body_event file (Extended.completedDatePropertyName (settings st)))
           (Extended.processFile_body file)); [exact Hout |].
  pose proof (extended_try_tracks (settings st) file p (entered p st)) as Htry.
unfold tracks_at in *.
unfold Extended.processFile_body, mbind, M_bind, gets.
exact Htry.
Qed.

Lemma bas_processFile_run file (st : Plugin Basic.TaskflowPluginSettings H) :
  let p := file_path (app st) file in
  p ∉ processing st ->
  run_summary (body_event file (Basic.completedDatePropertyName (settings st)))
    (Basic.error_message p) p st (Basic.processFile file st).
Proof.
  intros p Hout.
  apply (guarded_call_run
           (body_event file (Basic.completedDatePropertyName (settings st)))
           (Basic.processFile_body file)); [exact Hout |].
  pose proof (basic_try_tracks (settings st) file p (entered p st)) as Htry.
unfold tracks_at in *.
unfold Basic.processFile_body, mbind, M_bind, gets.
exact Htry.
Qed.

End VariantRuns.

(** The plugin after a run that journalled only the guard entry and release. *)
Lemma released_skip {S H : Type} (p msg : string) (st : Plugin S H) (l : list Event) :
  p ∉ processing st ->
  released p msg (Return, logged (entered p st) l)
  = logged st (GuardAdd p :: l ++ [GuardDelete p]).
Proof.
  intros Hout. unfold released, logged, entered; simpl.
  rewrite guard_restored by exact Hout. f_equal.
  by rewrite <- !app_assoc.
Qed.

Lemma logged_nil {S H : Type} (st : Plugin S H) : logged st [] = st.
Proof. destruct st; unfold logged; simpl. by rewrite app_nil_r. Qed.


Lemma released_skip0 {S H : Type} (p msg : string) (st : Plugin S H) :
  p ∉ processing st ->
  released p msg (Return, entered p st) = logged st [GuardAdd p; GuardDelete p].
Proof.
  intros Hout. rewrite <- (logged_nil (entered p st)).
  by rewrite released_skip.
Qed.

(** ** The relocation: what it journals *)

Section Relocation.
Context {S H : Type} `{Host H}.
Variable ok : Event -> Prop.
Variables (file : TFile) (key : string).
Hypothesis ok_log : forall msg, ok (ConsoleLog msg).
Hypothesis ok_patch : forall p r, patch_key p = key -> ok (ProcessFrontMatter file p r).

Lemma stamp_or_clear_tracks enable value :
  tracks ok (stamp_or_clear enable key value file : M S H unit).
Proof.
  unfold stamp_or_clear.
  destruct (enable && str_truthy key); [| apply tracks_ret].
  destruct value.
  - apply tracks_bind; [apply tracks_read |]. intros now.
    apply tracks_bind; [apply tracks_read |]. intros timeZone.
    apply tracks_processFrontMatter. intros r. by apply ok_patch.
  - apply tracks_processFrontMatter. intros r. by apply ok_patch.
Qed.

Lemma rename_and_stamp_tracks enable value originalPath newPath :
  (forall r, ok (Rename file newPath r)) ->
  tracks ok (rename_and_stamp enable key value file originalPath newPath : M S H unit).
Proof.
  intros Hrename. unfold rename_and_stamp.
  apply tracks_bind; [by apply tracks_rename |]. intros _.
  apply tracks_bind; [apply tracks_emit; [reflexivity | apply ok_log] |]. intros _.
  apply stamp_or_clear_tracks.
Qed.

End Relocation.

Section RelocationEvents.
Context {S H : Type} `{Host H}.

Lemma relocation_tracks (dirs : string -> Prop) file key enable value originalPath
    newPath (m : M S H unit) :
  tracks (relocation_event dirs file newPath key) m ->
  tracks (relocation_event dirs file newPath key)
    (m;; rename_and_stamp enable key value file originalPath newPath).
Proof.
  intros Hm. apply tracks_bind; [exact Hm |]. intros _.
  apply rename_and_stamp_tracks; simpl; auto.
Qed.

Lemma ensureFolder_relocation_tracks file key newPath target :
  tracks (relocation_event (fun q => q ∈ container_paths target) file newPath key)
    (ensureFolder target : M S H unit).
Proof. apply tracks_ensureFolder. intros q r Hq. exact Hq. Qed.

Lemma createFolder_relocation_tracks file key newPath target :
  tracks (relocation_event (fun q => q = target) file newPath key)
    (vault_createFolder target : M S H unit).
Proof. apply tracks_createFolder. intros r. reflexivity. Qed.

End RelocationEvents.

(** ** Runs that stop before the relocation, and runs that reach it *)

Section Skips.
Context {H : Type} `{Host H}.

Lemma ext_skip file (st : Plugin Extended.TaskflowPluginSettings H) :
  let p := file_path (app st) file in
  p ∉ processing st ->
  ext_relocates (settings st) (app st) file = None ->
  Extended.processFile file st =
    (Normal tt,
     logged st (GuardAdd p :: ext_skip_journal (settings st) (app st) file
                ++ [GuardDelete p])).
Proof.
  intros p Hout Hskip. rewrite ext_processFile_eq. simpl. fold p.
  destruct (decide (p ∈ processing st)); [contradiction |].
  rewrite ext_try_eq. unfold ext_relocates, ext_skip_journal in *. simpl in *.
  destruct (ext_in_scope (settings st) (app st) file); simpl in *;
    [| by rewrite released_skip0].
  destruct (ext_complete (settings st)); simpl in *;
    [| by rewrite released_skip].
  destruct (snapshot_value (app st) file (Extended.propertyName (settings st)))
    as [[value | | | | |] |]; try by rewrite released_skip0.
  destruct (String.eqb _ _); [by rewrite released_skip0 | discriminate].
Qed.

Lemma ext_reach file (st : Plugin Extended.TaskflowPluginSettings H) value :
  let p := file_path (app st) file in
  p ∉ processing st ->
  ext_relocates (settings st) (app st) file = Some value ->
  Extended.processFile file st =
    (Normal tt,
     released p (Extended.error_message p)
       ((ensureFolder (ext_target (settings st) value);;
         rename_and_stamp (Extended.enableCompletedDate (settings st))
           (Extended.completedDatePropertyName (settings st)) value file p
           (ext_target (settings st) value ++ "/" ++ file_name (app st) file))
          (entered p st))).
Proof.
  intros p Hout Hgo. rewrite ext_processFile_eq. simpl. fold p.
  destruct (decide (p ∈ processing st)); [contradiction |].
  rewrite ext_try_eq. unfold ext_relocates in *. simpl in *.
  destruct (ext_in_scope (settings st) (app st) file); simpl in *; [| discriminate].
  destruct (ext_complete (settings st)); simpl in *; [| discriminate].
  destruct (snapshot_value (app st) file (Extended.propertyName (settings st)))
    as [[b | | | | |] |]; try discriminate.
  destruct (String.eqb _ _); [discriminate |].
  by injection Hgo as ->.
Qed.

Lemma bas_skip file (st : Plugin Basic.TaskflowPluginSettings H) :
  let p := file_path (app st) file in
  p ∉ processing st ->
  bas_relocates (settings st) (app st) file = None ->
  Basic.processFile file st =
    (Normal tt,
     logged st (GuardAdd p :: bas_skip_journal (settings st) ++ [GuardDelete p])).
Proof.
  intros p Hout Hskip. rewrite bas_processFile_eq. simpl. fold p.
  destruct (decide (p ∈ processing st)); [contradiction |].
  rewrite bas_try_eq. unfold bas_relocates, bas_skip_journal in *. simpl in *.
  destruct (bas_complete (settings st)); simpl in *;
    [| by rewrite released_skip].
  destruct (snapshot_value (app st) file (Basic.propertyName (settings st)))
    as [[value | | | | |] |]; try by rewrite released_skip0.
  destruct (String.eqb _ _); [by rewrite released_skip0 | discriminate].
Qed.

Lemma bas_reach file (st : Plugin Basic.TaskflowPluginSettings H) value :
  let p := file_path (app st) file in
  let target := bas_target (settings st) value in
  let tail : M Basic.TaskflowPluginSettings H unit :=
    rename_and_stamp (Basic.enableCompletedDate (settings st))
      (Basic.completedDatePropertyName (settings st)) value file p
      (target ++ "/" ++ file_name (app st) file) in
  p ∉ processing st ->
  bas_relocates (settings st) (app st) file = Some value ->
  Basic.processFile file st =
    (Normal tt,
     match getAbstractFileByPath (app st) target with
     | Some (IsFile _) =>
         logged st [GuardAdd p; ConsoleError (target_is_file_message target) None;
                    GuardDelete p]
     | Some (IsFolder _) =>
         released p (Basic.error_message p) (tail (entered p st))
     | None =>
         released p (Basic.error_message p)
           ((vault_createFolder target;; tail) (entered p st))
     end).
Proof.
  intros p target tail Hout Hgo. rewrite bas_processFile_eq. simpl. fold p.
  destruct (decide (p ∈ processing st)); [contradiction |].
  rewrite bas_try_eq. unfold bas_relocates in *. simpl in *.
  destruct (bas_complete (settings st)); simpl in *; [| discriminate].
  destruct (snapshot_value (app st) file (Basic.propertyName (settings st)))
    as [[b | | | | |] |]; try discriminate.
  destruct (String.eqb _ _); [discriminate |].
  injection Hgo as ->. fold target.
  destruct (getAbstractFileByPath (app st) target) as [[g | d] |]; try reflexivity.
  by rewrite released_skip.
Qed.

End Skips.

Section Summaries.
Context {S H : Type} `{Host H}.

(** The summary of a run whose body is [m]. *)
Lemma released_summary (ok : Event -> Prop) msg p (st : Plugin S H) (m : M S H unit) :
  p ∉ processing st ->
  tracks_at ok m (entered p st) ->
  run_summary ok msg p st (Normal tt, released p msg (m (entered p st))).
Proof.
  intros Hout (l & Hs & Hp & Hj & Hr & Hk & Ho).
  exists l, (m (entered p st)).1. unfold released; simpl.
  rewrite Hs, Hp, Hj. simpl.
  repeat split; auto.
  - by apply guard_restored.
  - by rewrite <- !app_assoc.
Qed.

(** A mutation journalled by a run was journalled by its body. *)
Lemma mutation_in_body ev p (l : list Event) msg (o : Outcome unit) :
  ev ∈ (GuardAdd p :: l ++ caught msg o ++ [GuardDelete p])%list ->
  is_mutation ev = true ->
  ev ∈ l.
Proof.
  intros Hin Hev.
  apply elem_of_cons in Hin as [-> | Hin]; [discriminate |].
  apply elem_of_app in Hin as [Hin | Hin]; [exact Hin |].
  apply elem_of_app in Hin as [Hin | Hin].
  - destruct o; simpl in Hin; try by apply elem_of_nil in Hin.
    apply list_elem_of_singleton in Hin as ->. discriminate.
  - apply list_elem_of_singleton in Hin as ->. discriminate.
Qed.

Lemma skip_journal_quiet p (l : list Event) :
  Forall (fun ev => is_mutation ev = false) l ->
  Forall (fun ev => is_mutation ev = false) (GuardAdd p :: l ++ [GuardDelete p]).
Proof.
  intros Hl. constructor; [reflexivity |].
  apply Forall_app; split; [exact Hl | by repeat constructor].
Qed.

End Summaries.

Section Quiet.
Context {H : Type} `{Host H}.

Lemma ext_skip_journal_quiet s h file :
  Forall (fun ev => is_mutation ev = false) (ext_skip_journal s h file).
Proof. unfold ext_skip_journal. destruct (_ && _); by repeat constructor. Qed.

Lemma bas_skip_journal_quiet s :
  Forall (fun ev => is_mutation ev = false) (bas_skip_journal s).
Proof. unfold bas_skip_journal. destruct (negb _); by repeat constructor. Qed.

(** A run that does not reach the relocation changes nothing but the
    journal, and journals no mutation. *)
Lemma ext_quiet file (st : Plugin Extended.TaskflowPluginSettings H) :
  ext_relocates (settings st) (app st) file = None ->
  exists l, Extended.processFile file st = (Normal tt, logged st l)
            /\ Forall (fun ev => is_mutation ev = false) l.
Proof.
  intros Hskip.
  destruct (decide (file_path (app st) file ∈ processing st)) as [Hin | Hout].
  - exists []. rewrite ext_processFile_eq. simpl.
    destruct (decide _); [| contradiction]. by rewrite logged_nil.
  - eexists. split; [by apply ext_skip |].
    apply skip_journal_quiet, ext_skip_journal_quiet.
Qed.

Lemma bas_quiet file (st : Plugin Basic.TaskflowPluginSettings H) :
  bas_relocates (settings st) (app st) file = None ->
  exists l, Basic.processFile file st = (Normal tt, logged st l)
            /\ Forall (fun ev => is_mutation ev = false) l.
Proof.
  intros Hskip.
  destruct (decide (file_path (app st) file ∈ processing st)) as [Hin | Hout].
  - exists []. rewrite bas_processFile_eq. simpl.
    destruct (decide _); [| contradiction]. by rewrite logged_nil.
  - eexists. split; [by apply bas_skip |].
    apply skip_journal_quiet, bas_skip_journal_quiet.
Qed.

Lemma ext_relocates_value s h file value :
  ext_relocates s h file = Some value ->
  snapshot_value h file (Extended.propertyName s) = Some (VBool value).
Proof.
  unfold ext_relocates. destruct (_ && _); [| discriminate].
  destruct (snapshot_value _ _ _) as [[b | | | | |] |]; try discriminate.
  destruct (String.eqb _ _); [discriminate |]. by intros [= ->].
Qed.

Lemma bas_relocates_value s h file value :
  bas_relocates s h file = Some value ->
  snapshot_value h file (Basic.propertyName s) = Some (VBool value).
Proof.
  unfold bas_relocates. destruct (bas_complete _); [| discriminate].
  destruct (snapshot_value _ _ _) as [[b | | | | |] |]; try discriminate.
  destruct (String.eqb _ _); [discriminate |]. by intros [= ->].
Qed.

End Quiet.

Section Reaches.
Context {H : Type} `{Host H}.

(** A run that reaches the relocation, summarised with the destination. *)
Lemma ext_reach_summary file (st : Plugin Extended.TaskflowPluginSettings H) value :
  let p := file_path (app st) file in
  let target := ext_target (settings st) value in
  p ∉ processing st ->
  ext_relocates (settings st) (app st) file = Some value ->
  run_summary
    (relocation_event (fun q => q ∈ container_paths target) file
       (target ++ "/" ++ file_name (app st) file)
       (Extended.completedDatePropertyName (settings st)))
    (Extended.error_message p) p st (Extended.processFile file st).
Proof.
  intros p target Hout Hgo.
  rewrite (ext_reach file st value Hout Hgo). fold p target.
  apply released_summary; [exact Hout |].
  apply relocation_tracks, ensureFolder_relocation_tracks.
Qed.

Lemma bas_reach_summary file (st : Plugin Basic.TaskflowPluginSettings H) value :
  let p := file_path (app st) file in
  let target := bas_target (settings st) value in
  p ∉ processing st ->
  bas_relocates (settings st) (app st) file = Some value ->
  (forall g, getAbstractFileByPath (app st) target <> Some (IsFile g)) ->
  run_summary
    (relocation_event (fun q => q = target) file
       (target ++ "/" ++ file_name (app st) file)
       (Basic.completedDatePropertyName (settings st)))
    (Basic.error_message p) p st (Basic.processFile file st).
Proof.
  intros p target Hout Hgo Hnofile.
  rewrite (bas_reach file st value Hout Hgo). fold p target.
  destruct (getAbstractFileByPath (app st) target) as [[g | d] |] eqn:Hat.
  - by destruct (Hnofile g).
  - apply released_summary; [exact Hout |].
    apply rename_and_stamp_tracks; simpl; auto.
  - apply released_summary; [exact Hout |].
    apply relocation_tracks, createFolder_relocation_tracks.
Qed.

End Reaches.

(** ** Numbers: doubles are exact up to 2^53 *)

Lemma to_double_exact (n : N) : (n <= 2 ^ 53)%N -> to_double n = Fin n.
Proof.
  intros Hn. apply N.lt_eq_cases in Hn as [Hlt | ->]; [| by vm_compute].
  unfold to_double.
  assert (Hsz : (N.size n <= 53)%N).
  { destruct (N.eq_dec n 0%N) as [-> | Hpos]; [by vm_compute |].
    rewrite N.size_log2 by exact Hpos.
    apply N.le_succ_l, N.log2_lt_pow2; lia. }
  apply N.leb_le in Hsz. by rewrite Hsz.
Qed.

Lemma highest_le (l : list N) (b : N) :
  Forall (fun n => (n <= b)%N) l -> (highest l <= b)%N.
Proof. induction 1; simpl; lia. Qed.

Section CounterScan.
Context {H : Type} `{Host H}.

(** The loop of [detectTaskCounter] computes the highest in-scope number,
    as long as every number met is exactly representable. *)
Lemma detect_loop_highest (h : H) (rootFolder : string) (files : list TFile) (acc : N) :
  (acc <= MAX_SAFE_INTEGER)%N ->
  Forall (fun n => (n <= MAX_SAFE_INTEGER)%N) (task_numbers h rootFolder files) ->
  Extended.detect_loop h rootFolder files (Fin acc)
  = Fin (N.max acc (highest (task_numbers h rootFolder files))).
Proof.
  revert acc. induction files as [| file rest IH]; intros acc Hacc Hall; simpl.
  - f_equal. lia.
  - unfold task_numbers in *. simpl in Hall. unfold in_root in *.
    destruct (str_truthy rootFolder && negb (startsWith (file_path h file) (rootFolder ++ "/")));
      simpl in *; [by apply IH |].
    unfold task_number in *.
    destruct (match_task (file_name h file)) as [ds |]; simpl in *; [| by apply IH].
    inversion Hall as [| n l Hn Hrest]; subst.
    unfold parseInt.
    rewrite to_double_exact by (unfold MAX_SAFE_INTEGER in Hn; lia).
    simpl. destruct (N.ltb_spec acc (decimal_value 0 ds)).
    + rewrite IH by assumption. f_equal. lia.
    + rewrite IH by assumption. f_equal. lia.
Qed.

End CounterScan.

Lemma journalled_app {S H : Type} (st : Plugin S H) (r : Outcome unit * Plugin S H) l :
  journal r.2 = (journal st ++ l)%list -> journalled st r = l.
Proof. intros Hj. unfold journalled. rewrite Hj. apply drop_app_length. Qed.

(** ** The relocation, step by step *)

Section Steps.
Context {S H : Type} `{Host H}.

(** [rename_and_stamp] by the answers of the host. *)
Lemma rename_and_stamp_eq enable key value file originalPath newPath (st : Plugin S H) :
  rename_and_stamp enable key value file originalPath newPath st =
    let '(r1, h1) := rename file newPath (app st) in
    match r1 with
    | Fail e =>
        (Throw e,
         mkPlugin (settings st) (processing st)
           (journal st ++ [Rename file newPath (Some e)]) h1)
    | Ok _ =>
        if enable && str_truthy key then
          let '(r2, h2) :=
            processFrontMatter file (apply_patch (completion_patch h1 key value)) h1 in
          (outcome_of r2,
           mkPlugin (settings st) (processing st)
             (journal st ++ [Rename file newPath None;
                             ConsoleLog (moved_message originalPath newPath);
                             ProcessFrontMatter file (completion_patch h1 key value)
                               (res_err r2)]) h2)
        else
          (Normal tt,
           mkPlugin (settings st) (processing st)
             (journal st ++ [Rename file newPath None;
                             ConsoleLog (moved_message originalPath newPath)]) h1)
    end.
Proof.
  unfold rename_and_stamp, stamp_or_clear, vault_rename, console_log,
    fileManager_processFrontMatter, await, emit, mbind, M_bind, read, gets,
    completion_patch. simpl.
  destruct (rename file newPath (app st)) as [[[] | e] h1]; simpl; [| reflexivity].
  destruct (enable && str_truthy key); simpl.
  - destruct value; simpl.
    + destruct (processFrontMatter file _ h1) as [[[] | e] h2]; simpl;
        by rewrite <- !app_assoc.
    + destruct (processFrontMatter file _ h1) as [[[] | e] h2]; simpl;
        by rewrite <- !app_assoc.
  - unfold mret, M_ret. by rewrite <- !app_assoc.
Qed.

Lemma ensureFolder_only_creates folderPath :
  tracks (fun ev => is_createFolder ev = true) (ensureFolder folderPath : M S H unit).
Proof. apply tracks_ensureFolder. reflexivity. Qed.

Lemma ensureFolder_outcome folderPath (st : Plugin S H) :
  (ensureFolder folderPath st).1 <> Return.
Proof.
  unfold ensureFolder, call.
  by destruct ((if negb (str_truthy folderPath) then return_ else _) st) as [[[] | | e] st1].
Qed.

End Steps.

(** ** A journalled successful rename tells how the run went *)

Section Relocated.
Context {H : Type} `{Host H}.

Lemma journalled_released {S} p msg (st : Plugin S H) (x : Outcome unit * Plugin S H) l :
  journal x.2 = (journal (entered p st) ++ l)%list ->
  journalled st (Normal tt, released p msg x)
  = (GuardAdd p :: l ++ caught msg x.1 ++ [GuardDelete p])%list.
Proof.
  intros Hj. apply journalled_app. unfold released; simpl. rewrite Hj. simpl.
  by rewrite <- !app_assoc.
Qed.

(** A rename in the journal of [rename_and_stamp] is the rename asked for,
    journalled with the host's answer. *)
Lemma rename_and_stamp_renamed {S} enable key value file originalPath newPath
    (st : Plugin S H) msg p np res (l1 : list Event) (st0 : Plugin S H) :
  let x := rename_and_stamp enable key value file originalPath newPath st in
  journal st = (journal (entered p st0) ++ l1)%list ->
  Forall (fun ev => is_createFolder ev = true) l1 ->
  Rename file np res ∈ journalled st0 (Normal tt, released p msg x) ->
  np = newPath /\ res = res_err (rename file newPath (app st)).1.
Proof.
  intros x Hj Hl1 Hin. subst x. rewrite rename_and_stamp_eq in Hin.
  destruct (rename file newPath (app st)) as [[[] | e] h1] eqn:Hren; simpl.
  - destruct (enable && str_truthy key).
    + destruct (processFrontMatter file _ h1) as [r2 h2].
      erewrite journalled_released in Hin by (simpl; rewrite Hj, <- app_assoc; reflexivity).
      apply mutation_in_body in Hin; [| reflexivity].
      apply elem_of_app in Hin as [Hin | Hin].
      * rewrite Forall_forall in Hl1. specialize (Hl1 _ Hin). discriminate.
      * apply elem_of_cons in Hin as [Heq | Hin]; [by injection Heq as -> -> |].
        apply elem_of_cons in Hin as [Heq | Hin]; [discriminate |].
        apply list_elem_of_singleton in Hin. discriminate.
    + erewrite journalled_released in Hin by (simpl; rewrite Hj, <- app_assoc; reflexivity).
      apply mutation_in_body in Hin; [| reflexivity].
      apply elem_of_app in Hin as [Hin | Hin].
      * rewrite Forall_forall in Hl1. specialize (Hl1 _ Hin). discriminate.
      * apply elem_of_cons in Hin as [Heq | Hin]; [by injection Heq as -> -> |].
        apply list_elem_of_singleton in Hin. discriminate.
  - erewrite journalled_released in Hin by (simpl; rewrite Hj, <- app_assoc; reflexivity).
    apply mutation_in_body in Hin; [| reflexivity].
    apply elem_of_app in Hin as [Hin | Hin].
    + rewrite Forall_forall in Hl1. specialize (Hl1 _ Hin). discriminate.
    + apply list_elem_of_singleton in Hin. by injection Hin as -> ->.
Qed.

Lemma not_journalled_quiet {S} (st : Plugin S H) (r : Outcome unit * Plugin S H) l ev :
  r.2 = logged st l ->
  Forall (fun ev => is_mutation ev = false) l ->
  is_mutation ev = true ->
  ev ∉ journalled st r.
Proof.
  intros Hr Hl Hev Hin.
  rewrite (journalled_app st r l) in Hin by (rewrite Hr; reflexivity).
  rewrite Forall_forall in Hl. specialize (Hl _ Hin). congruence.
Qed.

(** A rename journalled by the extended [processFile] was issued after
    [ensureFolder] returned normally, in the host state it left. *)
Lemma ext_renamed file (st : Plugin Extended.TaskflowPluginSettings H) np res :
  let s := settings st in
  let p := file_path (app st) file in
  Rename file np res ∈ journalled st (Extended.processFile file st) ->
  exists value st1,
    ext_relocates s (app st) file = Some value
    /\ (p ∉ processing st)
    /\ np = ext_target s value ++ "/" ++ file_name (app st) file
    /\ ensureFolder (ext_target s value) (entered p st) = (Normal tt, st1)
    /\ res = res_err (rename file np (app st1)).1
    /\ Extended.processFile file st =
         (Normal tt,
          released p (Extended.error_message p)
            (rename_and_stamp (Extended.enableCompletedDate s)
               (Extended.completedDatePropertyName s) value file p np st1)).
Proof.
  intros s p Hin.
  destruct (ext_relocates s (app st) file) as [value |] eqn:Hgo.
  2: { destruct (ext_quiet file st Hgo) as (l & Hr & Hl).
       exfalso. eapply (not_journalled_quiet st _ l); eauto; [by rewrite Hr | reflexivity]. }
  destruct (decide (p ∈ processing st)) as [Hguard | Hout].
  { exfalso. rewrite ext_processFile_eq in Hin. simpl in Hin. fold p in Hin.
    destruct (decide (p ∈ processing st)); [| contradiction].
    unfold journalled in Hin. simpl in Hin. rewrite drop_all in Hin.
    by apply elem_of_nil in Hin. }
  rewrite (ext_reach file st value Hout Hgo) in Hin. rewrite (ext_reach file st value Hout Hgo).
  fold s p in Hin. fold s p.
  unfold mbind at 1, M_bind at 1 in Hin. unfold mbind at 1, M_bind at 1.
  destruct (ensureFolder_only_creates (ext_target s value) (entered p st))
    as (l1 & _ & _ & Hj1 & _ & Hl1 & _).
  pose proof (ensureFolder_outcome (ext_target s value) (entered p st)) as Hnr.
  destruct (ensureFolder (ext_target s value) (entered p st)) as [[[] | | e] st1] eqn:He;
    simpl in *.
  - destruct (rename_and_stamp_renamed _ _ _ _ _ _ _ _ _ _ _ _ _ Hj1 Hl1 Hin)
      as [-> ->].
    exists value, st1. repeat split; auto.
  - contradiction.
  - exfalso.
    erewrite journalled_released in Hin by (simpl; exact Hj1).
    apply mutation_in_body in Hin; [| reflexivity].
    rewrite Forall_forall in Hl1. specialize (Hl1 _ Hin). discriminate.
Qed.

(** A rename journalled by the basic [processFile] was issued with the
    target found to be a container, or found absent and then created. *)
Lemma bas_renamed file (st : Plugin Basic.TaskflowPluginSettings H) np res :
  let s := settings st in
  let p := file_path (app st) file in
  Rename file np res ∈ journalled st (Basic.processFile file st) ->
  exists value st1,
    bas_relocates s (app st) file = Some value
    /\ (p ∉ processing st)
    /\ np = bas_target s value ++ "/" ++ file_name (app st) file
    /\ ((exists d, getAbstractFileByPath (app st) (bas_target s value) = Some (IsFolder d)
                   /\ st1 = entered p st)
        \/ (getAbstractFileByPath (app st) (bas_target s value) = None
            /\ vault_createFolder (bas_target s value) (entered p st) = (Normal tt, st1)))
    /\ res = res_err (rename file np (app st1)).1
    /\ Basic.processFile file st =
         (Normal tt,
          released p (Basic.error_message p)
            (rename_and_stamp (Basic.enableCompletedDate s)
               (Basic.completedDatePropertyName s) value file p np st1)).
Proof.
  intros s p Hin.
  destruct (bas_relocates s (app st) file) as [value |] eqn:Hgo.
  2: { destruct (bas_quiet file st Hgo) as (l & Hr & Hl).
       exfalso. eapply (not_journalled_quiet st _ l); eauto; [by rewrite Hr | reflexivity]. }
  destruct (decide (p ∈ processing st)) as [Hguard | Hout].
  { exfalso. rewrite bas_processFile_eq in Hin. simpl in Hin. fold p in Hin.
    destruct (decide (p ∈ processing st)); [| contradiction].
    unfold journalled in Hin. simpl in Hin. rewrite drop_all in Hin.
    by apply elem_of_nil in Hin. }
  rewrite (bas_reach file st value Hout Hgo) in Hin. rewrite (bas_reach file st value Hout Hgo).
  fold s p in Hin. fold s p.
  destruct (getAbstractFileByPath (app st) (bas_target s value)) as [[g | d] |] eqn:Hat.
  - exfalso.
    refine (not_journalled_quiet st _ _ _ _ _ _ Hin);
      [reflexivity | by repeat constructor | reflexivity].
  - destruct (rename_and_stamp_renamed (Basic.enableCompletedDate s)
                (Basic.completedDatePropertyName s) value file p
                (bas_target s value ++ "/" ++ file_name (app st) file)
                (entered p st) (Basic.error_message p) p np res [] st)
      as [-> ->]; [by rewrite app_nil_r | constructor | exact Hin |].
    exists value, (entered p st). repeat split; eauto.
  - unfold mbind at 1, M_bind at 1 in Hin. unfold mbind at 1, M_bind at 1.
    destruct (tracks_createFolder (fun ev => is_createFolder ev = true)
                (bas_target s value) (fun _ => eq_refl) (entered p st))
      as (l1 & _ & _ & Hj1 & _ & Hl1 & _).
    destruct (vault_createFolder (bas_target s value) (entered p st))
      as [[[] | | e] st1] eqn:He; simpl in *.
    + destruct (rename_and_stamp_renamed _ _ _ _ _ _ _ _ _ _ _ _ _ Hj1 Hl1 Hin)
        as [-> ->].
      exists value, st1. repeat split; auto.
    + exfalso.
      erewrite journalled_released in Hin by (simpl; exact Hj1).
      apply mutation_in_body in Hin; [| reflexivity].
      rewrite Forall_forall in Hl1. specialize (Hl1 _ Hin). discriminate.
    + exfalso.
      erewrite journalled_released in Hin by (simpl; exact Hj1).
      apply mutation_in_body in Hin; [| reflexivity].
      rewrite Forall_forall in Hl1. specialize (Hl1 _ Hin). discriminate.
Qed.

Lemma accepted_rename (h : H) file np :
  res_err (rename file np h).1 = None -> exists h2, rename file np h = (Ok tt, h2).
Proof. destruct (rename file np h) as [[[] | e] h2]; [eauto | discriminate]. Qed.

End Relocated.

(** ** The reference vault: what each call changes *)

Section VaultFrames.
Variables (file : TFile) (key : string).

Lemma vault_frame_refl dirs v : vault_frame file key dirs v v.
Proof.
  unfold vault_frame. repeat split; auto.
  destruct (Vault.files v !! file) as [fo |]; eauto 6.
Qed.

Lemma vault_frame_trans dirs v1 v2 v3 :
  vault_frame file key dirs v1 v2 -> vault_frame file key dirs v2 v3 ->
  vault_frame file key dirs v1 v3.
Proof.
  intros (Hc1 & Hz1 & Hsub1 & Hnew1 & Hoth1 & Hf1) (Hc2 & Hz2 & Hsub2 & Hnew2 & Hoth2 & Hf2).
  unfold vault_frame. repeat split.
  - congruence.
  - congruence.
  - intros q Hq. apply Hsub2, Hsub1, Hq.
  - intros q Hq. destruct (Hnew2 q Hq) as [Hq2 | Hd]; auto.
  - intros g Hg. rewrite Hoth2, Hoth1; auto.
  - destruct (Vault.files v1 !! file) as [fo |].
    + destruct Hf1 as (fo1 & Hl1 & Hb1 & Hca1 & Hk1). rewrite Hl1 in Hf2.
      destruct Hf2 as (fo2 & Hl2 & Hb2 & Hca2 & Hk2).
      exists fo2. repeat split; try congruence.
      intros k Hk. rewrite Hk2, Hk1; auto.
    + by rewrite Hf1 in Hf2.
Qed.

Lemma vault_frame_mono (dirs dirs' : string -> Prop) v v' :
  (forall q, dirs q -> dirs' q) ->
  vault_frame file key dirs v v' -> vault_frame file key dirs' v v'.
Proof.
  intros Hd (Hc & Hz & Hsub & Hnew & Hoth & Hf).
  unfold vault_frame. repeat split; auto.
  intros q Hq. destruct (Hnew q Hq); auto.
Qed.

Lemma vault_frame_mkdir (dirs : string -> Prop) p v :
  dirs p -> vault_frame file key dirs v (Vault.mkdir p v).2.
Proof.
  intros Hp. unfold Vault.mkdir.
  destruct (negb (str_truthy p)); [apply vault_frame_refl |].
  destruct (Vault.lookup_path v p); [apply vault_frame_refl |].
  assert (Hadd : vault_frame file key dirs v
                   (Vault.with_folders v (Vault.folders v ∪ {[p]}))).
  { unfold vault_frame; simpl. repeat split; auto.
    - intros q Hq. apply elem_of_union. by left.
    - intros q Hq. apply elem_of_union in Hq as [Hq | Hq]; auto.
      apply elem_of_singleton in Hq as ->. auto.
    - destruct (Vault.files v !! file) as [fo |]; eauto 6. }
  destruct (dir_base p).1; [| exact Hadd].
  destruct (decide _); [exact Hadd | apply vault_frame_refl].
Qed.

Lemma vault_frame_move dirs newPath v :
  vault_frame file key dirs v (Vault.move file newPath v).2.
Proof.
  unfold Vault.move.
  destruct (Vault.files v !! file) as [fo |] eqn:Hfo; [| apply vault_frame_refl].
  destruct (Vault.lookup_path v newPath); [apply vault_frame_refl |].
  assert (Hmv : vault_frame file key dirs v
                  (Vault.with_files v
                     (<[file := Vault.mkFile newPath (Vault.f_frontmatter fo)
                                  (Vault.f_body fo) (Vault.f_cache fo)]> (Vault.files v)))).
  { unfold vault_frame; simpl. repeat split; auto.
    - intros g Hg. by rewrite lookup_insert_ne.
    - rewrite Hfo, lookup_insert_eq. eexists. repeat split; reflexivity. }
  destruct (dir_base newPath).1; [| exact Hmv].
  destruct (decide _); [exact Hmv | apply vault_frame_refl].
Qed.

Lemma apply_patch_other (p : Patch) (fm : Frontmatter) (k : string) :
  k <> patch_key p -> apply_patch p fm !! k = fm !! k.
Proof.
  intros Hk. destruct p as [key' stamp | key']; simpl in *.
  - destruct (truthy (js_get fm key')); [reflexivity | by rewrite lookup_insert_ne].
  - by rewrite lookup_delete_ne.
Qed.

Lemma vault_frame_patch dirs (p : Patch) v :
  patch_key p = key ->
  vault_frame file key dirs v (Vault.patch file (apply_patch p) v).2.
Proof.
  intros Hkey. unfold Vault.patch.
  destruct (Vault.files v !! file) as [fo |] eqn:Hfo; [| apply vault_frame_refl].
  unfold vault_frame; simpl. repeat split; auto.
  - intros g Hg. by rewrite lookup_insert_ne.
  - rewrite Hfo, lookup_insert_eq. eexists. repeat split; try reflexivity.
    simpl. intros k Hk. apply apply_patch_other. congruence.
Qed.

(** Replaying a journal of relocation entries stays within the frame. *)
Lemma replay_frame (dirs : string -> Prop) newPath v l v' :
  Replay v l v' ->
  Forall (relocation_event dirs file newPath key) l ->
  vault_frame file key dirs v v'.
Proof.
  induction 1 as [h | h p l h' Hrep IH | h f np l h' Hrep IH
                  | h f p l h' Hrep IH | h ev l h' Hev Hrep IH];
    intros Hall; [apply vault_frame_refl | inversion Hall as [| ? ? Hok Hrest]; subst ..].
  - eapply vault_frame_trans; [| by apply IH]. by apply vault_frame_mkdir.
  - destruct Hok as [-> ->].
    eapply vault_frame_trans; [| by apply IH]. apply vault_frame_move.
  - destruct Hok as [-> Hk].
    eapply vault_frame_trans; [| by apply IH]. by apply vault_frame_patch.
  - by apply IH.
Qed.

(** Container creations leave the documents, the clock and the zone alone. *)
Lemma replay_creations v l v' :
  Replay v l v' ->
  Forall (fun ev => is_createFolder ev = true) l ->
  Vault.files v' = Vault.files v
  /\ Vault.clock v' = Vault.clock v
  /\ Vault.zone v' = Vault.zone v.
Proof.
  induction 1 as [h | h p l h' Hrep IH | h f np l h' Hrep IH
                  | h f p l h' Hrep IH | h ev l h' Hev Hrep IH];
    intros Hall; [auto | inversion Hall as [| ? ? Hok Hrest]; subst; try discriminate ..].
  - destruct (IH Hrest) as (-> & -> & ->). simpl. unfold Vault.mkdir.
    destruct (negb (str_truthy p)); [auto |].
    destruct (Vault.lookup_path h p); [auto |].
    destruct (dir_base p).1; [destruct (decide _) |]; auto.
  - by apply IH.
Qed.

End VaultFrames.

(** ** The timestamp side effect on the reference vault *)

Lemma completion_patch_key {H : Type} `{Host H} (h : H) key value (fm : Frontmatter) :
  apply_patch (completion_patch h key value) fm !! key =
    if value then
      if truthy (js_get fm key) then fm !! key
      else Some (VStr (formatInTimeZone (Date_now h) (resolvedTimeZone h)
                         completed_date_format))
    else None.
Proof.
  unfold completion_patch. destruct value; simpl.
  - destruct (truthy (js_get fm key)); [reflexivity | by rewrite lookup_insert_eq].
  - by rewrite lookup_delete_eq.
Qed.

Lemma completion_patch_patch_key {H : Type} `{Host H} (h : H) key value :
  patch_key (completion_patch h key value) = key.
Proof. by destruct value. Qed.

Section VaultStamp.
Context {S : Type}.

(** After an accepted rename, the patch is applied to the live header of the
    moved document. *)
Lemma vault_rename_and_stamp key value file originalPath newPath
    (st1 : Plugin S Vault.t) (h2 : Vault.t) fo :
  key <> "" ->
  Vault.files (app st1) !! file = Some fo ->
  Vault.move file newPath (app st1) = (Ok tt, h2) ->
  exists fo',
    Vault.files (app (rename_and_stamp true key value file originalPath newPath st1).2)
      !! file = Some fo'
    /\ Vault.f_path fo' = newPath
    /\ Vault.f_frontmatter fo'
       = apply_patch (completion_patch (app st1) key value) (Vault.f_frontmatter fo).
Proof.
  intros Hkey Hfo Hmove.
  rewrite rename_and_stamp_eq. simpl rename. rewrite Hmove.
  apply str_truthy_true in Hkey. rewrite Hkey. simpl.
  unfold Vault.move in Hmove. rewrite Hfo in Hmove.
  assert (Hh2 : h2 = Vault.with_files (app st1)
                       (<[file := Vault.mkFile newPath (Vault.f_frontmatter fo)
                                    (Vault.f_body fo) (Vault.f_cache fo)]>
                          (Vault.files (app st1)))).
  { destruct (Vault.lookup_path (app st1) newPath); [discriminate |].
    destruct (dir_base newPath).1; [destruct (decide _) |]; congruence. }
  subst h2. unfold Vault.patch. simpl. rewrite lookup_insert_eq. simpl.
  rewrite lookup_insert_eq. eexists. repeat split; reflexivity.
Qed.

End VaultStamp.

(** ** Paths: components, parents, and [ensureFolder] on the reference vault *)

Lemma slash_free_app s t : slash_free (s ++ t) = slash_free s && slash_free t.
Proof.
  induction s as [| c s IH]; simpl; [reflexivity |].
  rewrite IH. by rewrite andb_assoc.
Qed.

Lemma split_go_slash_free cur s :
  slash_free cur = true ->
  Forall (fun part => slash_free part = true) (split_go slash cur s).
Proof.
  revert cur. induction s as [| c s IH]; intros cur Hcur; simpl.
  - by repeat constructor.
  - destruct (Ascii.eqb c slash) eqn:Hc.
    + constructor; [exact Hcur | by apply IH].
    + apply IH. rewrite slash_free_app, Hcur. simpl. by rewrite Hc.
Qed.

Lemma dir_base_slash_free part : slash_free part = true -> dir_base part = (None, part).
Proof.
  induction part as [| c part IH]; simpl; [reflexivity |].
  intros Hp. apply andb_true_iff in Hp as [Hc Hp].
  rewrite (IH Hp). apply negb_true_iff in Hc. by rewrite Hc.
Qed.

Lemma dir_base_join cur part :
  slash_free part = true -> dir_base (cur ++ "/" ++ part) = (Some cur, part).
Proof.
  intros Hp. change (cur ++ "/" ++ part) with (cur ++ String slash part).
  induction cur as [| c cur IH].
  - change (dir_base ("" ++ String slash part))
      with (let '(o, b) := dir_base part in
            match o with
            | Some d => (Some (String slash d), b)
            | None => if Ascii.eqb slash slash then (Some "", b) else (None, String slash b)
            end).
    by rewrite (dir_base_slash_free part Hp).
  - change (dir_base (String c cur ++ String slash part))
      with (let '(o, b) := dir_base (cur ++ String slash part) in
            match o with
            | Some d => (Some (String c d), b)
            | None => if Ascii.eqb c slash then (Some "", b) else (None, String c b)
            end).
    by rewrite IH.
Qed.

Lemma length_app s t : String.length (s ++ t) = (String.length s + String.length t)%nat.
Proof.
  induction s as [| c s IH]; [reflexivity |].
  change (String.length (String c s ++ t)) with (Datatypes.S (String.length (s ++ t))).
  rewrite IH. reflexivity.
Qed.

Lemma prefix_paths_longer parts cur q :
  str_truthy cur = true ->
  q ∈ prefix_paths parts cur -> (String.length cur < String.length q)%nat.
Proof.
  revert cur. induction parts as [| part rest IH]; intros cur Hcur Hq; simpl in Hq.
  - by apply elem_of_nil in Hq.
  - rewrite Hcur in Hq.
    assert (Hlen : (String.length cur < String.length (cur ++ "/" ++ part))%nat).
    { rewrite length_app. simpl. lia. }
    apply elem_of_cons in Hq as [-> | Hq]; [exact Hlen |].
    apply IH in Hq; [lia |].
    apply str_truthy_true. intros Heq. rewrite Heq in Hlen. simpl in Hlen. lia.
Qed.

Lemma creations_ext (v v' : Vault.t) paths :
  (forall q, q ∈ paths -> q ∈ Vault.folders v <-> q ∈ Vault.folders v') ->
  creations v paths = creations v' paths.
Proof.
  unfold creations. induction paths as [| q paths IH]; intros Hiff; [reflexivity |].
  rewrite !filter_cons.
  assert (Hq := Hiff q (list_elem_of_here _ _)).
  assert (Hrest : (fun q => CreateFolder q None) <$> filter (fun q => q ∉ Vault.folders v) paths
                  = (fun q => CreateFolder q None)
                      <$> filter (fun q => q ∉ Vault.folders v') paths)
    by (apply IH; intros q' Hq'; apply Hiff; by apply list_elem_of_further).
  destruct (decide (q ∉ Vault.folders v)), (decide (q ∉ Vault.folders v'));
    try tauto; rewrite ?fmap_cons; by rewrite Hrest.
Qed.

Lemma join_truthy current part :
  part <> "" ->
  str_truthy (if str_truthy current then current ++ "/" ++ part else part) = true.
Proof.
  intros Hp. destruct (str_truthy current) eqn:Hc.
  - apply str_truthy_true. intros Heq.
    apply (f_equal String.length) in Heq. rewrite length_app in Heq. simpl in Heq. lia.
  - by apply str_truthy_true.
Qed.

Section EnsureVault.
Context {S : Type}.

Lemma ensureFolder_loop_vault parts current (st : Plugin S Vault.t) :
  Forall (fun part => part <> "" /\ slash_free part = true) parts ->
  current = "" \/ current ∈ Vault.folders (app st) ->
  (forall q, q ∈ prefix_paths parts current -> Vault.file_at (app st) q = None) ->
  let r := ensureFolder_loop parts current st in
  r.1 = Normal tt
  /\ settings r.2 = settings st
  /\ processing r.2 = processing st
  /\ journal r.2 = (journal st ++ creations (app st) (prefix_paths parts current))%list
  /\ Vault.folders (app r.2)
     = Vault.folders (app st) ∪ list_to_set (prefix_paths parts current)
  /\ Vault.files (app r.2) = Vault.files (app st).
Proof.
  revert current st.
  induction parts as [| part rest IH]; intros current st Hparts Hparent Hfiles; simpl.
  - unfold creations. simpl. rewrite app_nil_r, union_empty_r_L. auto 10.
  - inversion Hparts as [| ? ? [Hne Hsf] Hrest]; subst.
    set (q := if str_truthy current then current ++ "/" ++ part else part) in *.
    assert (Hq : str_truthy q = true) by by apply join_truthy.
    assert (Hqfile : Vault.file_at (app st) q = None)
      by (apply Hfiles; simpl; apply list_elem_of_here).
    assert (Hlonger : forall q', q' ∈ prefix_paths rest q -> q' <> q).
    { intros q' Hq' ->. apply prefix_paths_longer in Hq'; [lia | exact Hq]. }
    assert (Hlook : Vault.lookup_path (app st) q
                    = if decide (q ∈ Vault.folders (app st))
                      then Some (IsFolder q) else None)
      by (unfold Vault.lookup_path; by rewrite Hqfile).
    unfold mbind, M_bind, read, gets. simpl. rewrite Hlook.
    destruct (decide (q ∈ Vault.folders (app st))) as [Hin | Hnotin].
    + simpl.
      destruct (IH q st Hrest (or_intror Hin)) as (Ho & Hs & Hp & Hj & Hfo & Hfi).
      { intros q' Hq'. apply Hfiles. simpl. by apply list_elem_of_further. }
      repeat split; auto.
      * rewrite Hj. unfold creations. rewrite filter_cons.
        destruct (decide (q ∉ Vault.folders (app st))); [contradiction | reflexivity].
      * rewrite Hfo, ?list_to_set_cons. apply set_eq. intros x.
        rewrite !elem_of_union, elem_of_singleton. intuition congruence.
    + unfold vault_createFolder, await. simpl.
      assert (Hmk : Vault.mkdir q (app st)
                    = (Ok tt, Vault.with_folders (app st) (Vault.folders (app st) ∪ {[q]}))).
      { unfold Vault.mkdir. rewrite Hq, Hlook. simpl.
        destruct (decide (q ∈ Vault.folders (app st))); [contradiction |].
        subst q. destruct (str_truthy current) eqn:Hc.
        - rewrite dir_base_join by exact Hsf. simpl.
          destruct Hparent as [-> | Hpar]; [discriminate |].
          by destruct (decide (current ∈ Vault.folders (app st))).
        - by rewrite dir_base_slash_free by exact Hsf. }
      rewrite Hmk. simpl.
      match goal with
      | |- context [ensureFolder_loop rest q ?x] => set (st' := x)
      end.
      destruct (IH q st' Hrest) as (Ho & Hs & Hp & Hj & Hfo & Hfi).
      { right. subst st'. simpl. apply elem_of_union. right. by apply elem_of_singleton. }
      { intros q' Hq'. subst st'. simpl.
        change (Vault.file_at (app st) q' = None).
        apply Hfiles. simpl. by apply list_elem_of_further. }
      repeat split; auto.
      * rewrite Hj. subst st'. simpl. unfold creations at 2. rewrite filter_cons.
        destruct (decide (q ∉ Vault.folders (app st))); [| contradiction].
        rewrite fmap_cons, <- app_assoc. simpl. do 2 f_equal.
        apply creations_ext. intros q' Hq'. simpl.
        specialize (Hlonger q' Hq').
        rewrite elem_of_union, elem_of_singleton. tauto.
      * rewrite Hfo, ?list_to_set_cons. subst st'. simpl. apply set_eq. intros x.
        rewrite !elem_of_union, elem_of_singleton. tauto.
Qed.

End EnsureVault.

(** [ensureFolder] on the reference vault, for a path with no empty
    component none of whose containers is held by a document. *)
Lemma ensureFolder_vault {S : Type} (st : Plugin S Vault.t) (target : string) :
  Forall (fun part => part <> "") (split slash target) ->
  (forall q, q ∈ container_paths target -> Vault.file_at (app st) q = None) ->
  let r := ensureFolder target st in
  r.1 = Normal tt
  /\ journal r.2 = (journal st ++ creations (app st) (container_paths target))%list
  /\ Vault.folders (app r.2)
     = Vault.folders (app st) ∪ list_to_set (container_paths target)
  /\ Vault.files (app r.2) = Vault.files (app st).
Proof.
  intros Hparts Hfiles. unfold ensureFolder, container_paths in *.
  destruct (str_truthy target) eqn:Ht; simpl in *.
  - assert (Hsf : Forall (fun part => part <> "" /\ slash_free part = true)
                    (split slash target)).
    { pose proof (split_go_slash_free "" target eq_refl) as Hs.
      unfold split in *. rewrite Forall_forall in *.
      intros part Hpart. split; auto. }
    destruct (ensureFolder_loop_vault (split slash target) "" st Hsf (or_introl eq_refl)
                Hfiles) as (Ho & _ & _ & Hj & Hfo & Hfi).
    unfold call.
    destruct (ensureFolder_loop (split slash target) "" st) as [[[] | | e] st1];
      simpl in *; try discriminate; auto.
  - apply str_truthy_false in Ht. subst target.
    inversion Hparts as [| ? ? Hne _]; subst. by destruct Hne.
Qed.

(** * Further properties of the code *)

(** ** More on strings and paths *)

Lemma str_app_assoc (a b c : string) : (a ++ b) ++ c = a ++ b ++ c.
Proof.
  induction a as [| x a IH]; [reflexivity |].
  change (String x ((a ++ b) ++ c) = String x (a ++ b ++ c)). by rewrite IH.
Qed.

Lemma str_app_nil_r (a : string) : a ++ "" = a.
Proof.
  induction a as [| x a IH]; [reflexivity |].
  change (String x (a ++ "") = String x a). by rewrite IH.
Qed.

Lemma startsWith_app (a b : string) : startsWith (a ++ b) a = true.
Proof.
  induction a as [| x a IH]; [by destruct b |].
  change (Ascii.eqb x x && startsWith (a ++ b) a = true).
  by rewrite Ascii.eqb_refl, IH.
Qed.

Lemma buildPath_empty (root sub : string) :
  buildPath root sub = "" <-> root = "" /\ sub = "".
Proof.
  unfold buildPath.
  destruct (str_truthy root) eqn:Hr; simpl.
  - apply str_truthy_true in Hr.
    destruct (str_truthy sub) eqn:Hs; simpl.
    + split; [| by intros [-> _]].
      intros Heq. apply (f_equal String.length) in Heq.
      rewrite length_app in Heq. simpl in Heq.
      destruct root; [done | simpl in Heq; lia].
    + split; [done | by intros [? _]].
  - apply str_truthy_false in Hr. subst root. split; [done | by intros [_ ->]].
Qed.

(** Under a non-empty root, a resolved container is the root or lies below it. *)
Lemma buildPath_under_root (root sub name : string) :
  root <> "" -> startsWith (buildPath root sub ++ "/" ++ name) (root ++ "/") = true.
Proof.
  intros Hr. apply str_truthy_true in Hr. unfold buildPath. rewrite Hr. simpl.
  destruct (str_truthy sub); simpl.
  - rewrite !str_app_assoc.
    change (root ++ "/" ++ sub ++ "/" ++ name) with (root ++ "/" ++ (sub ++ "/" ++ name)).
    rewrite <- (str_app_assoc root "/"). apply startsWith_app.
  - rewrite <- (str_app_assoc root "/"). apply startsWith_app.
Qed.

Lemma split_go_concat (cur s : string) :
  String.concat "/" (split_go slash cur s) = cur ++ s.
Proof.
  revert cur. induction s as [| c s IH]; intros cur.
  - simpl. by rewrite str_app_nil_r.
  - simpl. destruct (Ascii.eqb_spec c slash) as [-> | Hc].
    + specialize (IH ""). 
      destruct (split_go slash "" s) as [| x xs] eqn:Hs.
      { by destruct s; simpl in Hs; [| destruct (Ascii.eqb _ _)]. }
      change (String.concat "/" (cur :: x :: xs))
        with (cur ++ "/" ++ String.concat "/" (x :: xs)).
      rewrite IH. reflexivity.
    + rewrite IH, str_app_assoc. reflexivity.
Qed.

Lemma split_go_not_nil sep cur s : split_go sep cur s <> [].
Proof.
  revert cur. induction s as [| c s IH]; intros cur; simpl; [done |].
  destruct (Ascii.eqb c sep); [done | apply IH].
Qed.

Lemma prefix_paths_last (parts : list string) (cur : string) :
  parts <> [] ->
  Forall (fun part => part <> "") parts ->
  last (prefix_paths parts cur)
  = Some (if str_truthy cur then cur ++ "/" ++ String.concat "/" parts
          else String.concat "/" parts).
Proof.
  revert cur. induction parts as [| part rest IH]; intros cur Hne Hparts; [done |].
  inversion Hparts as [| ? ? Hpart Hrest]; subst.
  simpl prefix_paths.
  set (q := if str_truthy cur then cur ++ "/" ++ part else part).
  destruct rest as [| r rest'].
  - simpl. subst q. by destruct (str_truthy cur).
  - assert (Hq : str_truthy q = true) by by apply join_truthy.
    change (last (q :: prefix_paths (r :: rest') q))
      with (last (prefix_paths (r :: rest') q)).
    rewrite IH by done. rewrite Hq. f_equal. subst q.
    change (String.concat "/" (part :: r :: rest'))
      with (part ++ "/" ++ String.concat "/" (r :: rest')).
    destruct (str_truthy cur); [| reflexivity].
    by rewrite !str_app_assoc.
Qed.

Lemma container_paths_last (target : string) :
  Forall (fun part => part <> "") (split slash target) ->
  last (container_paths target) = Some target.
Proof.
  intros Hparts. unfold container_paths.
  destruct (str_truthy target) eqn:Ht; simpl.
  - rewrite prefix_paths_last by (try apply split_go_not_nil; exact Hparts).
    simpl. unfold split. by rewrite split_go_concat.
  - apply str_truthy_false in Ht. subst target.
    inversion Hparts as [| ? ? Hne _]; subst. by destruct Hne.
Qed.

Lemma prefix_paths_bounded (parts : list string) (cur q t : string) :
  Forall (fun part => part <> "") parts ->
  q ∈ prefix_paths parts cur ->
  last (prefix_paths parts cur) = Some t ->
  (String.length q <= String.length t)%nat.
Proof.
  revert cur. induction parts as [| part rest IH]; intros cur Hparts Hq Hlast;
    [by apply elem_of_nil in Hq |].
  inversion Hparts as [| ? ? Hpart Hrest]; subst.
  simpl in Hq, Hlast.
  set (q1 := if str_truthy cur then cur ++ "/" ++ part else part) in *.
  assert (Hq1 : str_truthy q1 = true) by by apply join_truthy.
  destruct (prefix_paths rest q1) as [| x xs] eqn:Hrestp.
  - apply list_elem_of_singleton in Hq as ->. simpl in Hlast. by injection Hlast as ->.
  - change (last (q1 :: x :: xs)) with (last (x :: xs)) in Hlast.
    assert (Ht : t ∈ prefix_paths rest q1).
    { rewrite Hrestp. by apply last_Some_elem_of. }
    apply elem_of_cons in Hq as [-> | Hq].
    + apply prefix_paths_longer in Ht; [lia | exact Hq1].
    + eapply (IH q1); [exact Hrest | rewrite Hrestp; exact Hq | rewrite Hrestp; exact Hlast].
Qed.

Lemma container_paths_bounded (target q : string) :
  Forall (fun part => part <> "") (split slash target) ->
  q ∈ container_paths target -> (String.length q <= String.length target)%nat.
Proof.
  intros Hparts Hq. pose proof (container_paths_last target Hparts) as Hlast.
  unfold container_paths in *.
  destruct (str_truthy target); simpl in *; [| by apply elem_of_nil in Hq].
  eapply prefix_paths_bounded; eauto.
Qed.

Lemma dir_base_name_slash_free (s : string) : slash_free (dir_base s).2 = true.
Proof.
  induction s as [| c s IH]; [reflexivity |].
  simpl. destruct (dir_base s) as [[d |] b]; simpl in *; [exact IH |].
  destruct (Ascii.eqb c slash) eqn:Hc; simpl; [exact IH |].
  by rewrite Hc, IH.
Qed.

Section RenamedFile.
Context {H : Type} `{Host H}.

(** The renames of a run are renames of the processed document. *)
Lemma ext_rename_is_file file (st : Plugin Extended.TaskflowPluginSettings H) f np res :
  Rename f np res ∈ journalled st (Extended.processFile file st) -> f = file.
Proof.
  intros Hin.
  destruct (ext_relocates (settings st) (app st) file) as [value |] eqn:Hgo.
  - destruct (decide (file_path (app st) file ∈ processing st)) as [Hguard | Hout].
    + exfalso. rewrite ext_processFile_eq in Hin. simpl in Hin.
      destruct (decide _); [| contradiction].
      unfold journalled in Hin. simpl in Hin. rewrite drop_all in Hin.
      by apply elem_of_nil in Hin.
    + destruct (ext_reach_summary file st value Hout Hgo)
        as (l & o & _ & _ & _ & Hj & _ & Hk & _).
      rewrite (journalled_app _ _ _ Hj) in Hin.
      apply mutation_in_body in Hin; [| reflexivity].
      rewrite Forall_forall in Hk. by destruct (Hk _ Hin).
  - destruct (ext_quiet file st Hgo) as (l & Hr & Hl).
    exfalso. eapply (not_journalled_quiet st _ l); eauto; [by rewrite Hr | reflexivity].
Qed.

End RenamedFile.


Lemma creations_none (v : Vault.t) (paths : list string) :
  (forall q, q ∈ paths -> q ∈ Vault.folders v) -> creations v paths = [].
Proof.
  unfold creations. induction paths as [| q paths IH]; intros Hall; [reflexivity |].
  rewrite filter_cons.
  destruct (decide (q ∉ Vault.folders v)) as [Hq | _].
  - destruct Hq. apply Hall, list_elem_of_here.
  - apply IH. intros q' Hq'. by apply Hall, list_elem_of_further.
Qed.

(** ** An accepted relocation on the reference vault *)

Lemma vault_move_accepted (v : Vault.t) file fo target name :
  Vault.files v !! file = Some fo ->
  Vault.lookup_path v (target ++ "/" ++ name) = None ->
  slash_free name = true ->
  target ∈ Vault.folders v ->
  Vault.move file (target ++ "/" ++ name) v
  = (Ok tt,
     Vault.with_files v
       (<[file := Vault.mkFile (target ++ "/" ++ name) (Vault.f_frontmatter fo)
                    (Vault.f_body fo) (Vault.f_cache fo)]> (Vault.files v))).
Proof.
  intros Hfo Hfree Hname Htarget. unfold Vault.move.
  rewrite Hfo, Hfree, (dir_base_join target name Hname). simpl.
  by destruct (decide (target ∈ Vault.folders v)).
Qed.

Lemma vault_rename_and_stamp_run {S : Type} enable key value file originalPath target name
    (st1 : Plugin S Vault.t) fo :
  Vault.files (app st1) !! file = Some fo ->
  Vault.lookup_path (app st1) (target ++ "/" ++ name) = None ->
  slash_free name = true ->
  target ∈ Vault.folders (app st1) ->
  rename_and_stamp enable key value file originalPath (target ++ "/" ++ name) st1
  = (Normal tt,
     mkPlugin (settings st1) (processing st1)
       (journal st1 ++ Rename file (target ++ "/" ++ name) None
          :: ConsoleLog (moved_message originalPath (target ++ "/" ++ name))
          :: stamp_events file enable key value (app st1))
       (Vault.with_files (app st1)
          (<[file := Vault.mkFile (target ++ "/" ++ name)
                       (stamped enable key value (app st1) (Vault.f_frontmatter fo))
                       (Vault.f_body fo) (Vault.f_cache fo)]> (Vault.files (app st1))))).
Proof.
  intros Hfo Hfree Hname Htarget.
  rewrite rename_and_stamp_eq.
  change (rename file (target ++ "/" ++ name) (app st1))
    with (Vault.move file (target ++ "/" ++ name) (app st1)).
  rewrite (vault_move_accepted _ _ _ _ _ Hfo Hfree Hname Htarget).
  unfold stamp_events, stamped.
  destruct (enable && str_truthy key) eqn:Hen.
  - change (processFrontMatter file ?fn ?h) with (Vault.patch file fn h).
    unfold Vault.patch. simpl. rewrite lookup_insert_eq. simpl.
    rewrite insert_insert_eq.
    reflexivity.
  - reflexivity.
Qed.

Lemma lookup_path_none (v : Vault.t) q :
  Vault.lookup_path v q = None <-> Vault.file_at v q = None /\ q ∉ Vault.folders v.
Proof.
  unfold Vault.lookup_path.
  destruct (Vault.file_at v q);
    [split; [discriminate | intros [? _]; discriminate] |].
  destruct (decide (q ∈ Vault.folders v)); split; try discriminate; tauto.
Qed.

Lemma file_at_files (v v' : Vault.t) q :
  Vault.files v' = Vault.files v -> Vault.file_at v' q = Vault.file_at v q.
Proof. unfold Vault.file_at. by intros ->. Qed.

Lemma ext_relocates_inv {H : Type} `{Host H} s (h : H) file value :
  ext_relocates s h file = Some value ->
  ext_in_scope s h file = true /\ ext_complete s = true
  /\ snapshot_value h file (Extended.propertyName s) = Some (VBool value)
  /\ or_empty (file_parent_path h file) <> ext_target s value.
Proof.
  unfold ext_relocates. intros Hgo.
  destruct (ext_in_scope s h file); [| discriminate].
  destruct (ext_complete s); [| discriminate]. simpl in Hgo.
  destruct (snapshot_value h file (Extended.propertyName s)) as [[b | | | | |] |];
    try discriminate.
  destruct (String.eqb _ _) eqn:He; [discriminate |].
  apply String.eqb_neq in He.
  injection Hgo as <-. auto.
Qed.

Lemma ext_target_truthy s value :
  ext_complete s = true -> str_truthy (ext_target s value) = true.
Proof.
  unfold ext_complete, ext_target. intros Hc.
  apply andb_prop in Hc as [Hc Hf]. apply andb_prop in Hc as [_ Ht].
  by destruct value.
Qed.

Lemma bas_relocates_inv {H : Type} `{Host H} s (h : H) file value :
  bas_relocates s h file = Some value ->
  bas_complete s = true
  /\ snapshot_value h file (Basic.propertyName s) = Some (VBool value)
  /\ or_empty (file_parent_path h file) <> bas_target s value.
Proof.
  unfold bas_relocates. intros Hgo.
  destruct (bas_complete s); [| discriminate].
  destruct (snapshot_value h file (Basic.propertyName s)) as [[b | | | | |] |];
    try discriminate.
  destruct (String.eqb _ _) eqn:He; [discriminate |].
  apply String.eqb_neq in He.
  injection Hgo as <-. auto.
Qed.

Lemma bas_target_truthy s value :
  bas_complete s = true -> str_truthy (bas_target s value) = true.
Proof.
  unfold bas_complete, bas_target. intros Hc.
  apply andb_prop in Hc as [Hc Hf]. apply andb_prop in Hc as [_ Ht].
  by destruct value.
Qed.

(** ** Task identifiers: printing and reading back *)

Lemma pretty_N_char_digit (x : N) :
  (x < 10)%N -> is_digit (pretty_N_char x) = true /\ digit_value (pretty_N_char x) = x.
Proof.
  intros Hx.
  assert (Hcases : (x = 0 \/ x = 1 \/ x = 2 \/ x = 3 \/ x = 4 \/ x = 5 \/ x = 6
                    \/ x = 7 \/ x = 8 \/ x = 9)%N) by lia.
  repeat (destruct Hcases as [-> | Hcases]; [by vm_compute |]).
  subst x. by vm_compute.
Qed.

Lemma pretty_N_go_digits (x : N) : forall s,
  all_digits s = true ->
  all_digits (pretty_N_go x s) = true
  /\ decimal_value 0 (pretty_N_go x s) = decimal_value x s.
Proof.
  induction (N.lt_wf_0 x) as [x _ IH]. intros s Hs.
  assert (Hx : (x = 0 \/ 0 < x)%N) by lia. destruct Hx as [-> | Hpos].
  - by rewrite pretty_N_go_0.
  - rewrite pretty_N_go_step by exact Hpos.
    destruct (pretty_N_char_digit (x `mod` 10)%N) as [Hd Hv];
      [apply N.mod_lt; lia |].
    destruct (IH (x `div` 10)%N) with (s := String (pretty_N_char (x `mod` 10)) s)
      as [Hall Hval].
    + apply N.div_lt; lia.
    + simpl. by rewrite Hd, Hs.
    + split; [exact Hall |]. rewrite Hval. simpl. rewrite Hv. f_equal.
      pose proof (N.div_mod x 10). lia.
Qed.

Lemma pretty_N_digits (n : N) :
  all_digits (pretty n) = true /\ decimal_value 0 (pretty n) = n /\ pretty n <> "".
Proof.
  unfold pretty, pretty_N. destruct (decide (n = 0)%N) as [-> | Hn].
  - by vm_compute.
  - destruct (pretty_N_go_digits n "" eq_refl) as [Ha Hv].
    split; [exact Ha |]. split; [exact Hv |].
    intros He. rewrite He in Hv. simpl in Hv. by destruct Hn.
Qed.

Lemma padStart_digits (width : nat) (s : string) :
  all_digits s = true ->
  all_digits (padStart width "0" s) = true
  /\ decimal_value 0 (padStart width "0" s) = decimal_value 0 s.
Proof.
  intros Hs. unfold padStart.
  induction (width - String.length s)%nat as [| k [IHa IHv]]; [by split |].
  split.
  - simpl. exact IHa.
  - exact IHv.
Qed.

Lemma padStart_not_empty (width : nat) (c : ascii) (s : string) :
  s <> "" -> padStart width c s <> "".
Proof.
  unfold padStart. intros Hs.
  destruct (width - String.length s)%nat; [exact Hs | discriminate].
Qed.

Lemma span_digits_app (ds : string) (c : ascii) (rest : string) :
  all_digits ds = true -> is_digit c = false ->
  span_digits (ds ++ String c rest) = (ds, String c rest).
Proof.
  intros Hds Hc. induction ds as [| d ds IH].
  - simpl. change ("" ++ String c rest) with (String c rest). simpl. by rewrite Hc.
  - simpl in Hds. apply andb_prop in Hds as [Hd Hds].
    change (String d ds ++ String c rest) with (String d (ds ++ String c rest)).
    simpl. by rewrite Hd, (IH Hds).
Qed.

Lemma match_task_minted (ds title : string) :
  all_digits ds = true -> ds <> "" ->
  match_task (task_fileName ds title) = Some ds.
Proof.
  intros Hds Hne. unfold match_task, task_fileName.
  rewrite startsWith_app.
  change (drop_chars 6 ("[TASK-" ++ ds ++ "] " ++ title ++ ".md"))
    with (ds ++ String "]" (" " ++ title ++ ".md")).
  rewrite (span_digits_app ds "]" _ Hds eq_refl).
  apply str_truthy_true in Hne. by rewrite Hne.
Qed.

Lemma all_digits_slash_free (s : string) : all_digits s = true -> slash_free s = true.
Proof.
  induction s as [| c s IH]; [reflexivity |]. simpl.
  intros [Hc Hs]%andb_prop. rewrite (IH Hs), andb_true_r.
  destruct (Ascii.eqb c slash) eqn:He; [| reflexivity].
  apply Ascii.eqb_eq in He. subst c. discriminate.
Qed.

Lemma slash_free_task_fileName (ds title : string) :
  all_digits ds = true -> slash_free title = true ->
  slash_free (task_fileName ds title) = true.
Proof.
  intros Hds Ht. unfold task_fileName.
  rewrite !slash_free_app, Ht, (all_digits_slash_free _ Hds). reflexivity.
Qed.

Lemma counter_digits (shortest : N -> string) (n : N) :
  (n <= 2 ^ 53)%N ->
  let ds := padStart 3 "0" (Commands.Number_toString shortest (Fin n)) in
  all_digits ds = true /\ decimal_value 0 ds = n /\ ds <> "".
Proof.
  intros Hn ds. subst ds. unfold Commands.Number_toString.
  apply N.leb_le in Hn. rewrite Hn.
  destruct (pretty_N_digits n) as (Ha & Hv & Hne).
  destruct (padStart_digits 3 _ Ha) as [Hpa Hpv].
  split; [exact Hpa |]. split; [by rewrite Hpv |].
  by apply padStart_not_empty.
Qed.

Lemma task_path_name (shortest : N -> string) (s : Extended.TaskflowPluginSettings)
    (title : string) (n : N) :
  Extended.taskCounter s = Fin n -> (n <= 2 ^ 53)%N -> slash_free title = true ->
  (dir_base (Commands.task_path shortest s title)).2
  = task_fileName (padStart 3 "0" (Commands.Number_toString shortest (Fin n))) title.
Proof.
  intros Hc Hn Ht. unfold Commands.task_path. rewrite Hc.
  destruct (counter_digits shortest n Hn) as (Ha & _ & _).
  pose proof (slash_free_task_fileName _ title Ha Ht) as Hfree.
  destruct (str_truthy (Commands.task_folder s)).
  - by rewrite (dir_base_join _ _ Hfree).
  - by rewrite (dir_base_slash_free _ Hfree).
Qed.

Lemma task_path_in_root (shortest : N -> string) (s : Extended.TaskflowPluginSettings)
    (title : string) :
  in_root (Extended.rootFolder s) (Commands.task_path shortest s title) = true.
Proof.
  unfold in_root. destruct (str_truthy (Extended.rootFolder s)) eqn:Hroot; [| reflexivity].
  simpl. apply negb_true_iff, negb_false_iff.
  assert (Hne : Extended.rootFolder s <> "") by by apply str_truthy_true.
  unfold Commands.task_path, Commands.task_folder.
  destruct (Extended.enableBacklog s).
  - assert (Hb : str_truthy (buildPath (Extended.rootFolder s) (Extended.backlogFolder s))
                 = true).
    { apply str_truthy_true. intros He. apply buildPath_empty in He. tauto. }
    rewrite Hb. by apply buildPath_under_root.
  - rewrite Hroot. simpl. rewrite Hroot.
    rewrite <- str_app_assoc. apply startsWith_app.
Qed.


Lemma task_path_number (shortest : N -> string) (s : Extended.TaskflowPluginSettings)
    (title : string) (n : N) :
  Extended.taskCounter s = Fin n -> (n <= 2 ^ 53)%N -> slash_free title = true ->
  match_task (dir_base (Commands.task_path shortest s title)).2
  = Some (padStart 3 "0" (Commands.Number_toString shortest (Fin n)))
  /\ decimal_value 0 (padStart 3 "0" (Commands.Number_toString shortest (Fin n))) = n.
Proof.
  intros Hc Hn Ht.
  rewrite (task_path_name shortest s title n Hc Hn Ht).
  destruct (counter_digits shortest n Hn) as (Ha & Hv & Hne).
  by rewrite (match_task_minted _ title Ha Hne).
Qed.

Lemma highest_ge (l : list N) : Forall (fun n => (n <= highest l)%N) l.
Proof.
  induction l as [| a l IH]; [constructor |]. simpl. constructor; [lia |].
  eapply Forall_impl; [exact IH |]. simpl. intros. lia.
Qed.

Lemma detectTaskCounter_settings {H : Type} `{Host H}
    (saveData : Extended.TaskflowPluginSettings -> H -> Res unit * H)
    (st : Plugin Extended.TaskflowPluginSettings H) :
  let s := settings st in
  let numbers := task_numbers (app st) (Extended.rootFolder s) (getMarkdownFiles (app st)) in
  Forall (fun n => (n <= MAX_SAFE_INTEGER)%N) numbers ->
  settings (Extended.detectTaskCounter saveData st).2
  = Extended.with_taskCounter s (Fin (highest numbers + 1)).
Proof.
  intros s numbers Hsafe.
  unfold Extended.detectTaskCounter, call, mbind, M_bind, read, gets,
    set_settings, Extended.saveSettings. simpl.
  destruct (saveData _ (app st)) as [[[] | e] h']; simpl; fold s;
    rewrite detect_loop_highest by (try exact Hsafe; by vm_compute);
    fold numbers; simpl;
    rewrite to_double_exact by
      (pose proof (highest_le _ _ Hsafe); unfold MAX_SAFE_INTEGER in *; lia);
    do 2 f_equal; lia.
Qed.


(** ** Task creation *)

Section CreateTask.
Context {H : Type} `{Host H} `{Desk H}.
Variable shortest : N -> string.
Variable trim : string -> string.
Variable saveData : Extended.TaskflowPluginSettings -> H -> Res unit * H.

Lemma task_content_frame (s : Extended.TaskflowPluginSettings)
    (st : Plugin Extended.TaskflowPluginSettings H) :
  let r := Commands.task_content s st in
  settings r.2 = settings st /\ processing r.2 = processing st
  /\ journal r.2 = journal st /\ r.1 <> Return.
Proof.
  unfold Commands.task_content, mbind, M_bind, read, gets, mret, M_ret, host_call.
  destruct (str_truthy (Extended.templatePath s)); simpl;
    [| repeat split; discriminate].
  destruct (getAbstractFileByPath (app st) (Extended.templatePath s)) as [[f | d] |];
    simpl; [| repeat split; discriminate ..].
  destruct (Vault_read f (app st)) as [[c | e] h']; simpl; repeat split; discriminate.
Qed.

Lemma ensureFolder_frame (folderPath : string)
    (st : Plugin Extended.TaskflowPluginSettings H) :
  let r := ensureFolder folderPath st in
  settings r.2 = settings st /\ processing r.2 = processing st.
Proof.
  destruct (ensureFolder_only_creates folderPath st) as (l & Hs & Hp & _). auto.
Qed.

Lemma createTask_eq (title : string) (st : Plugin Extended.TaskflowPluginSettings H) :
  Commands.createTask shortest trim saveData title st =
    let s := settings st in
    let path := Commands.task_path shortest s (trim title) in
    if negb (str_truthy (trim title)) then (Normal tt, st)
    else
      match Commands.task_content s st with
      | (Normal content, st0) =>
          match ensureFolder (Commands.task_folder s) st0 with
          | (Normal _, st1) =>
              let guarded :=
                mkPlugin (settings st1) (processing st1 ∪ {[path]})
                  (journal st1 ++ [GuardAdd path]) in
              match Vault_create path content (app st1) with
              | (Ok file, h2) =>
                  let s' := Extended.with_taskCounter (settings st1)
                              (js_succ (Extended.taskCounter s)) in
                  let armed :=
                    mkPlugin s' (processing st1 ∪ {[path]})
                      (journal st1 ++ [GuardAdd path]) in
                  match saveData s' (setTimeout (ReleaseGuard path) 500 h2) with
                  | (Ok _, h3) =>
                      match Workspace_openFile file (Modal_close h3) with
                      | (Ok _, h4) => (Normal tt, armed h4)
                      | (Fail e, h4) => (Throw e, armed h4)
                      end
                  | (Fail e, h3) => (Throw e, armed h3)
                  end
              | (Fail e, h2) => (Throw e, guarded h2)
              end
          | (Return, st1) => (Normal tt, st1)
          | (Throw e, st1) => (Throw e, st1)
          end
      | (Return, st0) => (Normal tt, st0)
      | (Throw e, st0) => (Throw e, st0)
      end.
Proof.
  unfold Commands.createTask, call. unfold mbind at 1. unfold M_bind at 1.
  destruct (str_truthy (trim title)); simpl; [| reflexivity].
  unfold mbind, M_bind, gets. simpl.
  destruct (Commands.task_content (settings st) st) as [[content | | e] st0];
    [| reflexivity | reflexivity].
  destruct (ensureFolder (Commands.task_folder (settings st)) st0) as [[[] | | e] st1];
    [| reflexivity | reflexivity].
  unfold processing_add, mbind, M_bind, gets, set_processing, emit, host_call, host_do.
  simpl.
  destruct (Vault_create _ content (app st1)) as [[file | e] h2]; [| reflexivity].
  simpl. unfold set_settings, Extended.saveSettings. simpl.
  destruct (saveData _ _) as [[[] | e] h3]; [| reflexivity].
  simpl.
  destruct (Workspace_openFile file (Modal_close h3)) as [[[] | e] h4]; reflexivity.
Qed.


Lemma ext_guarded_skip (file : TFile) (st : Plugin Extended.TaskflowPluginSettings H) :
  file_path (app st) file ∈ processing st ->
  Extended.processFile file st = (Normal tt, st).
Proof.
  intros Hin. rewrite ext_processFile_eq. simpl.
  destruct (decide _); [reflexivity | contradiction].
Qed.

Lemma createTask_after_ensure (title content : string)
    (st : Plugin Extended.TaskflowPluginSettings H) :
  let s := settings st in
  let path := Commands.task_path shortest s (trim title) in
  let st0 := (Commands.task_content s st).2 in
  let st1 := (ensureFolder (Commands.task_folder s) st0).2 in
  trim title <> "" ->
  (Commands.task_content s st).1 = Normal content ->
  (ensureFolder (Commands.task_folder s) st0).1 = Normal tt ->
  Commands.createTask shortest trim saveData title st =
    match Vault_create path content (app st1) with
    | (Ok file, h2) =>
        let s' := Extended.with_taskCounter s (js_succ (Extended.taskCounter s)) in
        let armed :=
          mkPlugin s' (processing st ∪ {[path]}) (journal st1 ++ [GuardAdd path]) in
        match saveData s' (setTimeout (ReleaseGuard path) 500 h2) with
        | (Ok _, h3) =>
            match Workspace_openFile file (Modal_close h3) with
            | (Ok _, h4) => (Normal tt, armed h4)
            | (Fail e, h4) => (Throw e, armed h4)
            end
        | (Fail e, h3) => (Throw e, armed h3)
        end
    | (Fail e, h2) =>
        (Throw e,
         mkPlugin s (processing st ∪ {[path]}) (journal st1 ++ [GuardAdd path]) h2)
    end.
Proof.
  intros s path st0 st1 Htitle Hcontent Hensure.
  destruct (task_content_frame s st) as (Hs0 & Hp0 & _).
  destruct (ensureFolder_frame (Commands.task_folder s) st0) as (Hs1 & Hp1).
  fold st0 in Hs0, Hp0. fold st1 in Hs1, Hp1.
  rewrite createTask_eq. cbv zeta. fold s path.
  apply str_truthy_true in Htitle. rewrite Htitle. simpl.
  rewrite (surjective_pairing (Commands.task_content s st)), Hcontent. fold st0.
  rewrite (surjective_pairing (ensureFolder (Commands.task_folder s) st0)), Hensure.
  fold st1. rewrite Hs1, Hs0, Hp1, Hp0. reflexivity.
Qed.

End CreateTask.

(** ** The move commands *)

Section MoveCommands.
Context {H : Type} `{Host H} `{Desk H}.

Lemma move_tail (target newPath msg : string) (f : TFile)
    (st : Plugin Extended.TaskflowPluginSettings H) :
  let r := (ensureFolder target;; vault_rename f newPath;; Commands.Notice msg) st in
  settings r.2 = settings st /\ processing r.2 = processing st /\ r.1 <> Return
  /\ exists l,
       journal r.2 = (journal st ++ l)%list
       /\ Forall (move_event target f newPath) l
       /\ outcome_ok r.1 l
       /\ ((ensureFolder target st).1 = Normal tt ->
           exists l0,
             l = (l0 ++ [Rename f newPath
                           (res_err (rename f newPath
                                       (app (ensureFolder target st).2)).1)])%list).
Proof.
  intros r.
  destruct (tracks_ensureFolder
              (fun ev => exists q res, ev = CreateFolder q res
                                       /\ q ∈ container_paths target)
              target (fun q res Hq => ex_intro _ q (ex_intro _ res (conj eq_refl Hq))) st)
    as (l1 & Hs & Hp & Hj & _ & Hk & Ho).
  pose proof (ensureFolder_outcome target st) as Hnr.
  assert (Hk' : Forall (move_event target f newPath) l1).
  { eapply Forall_impl; [exact Hk |]. intros ev Hev. unfold move_event. left. exact Hev. }
  subst r. unfold mbind, M_bind.
  destruct (ensureFolder target st) as [[[] | | e] st1]; simpl in *.
  - unfold vault_rename, await.
    destruct (rename f newPath (app st1)) as [[[] | e] h2]; simpl;
      (split; [exact Hs |]); (split; [exact Hp |]); (split; [discriminate |]).
    + exists (l1 ++ [Rename f newPath None])%list.
      rewrite Hj, app_assoc. split; [reflexivity |]. split; [| split].
      * apply Forall_app. split; [exact Hk' |].
        apply Forall_singleton. unfold move_event. right. eauto.
      * apply Forall_app. split; [exact Ho |]. by apply Forall_singleton.
      * intros _. eauto.
    + exists (l1 ++ [Rename f newPath (Some e)])%list.
      rewrite Hj, app_assoc. split; [reflexivity |]. split; [| split].
      * apply Forall_app. split; [exact Hk' |].
        apply Forall_singleton. unfold move_event. right. eauto.
      * exists l1, (Rename f newPath (Some e)). auto.
      * intros _. eauto.
  - by destruct Hnr.
  - split; [exact Hs |]. split; [exact Hp |]. split; [discriminate |].
    exists l1. split; [exact Hj |]. split; [exact Hk' |]. split; [exact Ho |].
    discriminate.
Qed.

Lemma moveToIcebox_eq (st : Plugin Extended.TaskflowPluginSettings H) :
  Commands.moveToIcebox st =
    let s := settings st in
    let icebox := buildPath (Extended.rootFolder s) (Extended.iceboxFolder s) in
    match Workspace_getActiveFile (app st) with
    | None => (Normal tt, st)
    | Some f =>
        let name := file_name (app st) f in
        if negb (startsWith name "[TASK-")
        then (Normal tt, (Commands.Notice "Taskflow: Active file is not a task file." st).2)
        else if negb (str_truthy icebox)
        then (Normal tt, (Commands.Notice "Taskflow: Icebox folder is not configured." st).2)
        else if String.eqb (or_empty (file_parent_path (app st) f)) icebox
        then (Normal tt, (Commands.Notice "Taskflow: File is already in the icebox." st).2)
        else call (ensureFolder icebox;; vault_rename f (icebox ++ "/" ++ name);;
                   Commands.Notice "Taskflow: Moved to icebox.") st
    end.
Proof.
  unfold Commands.moveToIcebox, call. unfold mbind at 1. unfold M_bind at 1.
  unfold read, gets. simpl.
  destruct (Workspace_getActiveFile (app st)) as [f |]; [| reflexivity].
  unfold mbind, M_bind, mret, M_ret. simpl.
  destruct (startsWith (file_name (app st) f) "[TASK-"); simpl; [| reflexivity].
  destruct (str_truthy (buildPath _ _)); simpl; [| reflexivity].
  destruct (String.eqb _ _); simpl; reflexivity.
Qed.

Lemma moveOutOfBacklog_eq (st : Plugin Extended.TaskflowPluginSettings H) :
  Commands.moveOutOfBacklog st =
    let s := settings st in
    let target := if str_truthy (Extended.rootFolder s) then Extended.rootFolder s else "" in
    match Workspace_getActiveFile (app st) with
    | None => (Normal tt, st)
    | Some f =>
        let name := file_name (app st) f in
        if negb (startsWith name "[TASK-")
        then (Normal tt, (Commands.Notice "Taskflow: Active file is not a task file." st).2)
        else if String.eqb (or_empty (file_parent_path (app st) f)) target
        then (Normal tt,
              (Commands.Notice "Taskflow: File is already in the root folder." st).2)
        else call (ensureFolder target;;
                   vault_rename f (if str_truthy target then target ++ "/" ++ name
                                   else name);;
                   Commands.Notice "Taskflow: Moved out of backlog.") st
    end.
Proof.
  unfold Commands.moveOutOfBacklog, call. unfold mbind at 1. unfold M_bind at 1.
  unfold read, gets. simpl.
  destruct (Workspace_getActiveFile (app st)) as [f |]; [| reflexivity].
  unfold mbind, M_bind, mret, M_ret. simpl.
  destruct (startsWith (file_name (app st) f) "[TASK-"); simpl; [| reflexivity].
  destruct (String.eqb _ _); simpl; reflexivity.
Qed.

Lemma move_call (target newPath msg : string) (f : TFile)
    (st : Plugin Extended.TaskflowPluginSettings H) :
  let r := call (ensureFolder target;; vault_rename f newPath;; Commands.Notice msg) st in
  settings r.2 = settings st /\ processing r.2 = processing st /\ r.1 <> Return
  /\ exists l,
       journal r.2 = (journal st ++ l)%list
       /\ Forall (move_event target f newPath) l
       /\ outcome_ok r.1 l
       /\ ((ensureFolder target st).1 = Normal tt ->
           exists l0,
             l = (l0 ++ [Rename f newPath
                           (res_err (rename f newPath
                                       (app (ensureFolder target st).2)).1)])%list).
Proof.
  intros r. destruct (move_tail target newPath msg f st) as (Hs & Hp & Hnr & l & Hl).
  subst r. unfold call.
  destruct ((ensureFolder target;; vault_rename f newPath;; Commands.Notice msg) st)
    as [[[] | | e] st']; simpl in *; [| by destruct Hnr |];
    (split; [exact Hs |]); (split; [exact Hp |]); (split; [discriminate |]); eauto.
Qed.

End MoveCommands.

Lemma or_self_empty (root : string) : (if str_truthy root then root else "") = root.
Proof. by destruct root. Qed.


(** ** Settings *)

Lemma assign_saved_of (d s : Extended.TaskflowPluginSettings) :
  Commands.assign d (Commands.saved_of s) = s.
Proof. by destruct s. Qed.

Lemma ext_complete_iff (s : Extended.TaskflowPluginSettings) :
  ext_complete s = false <->
  Extended.propertyName s = ""
  \/ (Extended.rootFolder s = ""
      /\ (Extended.trueFolder s = "" \/ Extended.falseFolder s = "")).
Proof.
  unfold ext_complete, Extended.absoluteTrueFolder, Extended.absoluteFalseFolder.
  rewrite !andb_false_iff, !str_truthy_false, !buildPath_empty. tauto.
Qed.

Lemma createTask_changes {H : Type} `{Host H} `{Desk H}
    (shortest : N -> string)
    (trim : string -> string)
    (saveData : Extended.TaskflowPluginSettings -> H -> Res unit * H)
    (title : string) (st : Plugin Extended.TaskflowPluginSettings H) :
  let s := settings st in
  let path := Commands.task_path shortest s (trim title) in
  let advanced := Extended.with_taskCounter s (js_succ (Extended.taskCounter s)) in
  let r := Commands.createTask shortest trim saveData title st in
  r.1 <> Return
  /\ (trim title = "" -> r = (Normal tt, st))
  /\ (settings r.2 = s /\ (r.1 = Normal tt -> trim title = "")
      \/ settings r.2 = advanced /\ processing r.2 = processing st ∪ {[path]})
  /\ (processing r.2 = processing st \/ processing r.2 = processing st ∪ {[path]})
  /\ exists l,
       journal r.2 = (journal st ++ l)%list
       /\ Forall (fun ev => (exists q res, ev = CreateFolder q res
                                           /\ q ∈ container_paths (Commands.task_folder s))
                            \/ ev = GuardAdd path) l.
Proof.
  intros s path advanced r. subst r. rewrite createTask_eq. cbv zeta. fold s path.
  destruct (str_truthy (trim title)) eqn:Htitle; cbn [negb].
  2:{ apply str_truthy_false in Htitle.
      split; [discriminate |]. split; [reflexivity |]. split; [left; auto |].
      split; [left; reflexivity |]. exists []. by rewrite app_nil_r. }
  assert (Hne : trim title <> "") by by apply str_truthy_true.
  destruct (task_content_frame s st) as (Hs0 & Hp0 & Hj0 & Hnr0).
  destruct (Commands.task_content s st) as [o0 st0]. simpl in Hs0, Hp0, Hj0, Hnr0.
  assert (Hstop : forall (o : Outcome unit) (st' : Plugin Extended.TaskflowPluginSettings H),
             o <> Return -> o <> Normal tt -> settings st' = s ->
             processing st' = processing st ->
             (exists l, journal st' = (journal st ++ l)%list
                        /\ Forall (fun ev => (exists q res, ev = CreateFolder q res
                                       /\ q ∈ container_paths (Commands.task_folder s))
                                             \/ ev = GuardAdd path) l) ->
             let r := (o, st') in
             r.1 <> Return
             /\ (trim title = "" -> r = (Normal tt, st))
             /\ (settings r.2 = s /\ (r.1 = Normal tt -> trim title = "")
                 \/ settings r.2 = advanced /\ processing r.2 = processing st ∪ {[path]})
             /\ (processing r.2 = processing st
                 \/ processing r.2 = processing st ∪ {[path]})
             /\ exists l,
                  journal r.2 = (journal st ++ l)%list
                  /\ Forall (fun ev => (exists q res, ev = CreateFolder q res
                                       /\ q ∈ container_paths (Commands.task_folder s))
                                       \/ ev = GuardAdd path) l).
  { intros o st' Ho1 Ho2 Hs' Hp' Hl'. simpl.
    split; [exact Ho1 |]. split; [intros He; by destruct Hne |].
    split; [left; split; [exact Hs' | intros; by destruct Ho2] |].
    split; [left; exact Hp' |]. exact Hl'. }
  destruct o0 as [content | | e]; [| by destruct Hnr0 |].
  2:{ apply Hstop; [discriminate | discriminate | exact Hs0 | exact Hp0 |].
      exists []. by rewrite Hj0, app_nil_r. }
  destruct (tracks_ensureFolder
              (fun ev => exists q res, ev = CreateFolder q res
                                       /\ q ∈ container_paths (Commands.task_folder s))
              (Commands.task_folder s)
              (fun q res Hq => ex_intro _ q (ex_intro _ res (conj eq_refl Hq))) st0)
    as (l1 & Hs1 & Hp1 & Hj1 & _ & Hk1 & _).
  pose proof (ensureFolder_outcome (Commands.task_folder s) st0) as Hnr1.
  destruct (ensureFolder (Commands.task_folder s) st0) as [[[] | | e] st1];
    simpl in Hs1, Hp1, Hj1, Hnr1; [| by destruct Hnr1 |].
  2:{ apply Hstop; [discriminate | discriminate | by rewrite Hs1 | by rewrite Hp1 |].
      exists l1. split; [by rewrite Hj1, Hj0 |].
      eapply Forall_impl; [exact Hk1 |]. intros ev Hev. left. exact Hev. }
  assert (Hl : exists l,
             (journal st1 ++ [GuardAdd path])%list = (journal st ++ l)%list
             /\ Forall (fun ev => (exists q res, ev = CreateFolder q res
                                       /\ q ∈ container_paths (Commands.task_folder s))
                                  \/ ev = GuardAdd path) l).
  { exists (l1 ++ [GuardAdd path])%list. split.
    - by rewrite Hj1, Hj0, app_assoc.
    - apply Forall_app. split.
      + eapply Forall_impl; [exact Hk1 |]. intros ev Hev. left. exact Hev.
      + apply Forall_singleton. by right. }
  rewrite Hs1, Hs0, Hp1, Hp0.
  destruct (Vault_create path content (app st1)) as [[file | e] h2].
  - match goal with
    | |- context [saveData ?a ?b] => destruct (saveData a b) as [[[] | e] h3]
    end;
      [destruct (Workspace_openFile file (Modal_close h3)) as [[[] | e] h4] |];
      simpl; (split; [discriminate |]); (split; [intros He; by destruct Hne |]);
      (split; [right; split; reflexivity |]); (split; [right; reflexivity |]);
      exact Hl.
  - simpl. split; [discriminate |]. split; [intros He; by destruct Hne |].
    split; [left; split; [reflexivity | discriminate] |].
    split; [right; reflexivity |]. exact Hl.
Qed.

(** ** Calls in progress *)

Section AsyncFacts.
Context {S H : Type} `{Host H}.

Lemma finish_bind {A B} (s : Async.Step S H A) (f : A -> Async.R S H B) :
  Async.finish (Async.step_bind s f)
  = match Async.finish s with
    | (Normal a, st') => Async.finish (f a st')
    | (Return, st') => (Return, st')
    | (Throw e, st') => (Throw e, st')
    end.
Proof. induction s as [[a | | e] st | st k IH]; simpl; auto. Qed.

Lemma agrees_bind {A B} (r : Async.R S H A) (m : M S H A)
    (f : A -> Async.R S H B) (g : A -> M S H B) :
  agrees r m -> (forall a, agrees (f a) (g a)) ->
  agrees (@mbind _ Async.R_bind _ _ f r) (m ≫= g).
Proof.
  intros Hr Hf st. unfold mbind, Async.R_bind, M_bind. rewrite finish_bind, Hr.
  destruct (m st) as [[a | | e] st']; auto. apply Hf.
Qed.

Lemma agrees_ret {A} (a : A) : agrees (@mret _ Async.R_ret _ a) (mret a : M S H A).
Proof. intros st. reflexivity. Qed.

Lemma agrees_sync {A} (m : M S H A) : agrees (Async.sync m) m.
Proof. intros st. unfold Async.sync. by destruct (m st). Qed.

Lemma finish_await {A} (s : Async.Step S H A) :
  Async.finish (Async.step_await s) = Async.finish s.
Proof. induction s as [o st | st k IH]; simpl; auto. Qed.

Lemma agrees_await {A} (r : Async.R S H A) (m : M S H A) :
  agrees r m -> agrees (Async.await r) m.
Proof. intros Hr st. unfold Async.await. by rewrite finish_await. Qed.

Lemma finish_catch {A} (s : Async.Step S H A) (handler : Err -> Async.R S H A) :
  Async.finish (Async.step_catch s handler)
  = match Async.finish s with
    | (Throw e, st') => Async.finish (handler e st')
    | x => x
    end.
Proof. induction s as [[a | | e] st | st k IH]; simpl; auto. Qed.

Lemma finish_after {A} (o : Outcome A) (s : Async.Step S H unit) :
  Async.finish (Async.step_after o s)
  = match Async.finish s with
    | (Normal _, st') => (o, st')
    | (Return, st') => (Return, st')
    | (Throw e, st') => (Throw e, st')
    end.
Proof. induction s as [[a | | e] st | st k IH]; simpl; auto. Qed.

Lemma finish_finally {A} (s : Async.Step S H A) (fin : Async.R S H unit) :
  Async.finish (Async.step_finally s fin)
  = let '(o, st') := Async.finish s in
    match Async.finish (fin st') with
    | (Normal _, st'') => (o, st'')
    | (Return, st'') => (Return, st'')
    | (Throw e, st'') => (Throw e, st'')
    end.
Proof.
  induction s as [o st | st k IH]; simpl; [apply finish_after | apply IH].
Qed.

Lemma agrees_try {A} (body : Async.R S H A) (body' : M S H A)
    (handler : Err -> Async.R S H A) (handler' : Err -> M S H A)
    (fin : Async.R S H unit) (fin' : M S H unit) :
  agrees body body' -> (forall e, agrees (handler e) (handler' e)) -> agrees fin fin' ->
  agrees (Async.try_catch_finally body handler fin) (try_catch_finally body' handler' fin').
Proof.
  intros Hb Hh Hf st. unfold Async.try_catch_finally, try_catch_finally.
  rewrite finish_finally, finish_catch, Hb.
  destruct (body' st) as [[a | | e] st1]; simpl; rewrite ?Hh, ?Hf.
  - by destruct (fin' st1) as [[[] | | e] st3].
  - by destruct (fin' st1) as [[[] | | e] st3].
  - destruct (handler' e st1) as [o2 st2]. rewrite Hf.
    by destruct (fin' st2) as [[[] | | e'] st3].
Qed.

Lemma finish_call (s : Async.Step S H unit) :
  Async.finish (Async.step_call s)
  = match Async.finish s with
    | (Throw e, st') => (Throw e, st')
    | (_, st') => (Normal tt, st')
    end.
Proof. induction s as [[a | | e] st | st k IH]; simpl; auto. Qed.

Lemma agrees_call (body : Async.R S H unit) (body' : M S H unit) :
  agrees body body' -> agrees (Async.call body) (call body').
Proof.
  intros Hb st. unfold Async.call, call. rewrite finish_call, Hb.
  by destruct (body' st) as [[[] | | e] st'].
Qed.

Lemma agrees_createFolder q :
  agrees (Async.vault_createFolder q : Async.R S H unit) (vault_createFolder q).
Proof. apply agrees_await, agrees_sync. Qed.

Lemma agrees_rename f np :
  agrees (Async.vault_rename f np : Async.R S H unit) (vault_rename f np).
Proof. apply agrees_await, agrees_sync. Qed.

Lemma agrees_processFrontMatter f patch :
  agrees (Async.fileManager_processFrontMatter f patch : Async.R S H unit)
    (fileManager_processFrontMatter f patch).
Proof. apply agrees_await, agrees_sync. Qed.

Lemma agrees_ensureFolder_loop parts current :
  agrees (Async.ensureFolder_loop parts current : Async.R S H unit)
    (ensureFolder_loop parts current).
Proof.
  revert current. induction parts as [| part rest IH]; intros current; simpl.
  - apply agrees_ret.
  - apply agrees_bind; [apply agrees_sync |]. intros existing.
    apply agrees_bind; [| intros _; apply IH].
    destruct existing; [apply agrees_ret | apply agrees_createFolder].
Qed.

Lemma agrees_ensureFolder folderPath :
  agrees (Async.ensureFolder folderPath : Async.R S H unit) (ensureFolder folderPath).
Proof.
  unfold Async.ensureFolder, ensureFolder. apply agrees_call.
  destruct (negb (str_truthy folderPath));
    [apply agrees_sync | apply agrees_ensureFolder_loop].
Qed.

End AsyncFacts.

Ltac agree_step :=
  first
    [ apply agrees_ret
    | apply agrees_createFolder
    | apply agrees_rename
    | apply agrees_processFrontMatter
    | apply agrees_sync
    | apply agrees_ensureFolder
    | apply agrees_call
    | apply agrees_try; [| intros ? |]
    | apply agrees_bind; [| intros ?]
    | match goal with
      | |- agrees (Async.await _) _ => apply agrees_await
      | |- agrees (if ?b then _ else _) _ => destruct b
      | |- agrees (match ?x with _ => _ end) _ => destruct x
      end ].

Section AsyncPrograms.
Context {H : Type} `{Host H}.

Lemma agrees_ext_processFile (file : TFile) :
  agrees (Async.ExtendedVariant.processFile file) (Extended.processFile file).
Proof.
  unfold Async.ExtendedVariant.processFile, Extended.processFile,
    Async.ExtendedVariant.processFile_body, Extended.processFile_body,
    Async.ExtendedVariant.processFile_try, Extended.processFile_try.
  repeat agree_step.
Qed.

Lemma agrees_bas_processFile (file : TFile) :
  agrees (Async.BasicVariant.processFile file) (Basic.processFile file).
Proof.
  unfold Async.BasicVariant.processFile, Basic.processFile,
    Async.BasicVariant.processFile_body, Basic.processFile_body,
    Async.BasicVariant.processFile_try, Basic.processFile_try.
  repeat agree_step.
Qed.

End AsyncPrograms.

Section Keeps.
Context {S H : Type} `{Host H}.
Variable P : Plugin S H -> Prop.

Lemma keeps_weaken {A} (Q Q' : Plugin S H -> Prop) (s : Async.Step S H A) :
  (forall st, Q st -> Q' st) -> Async.keeps P Q s -> Async.keeps P Q' s.
Proof.
  intros HQ. induction s as [o st | st k IH]; simpl; [apply HQ |].
  intros [HP Hk]. split; [exact HP |]. intros st' HP'. apply IH, Hk, HP'.
Qed.

Lemma keeps_suspensions {A} (Q : Plugin S H -> Prop) (s : Async.Step S H A) :
  Async.keeps P Q s -> Forall P (Async.suspensions s).
Proof.
  induction s as [o st | st k IH]; simpl; [constructor |].
  intros [HP Hk]. constructor; [exact HP |]. apply IH, Hk, HP.
Qed.

Lemma keeps_bind {A B} (s : Async.Step S H A) (f : A -> Async.R S H B) :
  Async.keeps P P s -> (forall a, preserves P (f a)) ->
  Async.keeps P P (Async.step_bind s f).
Proof.
  intros Hs Hf. induction s as [[a | | e] st | st k IH]; simpl in *; auto.
  - by apply Hf.
  - destruct Hs as [HP Hk]. split; [exact HP |]. intros st' HP'. apply IH, Hk, HP'.
Qed.

Lemma preserves_bind {A B} (r : Async.R S H A) (f : A -> Async.R S H B) :
  preserves P r -> (forall a, preserves P (f a)) ->
  preserves P (@mbind _ Async.R_bind _ _ f r).
Proof. intros Hr Hf st HP. apply keeps_bind; [by apply Hr | exact Hf]. Qed.

Lemma preserves_ret {A} (a : A) : preserves P (@mret _ Async.R_ret _ a : Async.R S H A).
Proof. intros st HP. exact HP. Qed.

Lemma preserves_sync {A} (m : M S H A) :
  (forall st, P st -> P (m st).2) -> preserves P (Async.sync m).
Proof.
  intros Hm st HP. unfold Async.sync. specialize (Hm st HP).
  by destruct (m st).
Qed.

Lemma keeps_await {A} (s : Async.Step S H A) :
  Async.keeps P P s -> Async.keeps P P (Async.step_await s).
Proof.
  induction s as [o st | st k IH]; simpl; [auto |].
  intros [HP Hk]. split; [exact HP |]. intros st' HP'. apply IH, Hk, HP'.
Qed.

Lemma preserves_await {A} (r : Async.R S H A) :
  preserves P r -> preserves P (Async.await r).
Proof. intros Hr st HP. apply keeps_await. by apply Hr. Qed.

Lemma keeps_call (Q : Plugin S H -> Prop) (s : Async.Step S H unit) :
  Async.keeps P Q s -> Async.keeps P Q (Async.step_call s).
Proof.
  induction s as [[a | | e] st | st k IH]; simpl; auto.
  intros [HP Hk]. split; [exact HP |]. intros st' HP'. apply IH, Hk, HP'.
Qed.

Lemma preserves_call (body : Async.R S H unit) :
  preserves P body -> preserves P (Async.call body).
Proof. intros Hb st HP. apply keeps_call. by apply Hb. Qed.

Lemma keeps_catch {A} (s : Async.Step S H A) (handler : Err -> Async.R S H A) :
  Async.keeps P P s -> (forall e, preserves P (handler e)) ->
  Async.keeps P P (Async.step_catch s handler).
Proof.
  intros Hs Hh. induction s as [[a | | e] st | st k IH]; simpl in *; auto.
  - by apply Hh.
  - destruct Hs as [HP Hk]. split; [exact HP |]. intros st' HP'. apply IH, Hk, HP'.
Qed.

Lemma keeps_finally {A} (Q : Plugin S H -> Prop) (s : Async.Step S H A)
    (fin : Async.R S H unit) :
  Async.keeps P P s ->
  (forall o st, P st -> Async.keeps P Q (Async.step_after o (fin st) : Async.Step S H A)) ->
  Async.keeps P Q (Async.step_finally s fin).
Proof.
  intros Hs Hf. induction s as [o st | st k IH]; simpl in *; [by apply Hf |].
  destruct Hs as [HP Hk]. split; [exact HP |]. intros st' HP'. apply IH, Hk, HP'.
Qed.

End Keeps.

Section GuardKept.
Context {S H : Type} `{Host H}.
Variable p : string.

Let guarded (st : Plugin S H) : Prop := p ∈ processing st.

Lemma guarded_steady {A} (m : M S H A) :
  (forall st, processing (m st).2 = processing st) ->
  forall st, guarded st -> guarded (m st).2.
Proof. intros Hm st Hst. unfold guarded. by rewrite Hm. Qed.

Lemma steady_gets {A} (f : Plugin S H -> A) st : processing (gets f st).2 = processing st.
Proof. reflexivity. Qed.

Lemma steady_emit ev (st : Plugin S H) : processing (emit ev st).2 = processing st.
Proof. reflexivity. Qed.

Lemma steady_await (c : H -> Res unit * H) (ev : option Err -> Event) (st : Plugin S H) :
  processing (await c ev st).2 = processing st.
Proof. unfold await. by destruct (c (app st)) as [[[] | e] h']. Qed.

Lemma preserves_return {A} : preserves guarded (Async.return_ : Async.R S H A).
Proof. apply preserves_sync. auto. Qed.

Lemma preserves_gets {A} (f : Plugin S H -> A) : preserves guarded (Async.gets f).
Proof. apply preserves_sync. auto. Qed.

Lemma preserves_read {A} (f : H -> A) : preserves guarded (Async.read f : Async.R S H A).
Proof. apply preserves_sync. auto. Qed.

Lemma preserves_console_warn msg : preserves guarded (Async.console_warn msg : Async.R S H unit).
Proof. apply preserves_sync. auto. Qed.

Lemma preserves_console_log msg : preserves guarded (Async.console_log msg : Async.R S H unit).
Proof. apply preserves_sync. auto. Qed.

Lemma preserves_console_error msg e :
  preserves guarded (Async.console_error msg e : Async.R S H unit).
Proof. apply preserves_sync. auto. Qed.

Lemma preserves_createFolder q :
  preserves guarded (Async.vault_createFolder q : Async.R S H unit).
Proof. apply preserves_await, preserves_sync, guarded_steady, steady_await. Qed.

Lemma preserves_rename f np :
  preserves guarded (Async.vault_rename f np : Async.R S H unit).
Proof. apply preserves_await, preserves_sync, guarded_steady, steady_await. Qed.

Lemma preserves_processFrontMatter f patch :
  preserves guarded (Async.fileManager_processFrontMatter f patch : Async.R S H unit).
Proof. apply preserves_await, preserves_sync, guarded_steady, steady_await. Qed.

Lemma preserves_ensureFolder_loop parts current :
  preserves guarded (Async.ensureFolder_loop parts current : Async.R S H unit).
Proof.
  revert current. induction parts as [| part rest IH]; intros current; simpl.
  - apply preserves_ret.
  - apply preserves_bind; [apply preserves_read |]. intros existing.
    apply preserves_bind; [| intros _; apply IH].
    destruct existing; [apply preserves_ret | apply preserves_createFolder].
Qed.

Lemma preserves_ensureFolder folderPath :
  preserves guarded (Async.ensureFolder folderPath : Async.R S H unit).
Proof.
  unfold Async.ensureFolder. apply preserves_call.
  destruct (negb (str_truthy folderPath));
    [apply preserves_return | apply preserves_ensureFolder_loop].
Qed.

End GuardKept.

Ltac keep_step :=
  first
    [ apply preserves_ret
    | apply preserves_return
    | apply preserves_gets
    | apply preserves_read
    | apply preserves_console_warn
    | apply preserves_console_log
    | apply preserves_console_error
    | apply preserves_createFolder
    | apply preserves_rename
    | apply preserves_processFrontMatter
    | apply preserves_ensureFolder
    | apply preserves_bind; [| intros ?]
    | match goal with
      | |- preserves _ (Async.await _) => apply preserves_await
      end
    | match goal with
      | |- preserves _ (if ?b then _ else _) => destruct b
      | |- preserves _ (match ?x with _ => _ end) => destruct x
      end ].

Section GuardedCalls.
Context {H : Type} `{Host H}.

Lemma ext_body_keeps_guard (p : string) (file : TFile) (originalPath : string) :
  preserves (fun st => p ∈ processing st)
    (Async.ExtendedVariant.processFile_body file originalPath).
Proof.
  unfold Async.ExtendedVariant.processFile_body, Async.ExtendedVariant.processFile_try.
  repeat keep_step.
Qed.

Lemma bas_body_keeps_guard (p : string) (file : TFile) (originalPath : string) :
  preserves (fun st => p ∈ processing st)
    (Async.BasicVariant.processFile_body file originalPath).
Proof.
  unfold Async.BasicVariant.processFile_body, Async.BasicVariant.processFile_try.
  repeat keep_step.
Qed.

End GuardedCalls.

Section AsyncGuard.
Context {S H : Type} `{Host H}.

Lemma async_guarded_in body msg file (st : Plugin S H) :
  file_path (app st) file ∈ processing st ->
  Async.guarded_call body msg file st = Async.Done (Normal tt) st.
Proof.
  intros Hin. unfold Async.guarded_call, Async.call, mbind, Async.R_bind,
    Async.read, Async.gets, Async.sync, read, gets. simpl.
  destruct (decide _) as [_ | Hout]; [reflexivity | contradiction].
Qed.

Lemma async_guarded_out body msg file (st : Plugin S H) :
  let p := file_path (app st) file in
  p ∉ processing st ->
  preserves (fun x => p ∈ processing x) (body p) ->
  Async.keeps (fun x => p ∈ processing x) (fun x => p ∉ processing x)
    (Async.guarded_call body msg file st).
Proof.
  intros p Hout Hbody. unfold Async.guarded_call, Async.call, mbind, Async.R_bind,
    Async.read, Async.gets, Async.sync, read, gets. simpl. fold p.
  destruct (decide _) as [Hin | _]; [contradiction |]. simpl.
  apply keeps_call. unfold Async.try_catch_finally.
  apply keeps_finally.
  - apply keeps_catch.
    + apply Hbody. simpl. apply elem_of_union. right. by apply elem_of_singleton.
    + intros e. apply preserves_console_error.
  - intros o x Hx. simpl. intros [_ Hp]%elem_of_difference. apply Hp.
    by apply elem_of_singleton.
Qed.

End AsyncGuard.
(** * The properties of the specification *)

(** C1. A call of [processFile] on a document whose path is in the in-flight
    guard set returns at once and changes nothing (plugin, host and journal
    are as before), and is never suspended.  Otherwise the path is added to
    the guard set before any other work and removed on every exit: the first
    thing journalled is the entry of the path into the guard set, the last
    thing is its removal, no other guard update happens in between, and the
    call ends normally whatever the body did, with the guard set as it was
    before.  While the call is in progress the path is in the guard set: at
    every [await] at which the call is suspended the guard set holds the
    path, and when the call ends it does not, whatever handlers run in
    between, as long as they hand the plugin back with the path guarded; so a
    notification for a document of the same path that arrives while the call
    is suspended returns at once and changes nothing.  The call in progress,
    left to itself, is the call run in one piece.  Both variants, every
    host. *)
Theorem processFile_guard_discipline {H : Type} `{Host H} (file : TFile) :
  (forall st : Plugin Extended.TaskflowPluginSettings H,
      let p := file_path (app st) file in
      let r := Extended.processFile file st in
      let running := Async.ExtendedVariant.processFile file st in
      r.1 = Normal tt
      /\ processing r.2 = processing st
      /\ (p ∈ processing st -> r.2 = st)
      /\ (p ∉ processing st ->
          exists mid,
            journal r.2 = (journal st ++ GuardAdd p :: mid ++ [GuardDelete p])%list
            /\ Forall (fun ev => is_guard_event ev = false) mid)
      /\ Async.finish running = r
      /\ (p ∈ processing st -> running = Async.Done (Normal tt) st)
      /\ (p ∉ processing st ->
          Async.keeps (fun x => p ∈ processing x) (fun x => p ∉ processing x) running
          /\ Forall (fun x =>
                       p ∈ processing x
                       /\ forall f, file_path (app x) f = p ->
                            Async.ExtendedVariant.processFile f x
                            = Async.Done (Normal tt) x)
               (Async.suspensions running)))
  /\ (forall st : Plugin Basic.TaskflowPluginSettings H,
      let p := file_path (app st) file in
      let r := Basic.processFile file st in
      let running := Async.BasicVariant.processFile file st in
      r.1 = Normal tt
      /\ processing r.2 = processing st
      /\ (p ∈ processing st -> r.2 = st)
      /\ (p ∉ processing st ->
          exists mid,
            journal r.2 = (journal st ++ GuardAdd p :: mid ++ [GuardDelete p])%list
            /\ Forall (fun ev => is_guard_event ev = false) mid)
      /\ Async.finish running = r
      /\ (p ∈ processing st -> running = Async.Done (Normal tt) st)
      /\ (p ∉ processing st ->
          Async.keeps (fun x => p ∈ processing x) (fun x => p ∉ processing x) running
          /\ Forall (fun x =>
                       p ∈ processing x
                       /\ forall f, file_path (app x) f = p ->
                            Async.BasicVariant.processFile f x
                            = Async.Done (Normal tt) x)
               (Async.suspensions running))).
Proof.
  split; intros st p r running.
  - assert (Hone : r.1 = Normal tt /\ processing r.2 = processing st
                   /\ (p ∈ processing st -> r.2 = st)
                   /\ (p ∉ processing st ->
                       exists mid,
                         journal r.2
                         = (journal st ++ GuardAdd p :: mid ++ [GuardDelete p])%list
                         /\ Forall (fun ev => is_guard_event ev = false) mid)).
    { destruct (decide (p ∈ processing st)) as [Hin | Hout].
      + subst r. rewrite ext_processFile_eq. simpl. fold p.
        destruct (decide (p ∈ processing st)); [| contradiction].
        simpl. repeat split; auto. intros; contradiction.
      + pose proof (ext_processFile_run file st Hout) as Hrun. fold p r in Hrun.
        destruct (run_summary_bracket _ _ _ _ _ _ Hrun) as (mid & Hj & Hmid).
        destruct Hrun as (l & o & Hn & _ & Hp & _).
        repeat split; auto; [intros; contradiction | eauto]. }
    destruct Hone as (Hn & Hp & Hin & Hout).
    assert (Hguarded : forall f (x : Plugin Extended.TaskflowPluginSettings H),
               file_path (app x) f ∈ processing x ->
               Async.ExtendedVariant.processFile f x = Async.Done (Normal tt) x).
    { intros f x Hx.
      exact (async_guarded_in (Async.ExtendedVariant.processFile_body f)
               Extended.error_message f x Hx). }
    split; [exact Hn |]. split; [exact Hp |]. split; [exact Hin |].
    split; [exact Hout |]. split; [apply agrees_ext_processFile |].
    split; [apply Hguarded |].
    intros Hfree.
    pose proof (async_guarded_out (Async.ExtendedVariant.processFile_body file)
                  Extended.error_message file st Hfree
                  (ext_body_keeps_guard p file p)) as Hkeeps.
    split; [exact Hkeeps |].
    eapply Forall_impl; [exact (keeps_suspensions _ _ _ Hkeeps) |].
    intros x Hx. split; [exact Hx |]. intros f Hf. apply Hguarded. by rewrite Hf.
  - assert (Hone : r.1 = Normal tt /\ processing r.2 = processing st
                   /\ (p ∈ processing st -> r.2 = st)
                   /\ (p ∉ processing st ->
                       exists mid,
                         journal r.2
                         = (journal st ++ GuardAdd p :: mid ++ [GuardDelete p])%list
                         /\ Forall (fun ev => is_guard_event ev = false) mid)).
    { destruct (decide (p ∈ processing st)) as [Hin | Hout].
      + subst r. rewrite bas_processFile_eq. simpl. fold p.
        destruct (decide (p ∈ processing st)); [| contradiction].
        simpl. repeat split; auto. intros; contradiction.
      + pose proof (bas_processFile_run file st Hout) as Hrun. fold p r in Hrun.
        destruct (run_summary_bracket _ _ _ _ _ _ Hrun) as (mid & Hj & Hmid).
        destruct Hrun as (l & o & Hn & _ & Hp & _).
        repeat split; auto; [intros; contradiction | eauto]. }
    destruct Hone as (Hn & Hp & Hin & Hout).
    assert (Hguarded : forall f (x : Plugin Basic.TaskflowPluginSettings H),
               file_path (app x) f ∈ processing x ->
               Async.BasicVariant.processFile f x = Async.Done (Normal tt) x).
    { intros f x Hx.
      exact (async_guarded_in (Async.BasicVariant.processFile_body f)
               Basic.error_message f x Hx). }
    split; [exact Hn |]. split; [exact Hp |]. split; [exact Hin |].
    split; [exact Hout |]. split; [apply agrees_bas_processFile |].
    split; [apply Hguarded |].
    intros Hfree.
    pose proof (async_guarded_out (Async.BasicVariant.processFile_body file)
                  Basic.error_message file st Hfree
                  (bas_body_keeps_guard p file p)) as Hkeeps.
    split; [exact Hkeeps |].
    eapply Forall_impl; [exact (keeps_suspensions _ _ _ Hkeeps) |].
    intros x Hx. split; [exact Hx |]. intros f Hf. apply Hguarded. by rewrite Hf.
Qed.

(** Relocating [Inbox/t.md] in the basic variant suspends three times (the
    container creation, the rename, the metadata patch), each time with the
    path guarded. *)
Lemma processFile_guard_discipline_witness :
  (exists mid,
     journal (Basic.processFile 0%nat Fixture.basic_plugin).2
     = ([] ++ GuardAdd "Inbox/t.md" :: mid ++ [GuardDelete "Inbox/t.md"])%list
     /\ Forall (fun ev => is_guard_event ev = false) mid)
  /\ Forall (fun x =>
               "Inbox/t.md" ∈ processing x
               /\ forall f, file_path (app x) f = "Inbox/t.md" ->
                    Async.BasicVariant.processFile f x = Async.Done (Normal tt) x)
       (Async.suspensions (Async.BasicVariant.processFile 0%nat Fixture.basic_plugin))
  /\ length (Async.suspensions (Async.BasicVariant.processFile 0%nat Fixture.basic_plugin))
     = 3%nat.
Proof.
  destruct (proj2 (processFile_guard_discipline (H := Vault.t) 0%nat) Fixture.basic_plugin)
    as (_ & _ & _ & Hout & _ & _ & Hrun).
  split; [apply Hout, not_elem_of_empty |].
  split; [apply Hrun, not_elem_of_empty | by vm_compute].
Defined.

(** C2. Whatever the snapshot holds under [propertyName], the renames a call
    of [processFile] issues are renames of the processed document to
    [target/name], where the target is the resolved true-container when the
    value is the boolean [true] and the resolved false-container when it is
    the boolean [false]; and when the value is anything else (absent, a
    string, a number, null) the call issues no container creation, no rename
    and no metadata patch, and leaves the host as it was.  Both variants,
    every host. *)
Theorem processFile_boolean_only {H : Type} `{Host H} (file : TFile) :
  (forall st : Plugin Extended.TaskflowPluginSettings H,
      let s := settings st in
      let r := Extended.processFile file st in
      exists l,
        journal r.2 = (journal st ++ l)%list
        /\ match snapshot_value (app st) file (Extended.propertyName s) with
           | Some (VBool value) =>
               forall f newPath res,
                 Rename f newPath res ∈ l ->
                 f = file
                 /\ newPath = ext_target s value ++ "/" ++ file_name (app st) file
           | _ => app r.2 = app st /\ Forall (fun ev => is_mutation ev = false) l
           end)
  /\ (forall st : Plugin Basic.TaskflowPluginSettings H,
      let s := settings st in
      let r := Basic.processFile file st in
      exists l,
        journal r.2 = (journal st ++ l)%list
        /\ match snapshot_value (app st) file (Basic.propertyName s) with
           | Some (VBool value) =>
               forall f newPath res,
                 Rename f newPath res ∈ l ->
                 f = file
                 /\ newPath = bas_target s value ++ "/" ++ file_name (app st) file
           | _ => app r.2 = app st /\ Forall (fun ev => is_mutation ev = false) l
           end).
Proof.
  split; intros st s r.
  - destruct (ext_relocates s (app st) file) as [value |] eqn:Hgo.
    + rewrite (ext_relocates_value _ _ _ _ Hgo).
      destruct (decide (file_path (app st) file ∈ processing st)) as [Hin | Hout].
      * exists []. subst r. rewrite ext_processFile_eq. simpl.
        destruct (decide _); [| contradiction]. simpl. rewrite app_nil_r.
        split; [reflexivity |]. intros f newPath res Hin'. by apply elem_of_nil in Hin'.
      * destruct (ext_reach_summary file st value Hout Hgo)
          as (l & o & _ & _ & _ & Hj & _ & Hk & _).
        eexists. split; [exact Hj |].
        intros f newPath res Hin.
        apply mutation_in_body in Hin; [| reflexivity].
        rewrite Forall_forall in Hk. exact (Hk _ Hin).
    + destruct (ext_quiet file st Hgo) as (l & Hr & Hl).
      exists l. subst r. rewrite Hr. simpl. split; [reflexivity |].
      destruct (snapshot_value _ _ _) as [[value | | | | |] |]; auto.
      intros f newPath res Hin. rewrite Forall_forall in Hl.
      specialize (Hl _ Hin). discriminate.
  - destruct (bas_relocates s (app st) file) as [value |] eqn:Hgo.
    + rewrite (bas_relocates_value _ _ _ _ Hgo).
      destruct (decide (file_path (app st) file ∈ processing st)) as [Hin | Hout].
      * exists []. subst r. rewrite bas_processFile_eq. simpl.
        destruct (decide _); [| contradiction]. simpl. rewrite app_nil_r.
        split; [reflexivity |]. intros f newPath res Hin'. by apply elem_of_nil in Hin'.
      * destruct (getAbstractFileByPath (app st) (bas_target s value))
          as [[g | d] |] eqn:Hat.
        -- subst r. rewrite (bas_reach file st value Hout Hgo). fold s. rewrite Hat.
           eexists. split; [reflexivity |].
           intros f newPath res Hin. repeat (apply elem_of_cons in Hin as [Hin | Hin];
             [discriminate |]). by apply elem_of_nil in Hin.
        -- destruct (bas_reach_summary file st value Hout Hgo)
             as (l & o & _ & _ & _ & Hj & _ & Hk & _).
           { fold s. rewrite Hat. discriminate. }
           eexists. split; [exact Hj |].
           intros f newPath res Hin.
           apply mutation_in_body in Hin; [| reflexivity].
           rewrite Forall_forall in Hk. exact (Hk _ Hin).
        -- destruct (bas_reach_summary file st value Hout Hgo)
             as (l & o & _ & _ & _ & Hj & _ & Hk & _).
           { fold s. rewrite Hat. discriminate. }
           eexists. split; [exact Hj |].
           intros f newPath res Hin.
           apply mutation_in_body in Hin; [| reflexivity].
           rewrite Forall_forall in Hk. exact (Hk _ Hin).
    + destruct (bas_quiet file st Hgo) as (l & Hr & Hl).
      exists l. subst r. rewrite Hr. simpl. split; [reflexivity |].
      destruct (snapshot_value _ _ _) as [[value | | | | |] |]; auto.
      intros f newPath res Hin. rewrite Forall_forall in Hl.
      specialize (Hl _ Hin). discriminate.
Qed.

Lemma processFile_boolean_only_witness :
  Rename 0%nat "Done/t.md" None ∈ journal (Basic.processFile 0%nat Fixture.basic_plugin).2
  /\ (0%nat = 0%nat
      /\ "Done/t.md"
         = bas_target Fixture.basic_settings true ++ "/" ++ file_name Fixture.inbox_vault 0%nat).
Proof.
  destruct (proj2 (processFile_boolean_only (H := Vault.t) 0%nat) Fixture.basic_plugin)
    as (l & Hj & Hren).
  simpl in Hj. subst l.
  assert (Hin : Rename 0%nat "Done/t.md" None
                ∈ journal (Basic.processFile 0%nat Fixture.basic_plugin).2).
  { vm_compute. do 2 apply list_elem_of_further. apply list_elem_of_here. }
  split; [exact Hin |].
  exact (Hren 0%nat "Done/t.md" None Hin).
Defined.

(** C3. The claim fails on the code in the extended variant, by a defect of
    the code.  The target path [Done] is held by a document.  [ensureFolder]
    finds an entry there, creates nothing and raises nothing, although no
    container exists at the path it was to ensure; [processFile] goes on to
    the rename, and it is the host, not the plugin, that stops the move.  On
    the same vault the basic variant checks the kind of the entry, logs that
    the target is a file and returns before any host call. *)
Lemma extended_attempts_move_onto_document :
  getAbstractFileByPath (app Fixture.blocked_extended) "Done" = Some (IsFile 1%nat)
  /\ ensureFolder "Done" Fixture.blocked_extended = (Normal tt, Fixture.blocked_extended)
  /\ journal (Extended.processFile 0%nat Fixture.blocked_extended).2
     = [GuardAdd "Inbox/t.md";
        Rename 0%nat "Done/t.md" (Some "ENOENT: no such file or directory");
        ConsoleError (error_line "Inbox/t.md")
          (Some "ENOENT: no such file or directory");
        GuardDelete "Inbox/t.md"]
  /\ journal (Basic.processFile 0%nat Fixture.blocked_basic).2
     = [GuardAdd "Inbox/t.md";
        ConsoleError (target_is_file_message "Done") None;
        GuardDelete "Inbox/t.md"].
Proof. by vm_compute. Qed.

(** C4 (as amended).  The completeness check is on the property name and the
    RESOLVED containers.  If the property name, the resolved true-container
    or the resolved false-container is empty, a call of [processFile] leaves
    the host as it was: a call outside the guard and inside the root scope
    journals the guard entry, the warning and the guard release and nothing
    else; a call outside the root scope journals the guard entry and release
    only; a call inside the guard journals nothing.  In the basic variant the
    resolved containers are the fields [trueFolder] and [falseFolder]
    themselves and there is no scope. *)
Theorem processFile_incomplete_settings {H : Type} `{Host H} (file : TFile) :
  (forall st : Plugin Extended.TaskflowPluginSettings H,
      let s := settings st in
      let p := file_path (app st) file in
      Extended.propertyName s = "" \/ Extended.absoluteTrueFolder s = ""
        \/ Extended.absoluteFalseFolder s = "" ->
      Extended.processFile file st =
        (Normal tt,
         if decide (p ∈ processing st) then st
         else if ext_in_scope s (app st) file
              then logged st [GuardAdd p; incomplete_warning; GuardDelete p]
              else logged st [GuardAdd p; GuardDelete p]))
  /\ (forall st : Plugin Basic.TaskflowPluginSettings H,
      let s := settings st in
      let p := file_path (app st) file in
      Basic.propertyName s = "" \/ Basic.trueFolder s = "" \/ Basic.falseFolder s = "" ->
      Basic.processFile file st =
        (Normal tt,
         if decide (p ∈ processing st) then st
         else logged st [GuardAdd p; incomplete_warning; GuardDelete p])).
Proof.
  split; intros st s p Hempty.
  - assert (Hc : ext_complete s = false).
    { unfold ext_complete.
      destruct Hempty as [He | [He | He]]; apply str_truthy_false in He; rewrite He;
        rewrite ?andb_false_r; reflexivity. }
    destruct (decide (p ∈ processing st)) as [Hin | Hout].
    + rewrite ext_processFile_eq. simpl. fold p.
      by destruct (decide (p ∈ processing st)).
    + rewrite ext_skip.
      * unfold ext_skip_journal. fold s p. rewrite Hc.
        by destruct (ext_in_scope s (app st) file).
      * exact Hout.
      * unfold ext_relocates. fold s. rewrite Hc. by rewrite andb_false_r.
  - assert (Hc : bas_complete s = false).
    { unfold bas_complete.
      destruct Hempty as [He | [He | He]]; apply str_truthy_false in He; rewrite He;
        rewrite ?andb_false_r; reflexivity. }
    destruct (decide (p ∈ processing st)) as [Hin | Hout].
    + rewrite bas_processFile_eq. simpl. fold p.
      by destruct (decide (p ∈ processing st)).
    + rewrite bas_skip.
      * unfold bas_skip_journal. fold s p. by rewrite Hc.
      * exact Hout.
      * unfold bas_relocates. fold s. by rewrite Hc.
Qed.

Lemma processFile_incomplete_settings_witness :
  Basic.processFile 0%nat Fixture.unnamed_plugin =
    (Normal tt,
     if decide (file_path (app Fixture.unnamed_plugin) 0%nat
                ∈ processing Fixture.unnamed_plugin)
     then Fixture.unnamed_plugin
     else logged Fixture.unnamed_plugin
            [GuardAdd (file_path (app Fixture.unnamed_plugin) 0%nat);
             incomplete_warning;
             GuardDelete (file_path (app Fixture.unnamed_plugin) 0%nat)]).
Proof.
  apply (proj2 (processFile_incomplete_settings (H := Vault.t) 0%nat) Fixture.unnamed_plugin).
  left. reflexivity.
Defined.

(** C4 as stated fails in the extended variant: the shipped defaults have an
    empty [falseFolder], and a document under [taskflow/archive] whose box is
    unticked is moved to the root container all the same. *)
Lemma empty_falseFolder_still_relocates :
  Extended.falseFolder (settings Fixture.default_plugin) = ""
  /\ journal (Extended.processFile 0%nat Fixture.default_plugin).2
     = [GuardAdd "taskflow/archive/t.md";
        Rename 0%nat "taskflow/t.md" None;
        ConsoleLog (moved_message "taskflow/archive/t.md" "taskflow/t.md");
        GuardDelete "taskflow/archive/t.md"]
  /\ Vault.path_of (app (Extended.processFile 0%nat Fixture.default_plugin).2) 0%nat
     = "taskflow/t.md".
Proof. by vm_compute. Qed.

(** C5. When the snapshot holds a boolean under [propertyName] and the
    document's parent container path is the resolved target for that value
    (string equality), a call of [processFile] changes nothing but the
    journal and journals no container creation, no rename and no metadata
    patch; and so does a second call right after it.  Both variants, every
    host. *)
Theorem processFile_idempotent_when_placed {H : Type} `{Host H} (file : TFile) :
  (forall (st : Plugin Extended.TaskflowPluginSettings H) (value : bool),
      let s := settings st in
      let r1 := Extended.processFile file st in
      let r2 := Extended.processFile file r1.2 in
      snapshot_value (app st) file (Extended.propertyName s) = Some (VBool value) ->
      or_empty (file_parent_path (app st) file) = ext_target s value ->
      (exists l1, r1 = (Normal tt, logged st l1)
                  /\ Forall (fun ev => is_mutation ev = false) l1)
      /\ (exists l2, r2 = (Normal tt, logged r1.2 l2)
                     /\ Forall (fun ev => is_mutation ev = false) l2))
  /\ (forall (st : Plugin Basic.TaskflowPluginSettings H) (value : bool),
      let s := settings st in
      let r1 := Basic.processFile file st in
      let r2 := Basic.processFile file r1.2 in
      snapshot_value (app st) file (Basic.propertyName s) = Some (VBool value) ->
      or_empty (file_parent_path (app st) file) = bas_target s value ->
      (exists l1, r1 = (Normal tt, logged st l1)
                  /\ Forall (fun ev => is_mutation ev = false) l1)
      /\ (exists l2, r2 = (Normal tt, logged r1.2 l2)
                     /\ Forall (fun ev => is_mutation ev = false) l2)).
Proof.
  split; intros st value s r1 r2 Hval Hplaced.
  - assert (Hskip : forall st' : Plugin Extended.TaskflowPluginSettings H,
               settings st' = s -> app st' = app st ->
               ext_relocates (settings st') (app st') file = None).
    { intros st' -> ->. unfold ext_relocates. fold s.
      destruct (_ && _); [| reflexivity].
      by rewrite Hval, Hplaced, String.eqb_refl. }
    destruct (ext_quiet file st (Hskip st eq_refl eq_refl)) as (l1 & Hr1 & Hl1).
    split; [by exists l1 |].
    subst r2 r1. rewrite Hr1. simpl.
    apply ext_quiet. by apply Hskip.
  - assert (Hskip : forall st' : Plugin Basic.TaskflowPluginSettings H,
               settings st' = s -> app st' = app st ->
               bas_relocates (settings st') (app st') file = None).
    { intros st' -> ->. unfold bas_relocates. fold s.
      destruct (bas_complete s); [| reflexivity].
      by rewrite Hval, Hplaced, String.eqb_refl. }
    destruct (bas_quiet file st (Hskip st eq_refl eq_refl)) as (l1 & Hr1 & Hl1).
    split; [by exists l1 |].
    subst r2 r1. rewrite Hr1. simpl.
    apply bas_quiet. by apply Hskip.
Qed.

Lemma processFile_idempotent_when_placed_witness :
  (exists l1, Basic.processFile 0%nat Fixture.placed_plugin
              = (Normal tt, logged Fixture.placed_plugin l1)
              /\ Forall (fun ev => is_mutation ev = false) l1)
  /\ (exists l2, Basic.processFile 0%nat (Basic.processFile 0%nat Fixture.placed_plugin).2
                 = (Normal tt, logged (Basic.processFile 0%nat Fixture.placed_plugin).2 l2)
                 /\ Forall (fun ev => is_mutation ev = false) l2).
Proof.
  apply (proj2 (processFile_idempotent_when_placed (H := Vault.t) 0%nat)
           Fixture.placed_plugin true); reflexivity.
Defined.

(** After a relocation the document is in its target container, and a second
    notification with the same snapshot only passes through the guard. *)
Example processFile_second_call_after_relocation :
  let r1 := Basic.processFile 0%nat Fixture.basic_plugin in
  let r2 := Basic.processFile 0%nat (mkPlugin Fixture.basic_settings ∅ [] (app r1.2)) in
  journal r2.2 = [GuardAdd "Done/t.md"; GuardDelete "Done/t.md"]
  /\ app r2.2 = app r1.2.
Proof. by vm_compute. Qed.

(** C6 (as amended).  On the reference vault, with [enableCompletedDate] on
    and a non-empty [completedDatePropertyName], when a call of [processFile]
    relocated the document (its journal holds an accepted rename): if the
    classification value was [true], the header's property under that key
    is the stamp (the current instant formatted with yyyy-MM-dd'T'HH:mm:ssXXX
    in the local zone) exactly when the value read under the key was falsy
    in the JavaScript sense (undefined, null, the empty string, [false], 0 or
    NaN; a key missing from the header reads as undefined unless
    [Object.prototype] supplies it, as it does for [constructor] or
    [toString]), and otherwise the property is kept as it was; if the
    classification value was [false], the property is absent afterwards
    whatever it held.  No other key changes.  Both variants. *)
Theorem processFile_completed_date (file : TFile) (fo : Vault.FileObj)
    (value : bool) (np : string) :
  (forall st : Plugin Extended.TaskflowPluginSettings Vault.t,
      let s := settings st in
      let r := Extended.processFile file st in
      Extended.enableCompletedDate s = true ->
      Extended.completedDatePropertyName s <> "" ->
      Rename file np None ∈ journalled st r ->
      snapshot_value (app st) file (Extended.propertyName s) = Some (VBool value) ->
      Vault.files (app st) !! file = Some fo ->
      exists fo', Vault.files (app r.2) !! file = Some fo'
                  /\ completion_outcome (app st) (Extended.completedDatePropertyName s)
                       value np fo fo')
  /\ (forall st : Plugin Basic.TaskflowPluginSettings Vault.t,
      let s := settings st in
      let r := Basic.processFile file st in
      Basic.enableCompletedDate s = true ->
      Basic.completedDatePropertyName s <> "" ->
      Rename file np None ∈ journalled st r ->
      snapshot_value (app st) file (Basic.propertyName s) = Some (VBool value) ->
      Vault.files (app st) !! file = Some fo ->
      exists fo', Vault.files (app r.2) !! file = Some fo'
                  /\ completion_outcome (app st) (Basic.completedDatePropertyName s)
                       value np fo fo').
Proof.
  split; intros st s r Hen Hkey Hren Hval Hfo.
  - destruct (ext_renamed file st np None Hren)
      as (value' & st1 & Hgo & Hout & Hnp & Hens & Hres & Hr).
    fold s in Hgo, Hnp, Hens, Hr.
    destruct (accepted_rename _ _ _ (eq_sym Hres)) as [h2 Hmove].
    pose proof (ext_relocates_value _ _ _ _ Hgo) as Hval'.
    rewrite Hval in Hval'. injection Hval' as <-.
    destruct (ensureFolder_only_creates (ext_target s value)
                (entered (file_path (app st) file) st))
      as (l1 & _ & _ & _ & Hrep & Hl1 & _).
    rewrite Hens in Hrep. simpl in Hrep.
    destruct (replay_creations _ _ _ Hrep Hl1) as (Hfiles & Hclock & Hzone).
    rewrite <- Hfiles in Hfo.
    destruct (vault_rename_and_stamp (Extended.completedDatePropertyName s) value file
                (file_path (app st) file) np st1 h2 fo Hkey Hfo Hmove)
      as (fo' & Hfo' & Hpath & Hfm).
    exists fo'. subst r. rewrite Hr, Hen. simpl. split; [exact Hfo' |].
    unfold completion_outcome. rewrite Hfm. split; [exact Hpath |]. split.
    + rewrite completion_patch_key. simpl. by rewrite Hclock, Hzone.
    + intros k Hk. apply apply_patch_other. by rewrite completion_patch_patch_key.
  - destruct (bas_renamed file st np None Hren)
      as (value' & st1 & Hgo & Hout & Hnp & Hst1 & Hres & Hr).
    fold s in Hgo, Hnp, Hst1, Hr.
    destruct (accepted_rename _ _ _ (eq_sym Hres)) as [h2 Hmove].
    pose proof (bas_relocates_value _ _ _ _ Hgo) as Hval'.
    rewrite Hval in Hval'. injection Hval' as <-.
    assert (Hsame : Vault.files (app st1) = Vault.files (app st)
                    /\ Vault.clock (app st1) = Vault.clock (app st)
                    /\ Vault.zone (app st1) = Vault.zone (app st)).
    { destruct Hst1 as [(d & _ & ->) | (_ & Hmk)]; [auto |].
      destruct (tracks_createFolder (fun ev => is_createFolder ev = true)
                  (bas_target s value) (fun _ => eq_refl)
                  (entered (file_path (app st) file) st))
        as (l1 & _ & _ & _ & Hrep & Hl1 & _).
      rewrite Hmk in Hrep. simpl in Hrep.
      exact (replay_creations _ _ _ Hrep Hl1). }
    destruct Hsame as (Hfiles & Hclock & Hzone).
    rewrite <- Hfiles in Hfo.
    destruct (vault_rename_and_stamp (Basic.completedDatePropertyName s) value file
                (file_path (app st) file) np st1 h2 fo Hkey Hfo Hmove)
      as (fo' & Hfo' & Hpath & Hfm).
    exists fo'. subst r. rewrite Hr, Hen. simpl. split; [exact Hfo' |].
    unfold completion_outcome. rewrite Hfm. split; [exact Hpath |]. split.
    + rewrite completion_patch_key. simpl. by rewrite Hclock, Hzone.
    + intros k Hk. apply apply_patch_other. by rewrite completion_patch_patch_key.
Qed.

Lemma processFile_completed_date_witness :
  exists fo',
    Vault.files (app (Basic.processFile 0%nat Fixture.basic_plugin).2) !! 0%nat = Some fo'
    /\ completion_outcome (app Fixture.basic_plugin) "completed_date" true "Done/t.md"
         (Fixture.note "Inbox/t.md" Fixture.done_true) fo'.
Proof.
  apply (proj2 (processFile_completed_date 0%nat
                  (Fixture.note "Inbox/t.md" Fixture.done_true) true "Done/t.md")
           Fixture.basic_plugin).
  - reflexivity.
  - discriminate.
  - vm_compute. do 2 apply list_elem_of_further. apply list_elem_of_here.
  - reflexivity.
  - reflexivity.
Defined.

(** The stamp lands in the header of the relocated document. *)
Example processFile_stamps_fresh :
  (fun fo' => (Vault.f_path fo', map_to_list (Vault.f_frontmatter fo')))
    <$> Vault.files (app (Basic.processFile 0%nat Fixture.basic_plugin).2) !! 0%nat
  = Some ("Done/t.md",
          [("completed_date", VStr "2023-11-15T03:43:20+05:30"); ("done", VBool true)]).
Proof. by vm_compute. Qed.

(** C6 as stated fails: a completion key holding [false], an existing value
    that is neither absent nor empty, is overwritten by the stamp. *)
Lemma processFile_overwrites_false :
  Vault.f_frontmatter <$> Vault.files (app Fixture.stale_plugin) !! 0%nat
    = Some Fixture.stale
  /\ Fixture.stale !! "completed_date" = Some (VBool false)
  /\ (fun fo' => Vault.f_frontmatter fo' !! "completed_date")
       <$> Vault.files (app (Basic.processFile 0%nat Fixture.stale_plugin).2) !! 0%nat
     = Some (Some (VStr "2023-11-15T03:43:20+05:30")).
Proof. by vm_compute. Qed.

(** The stamp is withheld where the key names an inherited property: the
    callback reads a function there, and writes nothing. *)
Example stamp_withheld_under_inherited_key :
  truthy (js_get Fixture.done_true "constructor") = true
  /\ apply_patch (StampCompleted "constructor" "2023-11-15T03:43:20+05:30")
       Fixture.done_true = Fixture.done_true
  /\ apply_patch (StampCompleted "completed_date" "2023-11-15T03:43:20+05:30")
       {[ "completed_date" := VNaN ]}
     = {[ "completed_date" := VStr "2023-11-15T03:43:20+05:30" ]}.
Proof. by vm_compute. Qed.

(** C7. No error leaves [processFile]: over every host, whatever the host
    calls answer, the call ends normally and the guard set is as before; and
    when a host call (container creation, rename, metadata patch) is
    rejected, the next and last two journal entries are the console error
    carrying the document's original path and the rejection, and the guard
    release.  Both variants. *)
Theorem processFile_never_throws {H : Type} `{Host H} (file : TFile) :
  (forall st : Plugin Extended.TaskflowPluginSettings H,
      let p := file_path (app st) file in
      let r := Extended.processFile file st in
      r.1 = Normal tt
      /\ processing r.2 = processing st
      /\ exists l,
           journal r.2 = (journal st ++ l)%list
           /\ forall ev e, ev ∈ l -> failed ev = Some e ->
                exists l0,
                  l = (l0 ++ [ev; ConsoleError (error_line p) (Some e);
                              GuardDelete p])%list)
  /\ (forall st : Plugin Basic.TaskflowPluginSettings H,
      let p := file_path (app st) file in
      let r := Basic.processFile file st in
      r.1 = Normal tt
      /\ processing r.2 = processing st
      /\ exists l,
           journal r.2 = (journal st ++ l)%list
           /\ forall ev e, ev ∈ l -> failed ev = Some e ->
                exists l0,
                  l = (l0 ++ [ev; ConsoleError (error_line p) (Some e);
                              GuardDelete p])%list).
Proof.
  split; intros st p r.
  - destruct (decide (p ∈ processing st)) as [Hin | Hout].
    + subst r. rewrite ext_processFile_eq. simpl. fold p.
      destruct (decide (p ∈ processing st)) as [_ | ?]; [| contradiction]. simpl.
      repeat split; auto. exists []. rewrite app_nil_r. split; [reflexivity |].
      intros ev e Hev. by apply elem_of_nil in Hev.
    + pose proof (ext_processFile_run file st Hout) as Hrun. fold p r in Hrun.
      pose proof (run_summary_failure _ _ _ _ _ Hrun) as Hfail.
      destruct Hrun as (l & o & Hn & _ & Hp & _). auto.
  - destruct (decide (p ∈ processing st)) as [Hin | Hout].
    + subst r. rewrite bas_processFile_eq. simpl. fold p.
      destruct (decide (p ∈ processing st)) as [_ | ?]; [| contradiction]. simpl.
      repeat split; auto. exists []. rewrite app_nil_r. split; [reflexivity |].
      intros ev e Hev. by apply elem_of_nil in Hev.
    + pose proof (bas_processFile_run file st Hout) as Hrun. fold p r in Hrun.
      pose proof (run_summary_failure _ _ _ _ _ Hrun) as Hfail.
      destruct Hrun as (l & o & Hn & _ & Hp & _). auto.
Qed.

(** A rename rejected because the destination is taken: the error is
    caught, logged and the call ends normally. *)
Lemma processFile_never_throws_witness :
  (Basic.processFile 0%nat Fixture.clash_plugin).1 = Normal tt
  /\ exists l0,
       journal (Basic.processFile 0%nat Fixture.clash_plugin).2
       = (l0 ++ [Rename 0%nat "Done/t.md" (Some "Destination file already exists!");
                 ConsoleError (error_line "Inbox/t.md")
                   (Some "Destination file already exists!");
                 GuardDelete "Inbox/t.md"])%list.
Proof.
  destruct (proj2 (processFile_never_throws (H := Vault.t) 0%nat) Fixture.clash_plugin)
    as (Hn & _ & l & Hj & Hfail).
  split; [exact Hn |].
  simpl in Hj. rewrite Hj.
  apply (Hfail (Rename 0%nat "Done/t.md" (Some "Destination file already exists!"))).
  - rewrite <- Hj. vm_compute. apply list_elem_of_further, list_elem_of_here.
  - reflexivity.
Defined.

(** C8. In the extended variant, a document whose path does not begin with
    the configured non-empty root followed by "/" is never relocated,
    whatever its property value: the call journals the guard entry and
    release only (nothing when the path is in the guard set) and leaves
    settings, guard set and host as they were.  Every host. *)
Theorem processFile_outside_root_scope {H : Type} `{Host H} (file : TFile)
    (st : Plugin Extended.TaskflowPluginSettings H) :
  let p := file_path (app st) file in
  Extended.rootFolder (settings st) <> "" ->
  startsWith p (Extended.rootFolder (settings st) ++ "/") = false ->
  Extended.processFile file st =
    (Normal tt,
     if decide (p ∈ processing st) then st
     else logged st [GuardAdd p; GuardDelete p]).
Proof.
  intros p Hroot Hpre.
  assert (Hs : ext_in_scope (settings st) (app st) file = false).
  { unfold ext_in_scope. fold p. rewrite Hpre.
    apply str_truthy_true in Hroot. by rewrite Hroot. }
  destruct (decide (p ∈ processing st)) as [Hin | Hout].
  - rewrite ext_processFile_eq. simpl. fold p.
    by destruct (decide (p ∈ processing st)).
  - rewrite ext_skip.
    + unfold ext_skip_journal. by rewrite Hs.
    + exact Hout.
    + unfold ext_relocates. by rewrite Hs.
Qed.

Lemma processFile_outside_root_scope_witness :
  Extended.processFile 0%nat Fixture.scoped_plugin =
    (Normal tt,
     if decide (file_path (app Fixture.scoped_plugin) 0%nat
                ∈ processing Fixture.scoped_plugin)
     then Fixture.scoped_plugin
     else logged Fixture.scoped_plugin
            [GuardAdd (file_path (app Fixture.scoped_plugin) 0%nat);
             GuardDelete (file_path (app Fixture.scoped_plugin) 0%nat)]).
Proof.
  apply (processFile_outside_root_scope (H := Vault.t) 0%nat Fixture.scoped_plugin).
  - discriminate.
  - reflexivity.
Defined.

(** C9. The claim fails on the code at 2^53, by a defect of the code.
    JavaScript numbers are doubles: [parseInt] reads 9007199254740992 from
    the name, and one above it is not representable, so [maxNum + 1] is that
    number again and the counter is set to the highest identifier instead of
    one above it. *)
Lemma detectTaskCounter_not_above_2_53 :
  task_numbers Fixture.huge_vault "taskflow" (getMarkdownFiles Fixture.huge_vault)
  = [9007199254740992%N]
  /\ Extended.taskCounter
       (settings (Extended.detectTaskCounter Fixture.saveData Fixture.huge_plugin).2)
     = Fin 9007199254740992
  /\ Fin 9007199254740992 <> Fin (9007199254740992 + 1).
Proof. by vm_compute. Qed.

(** C10 (as amended).  On the reference vault, a call of [processFile]
    leaves every settings field (the task counter included) and the guard
    set as they were, and changes at most: the location of the processed
    document and its header value under [completedDatePropertyName]; and the
    container tree, to which containers along the path of a resolved target
    (the target itself in the basic variant) may be added.  Every other
    header key, the body and the cached snapshot of that document, every
    other document, and every existing container are untouched. *)
Theorem processFile_frame (file : TFile) :
  (forall st : Plugin Extended.TaskflowPluginSettings Vault.t,
      let s := settings st in
      let r := Extended.processFile file st in
      settings r.2 = s
      /\ processing r.2 = processing st
      /\ vault_frame file (Extended.completedDatePropertyName s)
           (fun q => q ∈ container_paths (Extended.absoluteTrueFolder s)
                     \/ q ∈ container_paths (Extended.absoluteFalseFolder s))
           (app st) (app r.2))
  /\ (forall st : Plugin Basic.TaskflowPluginSettings Vault.t,
      let s := settings st in
      let r := Basic.processFile file st in
      settings r.2 = s
      /\ processing r.2 = processing st
      /\ vault_frame file (Basic.completedDatePropertyName s)
           (fun q => q = Basic.trueFolder s \/ q = Basic.falseFolder s)
           (app st) (app r.2)).
Proof.
  split; intros st s r.
  - destruct (ext_relocates s (app st) file) as [value |] eqn:Hgo.
    + destruct (decide (file_path (app st) file ∈ processing st)) as [Hin | Hout].
      * subst r. rewrite ext_processFile_eq. simpl.
        destruct (decide _); [| contradiction]. simpl.
        split; [| split]; auto using vault_frame_refl.
      * destruct (ext_reach_summary file st value Hout Hgo)
          as (l & o & _ & Hs & Hp & _ & Hrep & Hk & _).
        split; [| split]; auto.
        eapply vault_frame_mono; [| eapply replay_frame; eauto].
        intros q Hq. destruct value; simpl in Hq; auto.
    + destruct (ext_quiet file st Hgo) as (l & Hr & Hl).
      subst r. rewrite Hr. simpl. split; [| split]; auto using vault_frame_refl.
  - destruct (bas_relocates s (app st) file) as [value |] eqn:Hgo.
    + destruct (decide (file_path (app st) file ∈ processing st)) as [Hin | Hout].
      * subst r. rewrite bas_processFile_eq. simpl.
        destruct (decide _); [| contradiction]. simpl.
        split; [| split]; auto using vault_frame_refl.
      * destruct (getAbstractFileByPath (app st) (bas_target s value))
          as [[g | d] |] eqn:Hat.
        -- subst r. rewrite (bas_reach file st value Hout Hgo). fold s. rewrite Hat.
           simpl. split; [| split]; auto using vault_frame_refl.
        -- destruct (bas_reach_summary file st value Hout Hgo)
             as (l & o & _ & Hs & Hp & _ & Hrep & Hk & _).
           { fold s. rewrite Hat. discriminate. }
           split; [| split]; auto.
           eapply vault_frame_mono; [| eapply replay_frame; eauto].
           intros q ->. destruct value; simpl; auto.
        -- destruct (bas_reach_summary file st value Hout Hgo)
             as (l & o & _ & Hs & Hp & _ & Hrep & Hk & _).
           { fold s. rewrite Hat. discriminate. }
           split; [| split]; auto.
           eapply vault_frame_mono; [| eapply replay_frame; eauto].
           intros q ->. destruct value; simpl; auto.
    + destruct (bas_quiet file st Hgo) as (l & Hr & Hl).
      subst r. rewrite Hr. simpl. split; [| split]; auto using vault_frame_refl.
Qed.

(** C10 as stated fails: relocating [Inbox/t.md] to the missing container
    [Done] creates that container, a change of state outside the processed
    document. *)
Lemma processFile_creates_container :
  elements (Vault.folders (app Fixture.basic_plugin)) = ["Inbox"]
  /\ elements (Vault.folders (app (Basic.processFile 0%nat Fixture.basic_plugin).2))
     = ["Inbox"; "Done"]
  /\ journal (Basic.processFile 0%nat Fixture.basic_plugin).2
     = [GuardAdd "Inbox/t.md";
        CreateFolder "Done" None;
        Rename 0%nat "Done/t.md" None;
        ConsoleLog (moved_message "Inbox/t.md" "Done/t.md");
        ProcessFrontMatter 0%nat
          (StampCompleted "completed_date" "2023-11-15T03:43:20+05:30") None;
        GuardDelete "Inbox/t.md"].
Proof. by vm_compute. Qed.

(** The round trip of the spec's testable properties: done, relocated and
    stamped; then unticked by the user, re-indexed and notified again, the
    document is back in the false-container and the stamp is gone. *)
Example processFile_round_trip :
  let v1 := app (Basic.processFile 0%nat Fixture.basic_plugin).2 in
  let v2 := Vault.reindex 0%nat
              (Vault.patch 0%nat (fun fm => <["done" := VBool false]> fm) v1).2 in
  let r := Basic.processFile 0%nat (mkPlugin Fixture.basic_settings ∅ [] v2) in
  (fun fo => (Vault.f_path fo, map_to_list (Vault.f_frontmatter fo), Vault.f_body fo))
    <$> Vault.files (app r.2) !! 0%nat
  = Some ("Inbox/t.md", [("done", VBool false)], "body").
Proof. by vm_compute. Qed.

(** * Further properties, beyond the specification's list *)

(** X1. When the extended [processFile] warns of incomplete settings: for a
    document outside the guard set, the warning is journalled exactly when
    the document is in scope and the property name is empty, or no root
    folder is set and the true or the false folder is empty.  With a root
    folder set, empty true or false folders never make the settings
    incomplete (they resolve to the root).  Every host. *)
Theorem processFile_warns_iff_incomplete {H : Type} `{Host H} (file : TFile)
    (st : Plugin Extended.TaskflowPluginSettings H) :
  let s := settings st in
  file_path (app st) file ∉ processing st ->
  incomplete_warning ∈ journalled st (Extended.processFile file st)
  <-> ext_in_scope s (app st) file = true
      /\ (Extended.propertyName s = ""
          \/ (Extended.rootFolder s = ""
              /\ (Extended.trueFolder s = "" \/ Extended.falseFolder s = ""))).
Proof.
  intros s Hout. rewrite <- ext_complete_iff.
  destruct (ext_relocates s (app st) file) as [value |] eqn:Hgo.
  - destruct (ext_relocates_inv _ _ _ _ Hgo) as (Hscope & Hcomplete & _).
    split; [| intros [_ Hc]; congruence].
    intros Hin. exfalso.
    destruct (ext_reach_summary file st value Hout Hgo)
      as (l & o & _ & _ & _ & Hj & _ & Hk & _).
    rewrite (journalled_app _ _ _ Hj) in Hin.
    apply elem_of_cons in Hin as [Hin | Hin]; [discriminate |].
    apply elem_of_app in Hin as [Hin | Hin].
    + rewrite Forall_forall in Hk. exact (Hk _ Hin).
    + apply elem_of_app in Hin as [Hin | Hin].
      * destruct o; simpl in Hin;
          try (by apply elem_of_nil in Hin).
        apply list_elem_of_singleton in Hin. discriminate.
      * apply list_elem_of_singleton in Hin. discriminate.
  - rewrite (ext_skip file st Hout Hgo). unfold journalled, logged. simpl.
    rewrite drop_app_length. unfold ext_skip_journal. fold s.
    destruct (ext_in_scope s (app st) file); simpl.
    + destruct (ext_complete s); simpl.
      * split; [| intros [_ ?]; discriminate].
        intros Hin. apply elem_of_cons in Hin as [Hin | Hin]; [discriminate |].
        apply list_elem_of_singleton in Hin. discriminate.
      * split; [auto |]. intros _. apply list_elem_of_further, list_elem_of_here.
    + split; [| intros [? _]; discriminate].
      intros Hin. apply elem_of_cons in Hin as [Hin | Hin]; [discriminate |].
      apply list_elem_of_singleton in Hin. discriminate.
Qed.

Lemma processFile_warns_iff_incomplete_witness :
  let st := mkPlugin (Extended.mkSettings "" "" "done" "" "Inbox" "icebox" false
                        "backlog" true "completed_date" (Fin 1)) ∅ [] Fixture.inbox_vault in
  incomplete_warning ∈ journalled st (Extended.processFile 0%nat st)
  <-> ext_in_scope (settings st) (app st) 0%nat = true
      /\ (Extended.propertyName (settings st) = ""
          \/ (Extended.rootFolder (settings st) = ""
              /\ (Extended.trueFolder (settings st) = ""
                  \/ Extended.falseFolder (settings st) = ""))).
Proof.
  apply (processFile_warns_iff_incomplete (H := Vault.t) 0%nat).
  apply not_elem_of_empty.
Defined.

(** X2. With a non-empty root folder, every rename the extended
    [processFile] issues is a rename of the processed document to a path
    under the root: a relocation never takes a document out of the scope in
    which its later notifications are considered.  Every host. *)
Theorem processFile_renames_within_root {H : Type} `{Host H} (file : TFile)
    (st : Plugin Extended.TaskflowPluginSettings H) (f : TFile) (np : string)
    (res : option Err) :
  Extended.rootFolder (settings st) <> "" ->
  Rename f np res ∈ journalled st (Extended.processFile file st) ->
  f = file /\ startsWith np (Extended.rootFolder (settings st) ++ "/") = true.
Proof.
  intros Hroot Hin.
  pose proof (ext_rename_is_file file st f np res Hin) as ->.
  split; [reflexivity |].
  destruct (ext_renamed file st np res Hin) as (value & st1 & _ & _ & -> & _).
  destruct value; simpl; by apply buildPath_under_root.
Qed.

Lemma processFile_renames_within_root_witness :
  0%nat = 0%nat
  /\ startsWith "taskflow/t.md"
       (Extended.rootFolder (settings Fixture.default_plugin) ++ "/") = true.
Proof.
  apply (processFile_renames_within_root (H := Vault.t) 0%nat Fixture.default_plugin
           0%nat "taskflow/t.md" None).
  - discriminate.
  - vm_compute. apply list_elem_of_further, list_elem_of_here.
Defined.

(** X3. [ensureFolder] changes neither settings nor guard set and issues
    nothing but container creations at paths along the given path; it ends
    normally or by rethrowing the rejection of its last creation, no creation
    before it having failed.  For the empty path it issues nothing.  Every
    host. *)
Theorem ensureFolder_stops_at_rejection {S H : Type} `{Host H} (folderPath : string)
    (st : Plugin S H) :
  let r := ensureFolder folderPath st in
  settings r.2 = settings st
  /\ processing r.2 = processing st
  /\ exists l,
       journal r.2 = (journal st ++ l)%list
       /\ Forall (fun ev => exists q res, ev = CreateFolder q res
                                          /\ q ∈ container_paths folderPath) l
       /\ match r.1 with
          | Normal _ => Forall (fun ev => failed ev = None) l
          | Return => False
          | Throw e =>
              exists l0 q, l = (l0 ++ [CreateFolder q (Some e)])%list
                           /\ Forall (fun ev => failed ev = None) l0
          end.
Proof.
  intros r.
  destruct (tracks_ensureFolder
              (fun ev => exists q res, ev = CreateFolder q res
                                       /\ q ∈ container_paths folderPath)
              folderPath (fun q res Hq => ex_intro _ q (ex_intro _ res (conj eq_refl Hq))) st)
    as (l & Hs & Hp & Hj & _ & Hk & Ho).
  fold r in Hs, Hp, Hj, Ho.
  split; [exact Hs |]. split; [exact Hp |].
  exists l. split; [exact Hj |]. split; [exact Hk |].
  pose proof (ensureFolder_outcome folderPath st) as Hnr. fold r in Hnr.
  destruct r.1 as [[] | | e]; simpl in *; [exact Ho | by destruct Hnr |].
  destruct Ho as (l0 & ev & -> & Hev & Hl0).
  rewrite Forall_app, Forall_singleton in Hk. destruct Hk as [_ (q & res & -> & _)].
  simpl in Hev. subst res. eauto.
Qed.

(** X4. [ensureFolder] is idempotent on the reference vault: for a path with
    no empty component none of whose containers is held by a document, the
    target exists after the first call, and a second call right after it
    returns normally, issues no host call at all and leaves containers and
    documents as they are. *)
Theorem ensureFolder_idempotent {S : Type} (st : Plugin S Vault.t) (target : string) :
  Forall (fun part => part <> "") (split slash target) ->
  (forall q, q ∈ container_paths target -> Vault.file_at (app st) q = None) ->
  let r1 := ensureFolder target st in
  let r2 := ensureFolder target r1.2 in
  r2.1 = Normal tt
  /\ journal r2.2 = journal r1.2
  /\ Vault.folders (app r2.2) = Vault.folders (app r1.2)
  /\ Vault.files (app r2.2) = Vault.files (app st)
  /\ target ∈ Vault.folders (app r1.2).
Proof.
  intros Hparts Hfiles r1 r2.
  destruct (ensureFolder_vault st target Hparts Hfiles) as (Ho1 & Hj1 & Hfo1 & Hfi1).
  fold r1 in Ho1, Hj1, Hfo1, Hfi1.
  assert (Hall : forall q, q ∈ container_paths target -> q ∈ Vault.folders (app r1.2)).
  { intros q Hq. rewrite Hfo1. apply elem_of_union. right. by apply elem_of_list_to_set. }
  assert (Hfiles1 : forall q, q ∈ container_paths target ->
                              Vault.file_at (app r1.2) q = None).
  { intros q Hq. unfold Vault.file_at. rewrite Hfi1. by apply Hfiles. }
  destruct (ensureFolder_vault r1.2 target Hparts Hfiles1) as (Ho2 & Hj2 & Hfo2 & Hfi2).
  fold r2 in Ho2, Hj2, Hfo2, Hfi2.
  split; [exact Ho2 |]. split.
  { rewrite Hj2, creations_none by exact Hall. apply app_nil_r. }
  split.
  { rewrite Hfo2. apply set_eq. intros x. rewrite elem_of_union, elem_of_list_to_set.
    split; [intros [? | ?]; auto | auto]. }
  split; [congruence |].
  apply Hall. apply last_Some_elem_of. by apply container_paths_last.
Qed.

Lemma ensureFolder_idempotent_witness :
  (ensureFolder "Done/2024/Q4" (ensureFolder "Done/2024/Q4" Fixture.deep_plugin).2).1
    = Normal tt
  /\ journal (ensureFolder "Done/2024/Q4"
                (ensureFolder "Done/2024/Q4" Fixture.deep_plugin).2).2
     = journal (ensureFolder "Done/2024/Q4" Fixture.deep_plugin).2
  /\ Vault.folders (app (ensureFolder "Done/2024/Q4"
                           (ensureFolder "Done/2024/Q4" Fixture.deep_plugin).2).2)
     = Vault.folders (app (ensureFolder "Done/2024/Q4" Fixture.deep_plugin).2)
  /\ Vault.files (app (ensureFolder "Done/2024/Q4"
                         (ensureFolder "Done/2024/Q4" Fixture.deep_plugin).2).2)
     = Vault.files (app Fixture.deep_plugin)
  /\ "Done/2024/Q4" ∈ Vault.folders (app (ensureFolder "Done/2024/Q4"
                                            Fixture.deep_plugin).2).
Proof.
  apply (ensureFolder_idempotent Fixture.deep_plugin "Done/2024/Q4").
  - vm_compute. repeat (constructor; [discriminate |]). constructor.
  - intros q Hq. vm_compute in Hq.
    repeat (apply elem_of_cons in Hq as [-> | Hq]; [reflexivity |]).
    by apply elem_of_nil in Hq.
Defined.

(** X5. The extended [processFile] does relocate, on the reference vault:
    for a document outside the guard set that the decision sends to a target
    (in scope, settings complete, boolean snapshot value, parent different
    from the target), when the target path has no empty component, none of
    its containers is held by a document and the destination [target/name]
    is free, the call journals exactly the guard entry, the creations of the
    missing containers, the accepted rename, the log line, the accepted
    timestamp patch if enabled, and the guard release.  Afterwards the
    document is at [target/name], its parent is the target, every container
    along the target exists, and the notification that follows the move
    finds nothing to do: the call does not loop. *)
Theorem processFile_relocates (file : TFile)
    (st : Plugin Extended.TaskflowPluginSettings Vault.t) (value : bool) :
  let s := settings st in
  let p := Vault.path_of (app st) file in
  let target := ext_target s value in
  let np := target ++ "/" ++ file_name (app st) file in
  let r := Extended.processFile file st in
  p ∉ processing st ->
  ext_relocates s (app st) file = Some value ->
  Forall (fun part => part <> "") (split slash target) ->
  (forall q, q ∈ container_paths target -> Vault.file_at (app st) q = None) ->
  Vault.lookup_path (app st) np = None ->
  journalled st r
  = (GuardAdd p :: creations (app st) (container_paths target)
     ++ Rename file np None :: ConsoleLog (moved_message p np)
     :: stamp_events file (Extended.enableCompletedDate s)
          (Extended.completedDatePropertyName s) value (app st)
     ++ [GuardDelete p])%list
  /\ Vault.path_of (app r.2) file = np
  /\ Vault.parent_of (app r.2) file = Some target
  /\ (forall q, q ∈ container_paths target -> q ∈ Vault.folders (app r.2))
  /\ exists l, Extended.processFile file r.2 = (Normal tt, logged r.2 l)
               /\ Forall (fun ev => is_mutation ev = false) l.
Proof.
  intros s p target np r Hout Hgo Hparts Hfiles Hfree.
  destruct (ext_relocates_inv _ _ _ _ Hgo) as (Hscope & Hcomplete & Hsnap & Hparent).
  assert (Hfo : exists fo, Vault.files (app st) !! file = Some fo).
  { unfold snapshot_value in Hsnap. simpl in Hsnap.
    destruct (Vault.files (app st) !! file); [eauto | discriminate]. }
  destruct Hfo as [fo Hfo].
  pose proof (ext_reach file st value Hout Hgo) as Hrun.
  fold s p target np in Hrun. simpl in Hrun. fold p in Hrun.
  destruct (ensureFolder_vault (entered p st) target Hparts Hfiles)
    as (Ho1 & Hj1 & Hfo1 & Hfi1).
  destruct (ensureFolder target (entered p st)) as [o1 st1] eqn:He.
  simpl in Ho1, Hj1, Hfo1, Hfi1. subst o1.
  assert (Hs1 : settings st1 = s /\ processing st1 = processing st ∪ {[p]}
                /\ Vault.clock (app st1) = Vault.clock (app st)
                /\ Vault.zone (app st1) = Vault.zone (app st)).
  { destruct (ensureFolder_only_creates target (entered p st))
      as (l1 & Hs & Hp & _ & Hreplay & Hl1 & _).
    rewrite He in Hs, Hp, Hreplay. simpl in Hs, Hp, Hreplay.
    destruct (replay_creations _ _ _ Hreplay Hl1) as (_ & ? & ?). auto. }
  destruct Hs1 as (Hset1 & Hproc1 & Hclock & Hzone).
  assert (Hname : slash_free (file_name (app st) file) = true)
    by apply dir_base_name_slash_free.
  assert (Htarget : target ∈ Vault.folders (app st1)).
  { rewrite Hfo1. apply elem_of_union. right. apply elem_of_list_to_set.
    apply last_Some_elem_of. by apply container_paths_last. }
  assert (Hfree1 : Vault.lookup_path (app st1) np = None).
  { apply lookup_path_none in Hfree as [Hf Hd]. apply lookup_path_none. split.
    - by rewrite (file_at_files (app st) (app st1)).
    - rewrite Hfo1. intros [Hin | Hin]%elem_of_union; [by apply Hd |].
      apply elem_of_list_to_set in Hin.
      apply (container_paths_bounded _ _ Hparts) in Hin.
      unfold np in Hin. rewrite !length_app in Hin. simpl in Hin. lia. }
  assert (Hfo' : Vault.files (app st1) !! file = Some fo) by (by rewrite Hfi1).
  unfold mbind, M_bind in Hrun. rewrite He in Hrun.
  unfold np in Hrun.
  rewrite (vault_rename_and_stamp_run _ _ _ _ _ _ _ _ fo Hfo' Hfree1 Hname Htarget) in Hrun.
  fold np in Hrun.
  assert (Hpatch : forall key, completion_patch (app st1) key value
                               = completion_patch (app st) key value).
  { intros key. unfold completion_patch. simpl. by rewrite Hclock, Hzone. }
  assert (Hev : forall en key, stamp_events file en key value (app st1)
                               = stamp_events file en key value (app st)).
  { intros en key. unfold stamp_events. by rewrite Hpatch. }
  rewrite Hev in Hrun.
  assert (Hr : r = Extended.processFile file st) by reflexivity.
  rewrite Hrun in Hr. clear Hrun.
  split.
  { apply journalled_app. rewrite Hr. simpl. rewrite Hj1.
    rewrite <- !app_assoc. simpl. reflexivity. }
  split.
  { rewrite Hr. unfold Vault.path_of. simpl. by rewrite lookup_insert_eq. }
  split.
  { rewrite Hr. unfold Vault.parent_of. simpl. rewrite lookup_insert_eq. simpl.
    unfold np. by rewrite (dir_base_join target _ Hname). }
  split.
  { intros q Hq. rewrite Hr. simpl. rewrite Hfo1. apply elem_of_union. right.
    by apply elem_of_list_to_set. }
  apply ext_quiet. rewrite Hr. simpl. rewrite Hset1.
  unfold ext_relocates.
  destruct (ext_in_scope s _ file && ext_complete s); [| reflexivity].
  assert (Hsnap' : forall h' : Vault.t,
             Vault.files h' !! file ≫= Vault.f_cache = Some fo ≫= Vault.f_cache ->
             snapshot_value h' file (Extended.propertyName s) = Some (VBool value)).
  { intros h' Hc. rewrite <- Hsnap. unfold snapshot_value. simpl.
    by rewrite Hc, Hfo. }
  rewrite Hsnap' by (simpl; by rewrite lookup_insert_eq).
  simpl. unfold Vault.parent_of. simpl. rewrite lookup_insert_eq. simpl.
  unfold np. rewrite (dir_base_join target _ Hname). simpl.
  pose proof (ext_target_truthy s value Hcomplete) as Htruthy.
  fold target in Htruthy |- *. rewrite Htruthy.
  by rewrite String.eqb_refl.
Qed.

Lemma processFile_relocates_witness :
  journalled Fixture.deep_plugin (Extended.processFile 0%nat Fixture.deep_plugin)
  = (GuardAdd "Inbox/t.md"
     :: creations Fixture.inbox_vault (container_paths "Done/2024/Q4")
     ++ Rename 0%nat "Done/2024/Q4/t.md" None
     :: ConsoleLog (moved_message "Inbox/t.md" "Done/2024/Q4/t.md")
     :: stamp_events 0%nat true "completed_date" true Fixture.inbox_vault
     ++ [GuardDelete "Inbox/t.md"])%list
  /\ Vault.path_of (app (Extended.processFile 0%nat Fixture.deep_plugin).2) 0%nat
     = "Done/2024/Q4/t.md"
  /\ Vault.parent_of (app (Extended.processFile 0%nat Fixture.deep_plugin).2) 0%nat
     = Some "Done/2024/Q4"
  /\ (forall q, q ∈ container_paths "Done/2024/Q4" ->
                q ∈ Vault.folders (app (Extended.processFile 0%nat Fixture.deep_plugin).2))
  /\ exists l,
       Extended.processFile 0%nat (Extended.processFile 0%nat Fixture.deep_plugin).2
       = (Normal tt, logged (Extended.processFile 0%nat Fixture.deep_plugin).2 l)
       /\ Forall (fun ev => is_mutation ev = false) l.
Proof.
  apply (processFile_relocates 0%nat Fixture.deep_plugin true).
  - apply not_elem_of_empty.
  - vm_compute. reflexivity.
  - vm_compute. repeat (constructor; [discriminate |]). constructor.
  - intros q Hq. vm_compute in Hq.
    repeat (apply elem_of_cons in Hq as [-> | Hq]; [reflexivity |]).
    by apply elem_of_nil in Hq.
  - vm_compute. reflexivity.
Defined.

(** X6. The basic [processFile] does relocate, on the reference vault: for
    a document outside the guard set that the decision sends to a target
    which is an existing container, with the destination [target/name] free,
    the call journals exactly the guard entry, the accepted rename, the log
    line, the accepted timestamp patch if enabled, and the guard release; it
    creates no container.  Afterwards the document is at [target/name], its
    parent is the target, and the notification that follows the move finds
    nothing to do. *)
Theorem processFile_relocates_basic (file : TFile)
    (st : Plugin Basic.TaskflowPluginSettings Vault.t) (value : bool) :
  let s := settings st in
  let p := Vault.path_of (app st) file in
  let target := bas_target s value in
  let np := target ++ "/" ++ file_name (app st) file in
  let r := Basic.processFile file st in
  p ∉ processing st ->
  bas_relocates s (app st) file = Some value ->
  Vault.lookup_path (app st) target = Some (IsFolder target) ->
  Vault.lookup_path (app st) np = None ->
  journalled st r
  = (GuardAdd p :: Rename file np None :: ConsoleLog (moved_message p np)
     :: stamp_events file (Basic.enableCompletedDate s)
          (Basic.completedDatePropertyName s) value (app st)
     ++ [GuardDelete p])%list
  /\ Vault.path_of (app r.2) file = np
  /\ Vault.parent_of (app r.2) file = Some target
  /\ Vault.folders (app r.2) = Vault.folders (app st)
  /\ exists l, Basic.processFile file r.2 = (Normal tt, logged r.2 l)
               /\ Forall (fun ev => is_mutation ev = false) l.
Proof.
  intros s p target np r Hout Hgo Hdir Hfree.
  destruct (bas_relocates_inv _ _ _ _ Hgo) as (Hcomplete & Hsnap & Hparent).
  assert (Hfo : exists fo, Vault.files (app st) !! file = Some fo).
  { unfold snapshot_value in Hsnap. simpl in Hsnap.
    destruct (Vault.files (app st) !! file); [eauto | discriminate]. }
  destruct Hfo as [fo Hfo].
  assert (Htarget : target ∈ Vault.folders (app st)).
  { unfold Vault.lookup_path in Hdir.
    destruct (Vault.file_at (app st) target); [discriminate |].
    by destruct (decide (target ∈ Vault.folders (app st))). }
  assert (Hname : slash_free (file_name (app st) file) = true)
    by apply dir_base_name_slash_free.
  pose proof (bas_reach file st value Hout Hgo) as Hrun.
  cbv zeta in Hrun. fold s p target np in Hrun.
  change (getAbstractFileByPath (app st) target) with (Vault.lookup_path (app st) target)
    in Hrun.
  rewrite Hdir in Hrun. unfold np in Hrun.
  rewrite (vault_rename_and_stamp_run _ _ _ _ _ _ _ (entered p st) fo Hfo Hfree Hname Htarget)
    in Hrun.
  fold np in Hrun.
  assert (Hr : r = Basic.processFile file st) by reflexivity.
  rewrite Hrun in Hr. clear Hrun.
  split.
  { apply journalled_app. rewrite Hr. simpl.
    rewrite <- !app_assoc. simpl. reflexivity. }
  split.
  { rewrite Hr. unfold Vault.path_of. simpl. by rewrite lookup_insert_eq. }
  split.
  { rewrite Hr. unfold Vault.parent_of. simpl. rewrite lookup_insert_eq. simpl.
    unfold np. by rewrite (dir_base_join target _ Hname). }
  split; [by rewrite Hr |].
  apply bas_quiet. rewrite Hr. simpl. fold s.
  unfold bas_relocates. rewrite Hcomplete.
  assert (Hsnap' : forall h' : Vault.t,
             Vault.files h' !! file ≫= Vault.f_cache = Some fo ≫= Vault.f_cache ->
             snapshot_value h' file (Basic.propertyName s) = Some (VBool value)).
  { intros h' Hc. rewrite <- Hsnap. unfold snapshot_value. simpl.
    by rewrite Hc, Hfo. }
  rewrite Hsnap' by (simpl; by rewrite lookup_insert_eq).
  simpl. unfold Vault.parent_of. simpl. rewrite lookup_insert_eq. simpl.
  unfold np. rewrite (dir_base_join target _ Hname). simpl.
  pose proof (bas_target_truthy s value Hcomplete) as Htruthy.
  fold target in Htruthy |- *. rewrite Htruthy.
  by rewrite String.eqb_refl.
Qed.

Lemma processFile_relocates_basic_witness :
  let st := Fixture.stale_plugin in
  let r := Basic.processFile 0%nat st in
  journalled st r
  = (GuardAdd "Inbox/t.md" :: Rename 0%nat "Done/t.md" None
     :: ConsoleLog (moved_message "Inbox/t.md" "Done/t.md")
     :: stamp_events 0%nat true "completed_date" true (app st)
     ++ [GuardDelete "Inbox/t.md"])%list
  /\ Vault.path_of (app r.2) 0%nat = "Done/t.md"
  /\ Vault.parent_of (app r.2) 0%nat = Some "Done"
  /\ Vault.folders (app r.2) = Vault.folders (app st)
  /\ exists l, Basic.processFile 0%nat r.2 = (Normal tt, logged r.2 l)
               /\ Forall (fun ev => is_mutation ev = false) l.
Proof.
  apply (processFile_relocates_basic 0%nat Fixture.stale_plugin true).
  - apply not_elem_of_empty.
  - vm_compute. reflexivity.
  - vm_compute. reflexivity.
  - vm_compute. reflexivity.
Defined.

(** X7. The two callbacks the timestamp side effect passes to
    [processFrontMatter]: stamping a header that already carries a non-empty
    stamp changes nothing, so an earlier completion date survives later
    relocations; clearing after stamping is clearing; clearing twice is
    clearing once; and after stamping with a non-empty stamp the key reads
    as a truthy value. *)
Theorem completion_patch_algebra (key s1 s2 : string) (fm : Frontmatter) :
  s1 <> "" ->
  apply_patch (StampCompleted key s2) (apply_patch (StampCompleted key s1) fm)
    = apply_patch (StampCompleted key s1) fm
  /\ apply_patch (ClearCompleted key) (apply_patch (StampCompleted key s1) fm)
     = apply_patch (ClearCompleted key) fm
  /\ apply_patch (ClearCompleted key) (apply_patch (ClearCompleted key) fm)
     = apply_patch (ClearCompleted key) fm
  /\ truthy (js_get (apply_patch (StampCompleted key s1) fm) key) = true.
Proof.
  intros Hs1. apply str_truthy_true in Hs1.
  assert (Ht : truthy (js_get (apply_patch (StampCompleted key s1) fm) key) = true).
  { simpl. destruct (truthy (js_get fm key)) eqn:Hfm; [exact Hfm |].
    unfold js_get. by rewrite lookup_insert_eq. }
  repeat split; [| | | exact Ht].
  - change (apply_patch (StampCompleted key s2) ?m)
      with (if truthy (js_get m key) then m else <[key := VStr s2]> m).
    by rewrite Ht.
  - simpl. destruct (truthy (js_get fm key)); [reflexivity |]. apply delete_insert_eq.
  - simpl. apply delete_delete_eq.
Qed.

Lemma completion_patch_algebra_witness :
  apply_patch (StampCompleted "completed_date" "2024-01-02T00:00:00Z")
    (apply_patch (StampCompleted "completed_date" "2023-11-15T03:43:20+05:30")
       Fixture.done_true)
    = apply_patch (StampCompleted "completed_date" "2023-11-15T03:43:20+05:30")
        Fixture.done_true
  /\ apply_patch (ClearCompleted "completed_date")
       (apply_patch (StampCompleted "completed_date" "2023-11-15T03:43:20+05:30")
          Fixture.done_true)
     = apply_patch (ClearCompleted "completed_date") Fixture.done_true
  /\ apply_patch (ClearCompleted "completed_date")
       (apply_patch (ClearCompleted "completed_date") Fixture.done_true)
     = apply_patch (ClearCompleted "completed_date") Fixture.done_true
  /\ truthy (js_get
               (apply_patch (StampCompleted "completed_date" "2023-11-15T03:43:20+05:30")
                  Fixture.done_true) "completed_date") = true.
Proof.
  apply (completion_patch_algebra "completed_date" "2023-11-15T03:43:20+05:30"
           "2024-01-02T00:00:00Z" Fixture.done_true).
  discriminate.
Defined.

(** X8. The path [createTask] mints lies in the scope [detectTaskCounter]
    scans, and the name at that path is read back as the counter it was
    minted from: for a counter of at most 2^53, where [String] prints every
    digit, and a title without "/", the identifier pattern matches the name,
    the captured digits denote the counter, and [parseInt] yields the
    counter. *)
Theorem minted_name_read_back (shortest : N -> string)
    (s : Extended.TaskflowPluginSettings) (title : string) (n : N) :
  Extended.taskCounter s = Fin n -> (n <= 2 ^ 53)%N -> slash_free title = true ->
  let path := Commands.task_path shortest s title in
  in_root (Extended.rootFolder s) path = true
  /\ task_number (dir_base path).2 = Some n
  /\ parseInt <$> match_task (dir_base path).2 = Some (Fin n).
Proof.
  intros Hc Hn Ht path.
  split; [apply task_path_in_root |].
  destruct (task_path_number shortest s title n Hc Hn Ht) as [Hm Hv].
  fold path in Hm. unfold task_number. rewrite Hm.
  set (ds := padStart 3 "0" (Commands.Number_toString shortest (Fin n))) in *.
  split.
  - change (Some (decimal_value 0 ds) = Some n). by rewrite Hv.
  - change (Some (to_double (decimal_value 0 ds)) = Some (Fin n)).
    by rewrite Hv, to_double_exact.
Qed.

Lemma minted_name_read_back_witness :
  in_root "taskflow"
    (Commands.task_path Office.shortest
       (Extended.with_taskCounter Extended.DEFAULT_SETTINGS (Fin 7)) "water plants") = true
  /\ task_number
       (dir_base (Commands.task_path Office.shortest
                    (Extended.with_taskCounter Extended.DEFAULT_SETTINGS (Fin 7))
                    "water plants")).2 = Some 7%N
  /\ parseInt <$> match_task
       (dir_base (Commands.task_path Office.shortest
                    (Extended.with_taskCounter Extended.DEFAULT_SETTINGS (Fin 7))
                    "water plants")).2 = Some (Fin 7).
Proof.
  apply (minted_name_read_back Office.shortest
           (Extended.with_taskCounter Extended.DEFAULT_SETTINGS (Fin 7)) "water plants" 7).
  - reflexivity.
  - lia.
  - reflexivity.
Defined.

(** X9. After [detectTaskCounter], the task created next gets an identifier
    that no in-scope document carries: provided no in-scope identifier
    exceeds 2^53 - 1, the name [createTask] mints from the new counter for a
    title without "/" carries a number strictly above every identifier
    number of the in-scope documents.  Every host, whether or not persisting
    the settings succeeds. *)
Theorem detectTaskCounter_then_fresh {H : Type} `{Host H} (shortest : N -> string)
    (saveData : Extended.TaskflowPluginSettings -> H -> Res unit * H)
    (st : Plugin Extended.TaskflowPluginSettings H) (title : string) :
  let s := settings st in
  let numbers := task_numbers (app st) (Extended.rootFolder s) (getMarkdownFiles (app st)) in
  let r := Extended.detectTaskCounter saveData st in
  Forall (fun n => (n <= MAX_SAFE_INTEGER)%N) numbers ->
  slash_free title = true ->
  exists c,
    task_number (dir_base (Commands.task_path shortest (settings r.2) title)).2 = Some c
    /\ Forall (fun n => (n < c)%N) numbers.
Proof.
  intros s numbers r Hsafe Ht.
  pose proof (detectTaskCounter_settings saveData st Hsafe) as Hset.
  fold s numbers r in Hset.
  exists (highest numbers + 1)%N. split.
  - rewrite Hset.
    destruct (task_path_number shortest
                (Extended.with_taskCounter s (Fin (highest numbers + 1))) title
                (highest numbers + 1)) as [Hm Hv]; [reflexivity | | exact Ht |].
    + pose proof (highest_le _ _ Hsafe). unfold MAX_SAFE_INTEGER in *. lia.
    + unfold task_number. rewrite Hm.
      change (Some (decimal_value 0
                      (padStart 3 "0"
                         (Commands.Number_toString shortest
                            (Fin (highest numbers + 1)))))
              = Some (highest numbers + 1)%N).
      by rewrite Hv.
  - eapply Forall_impl; [apply highest_ge |]. simpl. intros. lia.
Qed.

Lemma detectTaskCounter_then_fresh_witness :
  exists c,
    task_number
      (dir_base (Commands.task_path Office.shortest
                   (settings (Extended.detectTaskCounter Fixture.saveData
                                Fixture.tasks_plugin).2) "call the bank")).2 = Some c
    /\ Forall (fun n => (n < c)%N)
         (task_numbers (app Fixture.tasks_plugin)
            (Extended.rootFolder (settings Fixture.tasks_plugin))
            (getMarkdownFiles (app Fixture.tasks_plugin))).
Proof.
  apply (detectTaskCounter_then_fresh Office.shortest Fixture.saveData
           Fixture.tasks_plugin "call the bank").
  - assert (Hn : task_numbers (app Fixture.tasks_plugin)
                   (Extended.rootFolder (settings Fixture.tasks_plugin))
                   (getMarkdownFiles (app Fixture.tasks_plugin)) = [12%N; 7%N])
      by (vm_compute; reflexivity).
    rewrite Hn. repeat constructor; unfold MAX_SAFE_INTEGER; lia.
  - reflexivity.
Defined.

(** X10. Once [createTask] has created the document (non-blank title, text
    obtained, container ensured, creation accepted), for a counter [n] below
    2^53: the counter is [n + 1] and the guard set holds the new path,
    whether or not persisting the settings or opening the document then
    fails; the journal holds the guard entry after the container creations.
    The release is scheduled: right after the creation the host is handed, by
    [setTimeout], the callback that deletes the new path from the guard set,
    with a delay of 500, and only then the settings are saved, the modal
    closed and the document opened; the call ends as the save ends if it is
    rejected, and as the opening ends otherwise.  While the path is guarded
    [processFile] ignores the document at that path, and running the
    scheduled callback removes the path from the guard set and changes
    neither settings nor host.  Every host. *)
Theorem createTask_arms_guard {H : Type} `{Host H} `{Desk H}
    (shortest : N -> string)
    (trim : string -> string)
    (saveData : Extended.TaskflowPluginSettings -> H -> Res unit * H)
    (title content : string) (file : TFile) (n : N)
    (st : Plugin Extended.TaskflowPluginSettings H) :
  let s := settings st in
  let path := Commands.task_path shortest s (trim title) in
  let st0 := (Commands.task_content s st).2 in
  let st1 := (ensureFolder (Commands.task_folder s) st0).2 in
  let created := (Vault_create path content (app st1)).2 in
  let scheduled := setTimeout (ReleaseGuard path) 500 created in
  let saved := saveData (Extended.with_taskCounter s (Fin (n + 1))) scheduled in
  let opened := Workspace_openFile file (Modal_close saved.2) in
  let r := Commands.createTask shortest trim saveData title st in
  trim title <> "" ->
  Extended.taskCounter s = Fin n -> (n < 2 ^ 53)%N ->
  (Commands.task_content s st).1 = Normal content ->
  (ensureFolder (Commands.task_folder s) st0).1 = Normal tt ->
  (Vault_create path content (app st1)).1 = Ok file ->
  settings r.2 = Extended.with_taskCounter s (Fin (n + 1))
  /\ processing r.2 = processing st ∪ {[path]}
  /\ journal r.2 = (journal st1 ++ [GuardAdd path])%list
  /\ (r.1, app r.2)
     = match saved.1 with
       | Fail e => (Throw e, saved.2)
       | Ok _ => (outcome_of opened.1, opened.2)
       end
  /\ (forall f, file_path (app r.2) f = path ->
                Extended.processFile f r.2 = (Normal tt, r.2))
  /\ (let released := (run_deferred (ReleaseGuard path) r.2).2 in
      processing released = processing st ∖ {[path]}
      /\ settings released = settings r.2
      /\ app released = app r.2).
Proof.
  intros s path st0 st1 created scheduled saved opened r
    Htitle Hcounter Hn Hcontent Hensure Hcreate.
  assert (Hsucc : js_succ (Extended.taskCounter s) = Fin (n + 1)).
  { rewrite Hcounter. simpl. apply to_double_exact. lia. }
  assert (Hr : settings r.2 = Extended.with_taskCounter s (Fin (n + 1))
               /\ processing r.2 = processing st ∪ {[path]}
               /\ journal r.2 = (journal st1 ++ [GuardAdd path])%list
               /\ (r.1, app r.2)
                  = match saved.1 with
                    | Fail e => (Throw e, saved.2)
                    | Ok _ => (outcome_of opened.1, opened.2)
                    end).
  { unfold r. rewrite (createTask_after_ensure shortest trim saveData title content st
               Htitle Hcontent Hensure).
    cbv zeta. fold s path st0 st1. rewrite Hsucc.
    subst opened saved scheduled created.
    destruct (Vault_create path content (app st1)) as [o2 h2].
    simpl in Hcreate. subst o2. cbn [snd].
    destruct (saveData _ (setTimeout (ReleaseGuard path) 500 h2)) as [[[] | e] h3];
      cbn [fst snd];
      [destruct (Workspace_openFile file (Modal_close h3)) as [[[] | e] h4] |];
      simpl; repeat split. }
  destruct Hr as (Hset & Hproc & Hj & Hend).
  split; [exact Hset |]. split; [exact Hproc |]. split; [exact Hj |].
  split; [exact Hend |]. split.
  - intros f Hf. apply ext_guarded_skip. rewrite Hf, Hproc.
    apply elem_of_union. right. by apply elem_of_singleton.
  - simpl. rewrite Hproc. split; [| done].
    apply set_eq. intros x.
    rewrite !elem_of_difference, elem_of_union, elem_of_singleton. tauto.
Qed.

(** On the reference desk: task 2 is created, the counter becomes 3, and the
    one timer registered is the release of the new path after 500. *)
Lemma createTask_arms_guard_witness :
  (let st := Scene.scanned_plugin in
   let s := settings st in
   let path := Commands.task_path Office.shortest s (Office.trim "  file taxes ") in
   let st0 := (Commands.task_content s st).2 in
   let st1 := (ensureFolder (Commands.task_folder s) st0).2 in
   let created := (Vault_create path (default_content "✅") (app st1)).2 in
   let scheduled := setTimeout (ReleaseGuard path) 500 created in
   let saved := Office.saveData (Extended.with_taskCounter s (Fin (2 + 1))) scheduled in
   let opened := Workspace_openFile 1%nat (Modal_close saved.2) in
   let r := Commands.createTask Office.shortest Office.trim Office.saveData
              "  file taxes " st in
   settings r.2 = Extended.with_taskCounter s (Fin (2 + 1))
   /\ processing r.2 = processing st ∪ {[path]}
   /\ journal r.2 = (journal st1 ++ [GuardAdd path])%list
   /\ (r.1, app r.2)
      = match saved.1 with
        | Fail e => (Throw e, saved.2)
        | Ok _ => (outcome_of opened.1, opened.2)
        end
   /\ (forall f, file_path (app r.2) f = path ->
                 Extended.processFile f r.2 = (Normal tt, r.2))
   /\ (let released := (run_deferred (ReleaseGuard path) r.2).2 in
       processing released = processing st ∖ {[path]}
       /\ settings released = settings r.2
       /\ app released = app r.2))
  /\ Office.timers
       (app (Commands.createTask Office.shortest Office.trim Office.saveData
               "  file taxes " Scene.scanned_plugin).2)
     = [(ReleaseGuard "taskflow/[TASK-002] file taxes.md", 500%N)].
Proof.
  split.
  - apply (createTask_arms_guard Office.shortest Office.trim Office.saveData
             "  file taxes " (default_content "✅") 1%nat 2 Scene.scanned_plugin).
    + vm_compute. discriminate.
    + reflexivity.
    + lia.
    + vm_compute. reflexivity.
    + vm_compute. reflexivity.
    + vm_compute. reflexivity.
  - vm_compute. reflexivity.
Defined.

(** X11. When the host rejects the creation (a document already exists at
    the minted path, say), [createTask] rethrows the rejection with the
    counter unchanged, the minted path in the guard set and the host as the
    rejected call left it: no release is scheduled, and [processFile]
    ignores a document at that path for as long as the plugin runs with the
    path guarded.  Every host. *)
Theorem createTask_rejected_creation {H : Type} `{Host H} `{Desk H}
    (shortest : N -> string)
    (trim : string -> string)
    (saveData : Extended.TaskflowPluginSettings -> H -> Res unit * H)
    (title content : string) (e : Err)
    (st : Plugin Extended.TaskflowPluginSettings H) :
  let s := settings st in
  let path := Commands.task_path shortest s (trim title) in
  let st0 := (Commands.task_content s st).2 in
  let st1 := (ensureFolder (Commands.task_folder s) st0).2 in
  let r := Commands.createTask shortest trim saveData title st in
  trim title <> "" ->
  (Commands.task_content s st).1 = Normal content ->
  (ensureFolder (Commands.task_folder s) st0).1 = Normal tt ->
  (Vault_create path content (app st1)).1 = Fail e ->
  r = (Throw e,
       mkPlugin s (processing st ∪ {[path]}) (journal st1 ++ [GuardAdd path])
         (Vault_create path content (app st1)).2)
  /\ (forall (st' : Plugin Extended.TaskflowPluginSettings H) f,
        path ∈ processing st' -> file_path (app st') f = path ->
        Extended.processFile f st' = (Normal tt, st')).
Proof.
  intros s path st0 st1 r Htitle Hcontent Hensure Hcreate.
  split.
  - unfold r. rewrite (createTask_after_ensure shortest trim saveData title content st
               Htitle Hcontent Hensure).
    cbv zeta. fold s path st0 st1.
    destruct (Vault_create path content (app st1)) as [o2 h2].
    simpl in Hcreate. by subst o2.
  - intros st' f Hin Hf. apply ext_guarded_skip. by rewrite Hf.
Qed.

Lemma createTask_rejected_creation_witness :
  let st := Scene.unscanned_plugin in
  let s := settings st in
  let path := Commands.task_path Office.shortest s (Office.trim "water plants") in
  let st0 := (Commands.task_content s st).2 in
  let st1 := (ensureFolder (Commands.task_folder s) st0).2 in
  let r := Commands.createTask Office.shortest Office.trim Office.saveData
             "water plants" st in
  r = (Throw "File already exists.",
       mkPlugin s (processing st ∪ {[path]}) (journal st1 ++ [GuardAdd path])
         (Vault_create path (default_content "✅") (app st1)).2)
  /\ (forall (st' : Plugin Extended.TaskflowPluginSettings Office.t) f,
        path ∈ processing st' -> file_path (app st') f = path ->
        Extended.processFile f st' = (Normal tt, st')).
Proof.
  apply (createTask_rejected_creation Office.shortest Office.trim Office.saveData
           "water plants" (default_content "✅") "File already exists."
           Scene.unscanned_plugin).
  - vm_compute. discriminate.
  - vm_compute. reflexivity.
  - vm_compute. reflexivity.
  - vm_compute. reflexivity.
Defined.

(** X12. What [createTask] may change, whatever the host answers: it ends
    normally or rethrows, a blank title changes nothing at all, settings
    change at most in the counter, the guard set gains at most the minted
    path, and the journal gains only container creations along the task
    folder and the guard entry of the minted path: no rename, no metadata
    patch, no guard release.  The counter is written only together with the
    guard entry, and what is written is the old counter plus one as
    JavaScript computes it; a call with a non-blank title that ends normally
    has written it.  For a counter [n] below 2^53 that is [n + 1]; at 2^53
    and at Infinity the sum is the counter itself.  Every host. *)
Theorem createTask_frame {H : Type} `{Host H} `{Desk H}
    (shortest : N -> string)
    (trim : string -> string)
    (saveData : Extended.TaskflowPluginSettings -> H -> Res unit * H)
    (title : string) (st : Plugin Extended.TaskflowPluginSettings H) :
  let s := settings st in
  let path := Commands.task_path shortest s (trim title) in
  let written := Extended.with_taskCounter s (js_succ (Extended.taskCounter s)) in
  let r := Commands.createTask shortest trim saveData title st in
  r.1 <> Return
  /\ (trim title = "" -> r = (Normal tt, st))
  /\ (settings r.2 = s
      \/ settings r.2 = written /\ processing r.2 = processing st ∪ {[path]})
  /\ (r.1 = Normal tt -> trim title <> "" ->
      settings r.2 = written /\ processing r.2 = processing st ∪ {[path]})
  /\ (forall n, Extended.taskCounter s = Fin n -> (n < 2 ^ 53)%N ->
                r.1 = Normal tt -> trim title <> "" ->
                Extended.taskCounter (settings r.2) = Fin (n + 1))
  /\ js_succ (Fin (2 ^ 53)) = Fin (2 ^ 53) /\ js_succ Infinity = Infinity
  /\ (processing r.2 = processing st \/ processing r.2 = processing st ∪ {[path]})
  /\ exists l,
       journal r.2 = (journal st ++ l)%list
       /\ Forall (fun ev => (exists q res, ev = CreateFolder q res
                                           /\ q ∈ container_paths (Commands.task_folder s))
                            \/ ev = GuardAdd path) l.
Proof.
  intros s path written r.
  destruct (createTask_changes shortest trim saveData title st)
    as (Hnr & Hblank & Hset & Hproc & Hl).
  fold s path written r in Hnr, Hblank, Hset, Hproc, Hl.
  assert (Hdone : r.1 = Normal tt -> trim title <> "" ->
                  settings r.2 = written /\ processing r.2 = processing st ∪ {[path]}).
  { intros Hn Ht. destruct Hset as [[_ Hb] | Hw]; [| exact Hw].
    destruct Ht. by apply Hb. }
  split; [exact Hnr |]. split; [exact Hblank |]. split.
  { destruct Hset as [[Hs _] | Hw]; [by left | by right]. }
  split; [exact Hdone |]. split.
  { intros n Hc Hn Hnormal Ht. destruct (Hdone Hnormal Ht) as [Hw _].
    rewrite Hw. unfold written. simpl. rewrite Hc. simpl.
    apply to_double_exact. lia. }
  split; [by vm_compute |]. split; [reflexivity |].
  split; [exact Hproc | exact Hl].
Qed.

(** X13. [moveToIcebox] changes neither settings nor guard set.  It issues
    host calls only when the active document's name starts with "[TASK-",
    the resolved icebox is non-empty and the document's parent differs from
    it; then it issues nothing but container creations along the icebox path
    and renames of that document to [icebox/name], and when the container is
    ensured the rename is the last call issued.  There is no [catch]: the
    command ends normally with every call accepted, or rethrows the rejection
    of its last call, no earlier call having failed.  Every host. *)
Theorem moveToIcebox_summary {H : Type} `{Host H} `{Desk H}
    (st : Plugin Extended.TaskflowPluginSettings H) :
  let s := settings st in
  let icebox := buildPath (Extended.rootFolder s) (Extended.iceboxFolder s) in
  let r := Commands.moveToIcebox st in
  settings r.2 = s /\ processing r.2 = processing st /\ r.1 <> Return
  /\ exists l,
       journal r.2 = (journal st ++ l)%list
       /\ outcome_ok r.1 l
       /\ match Workspace_getActiveFile (app st) with
          | Some f =>
              let name := file_name (app st) f in
              let newPath := icebox ++ "/" ++ name in
              if startsWith name "[TASK-" && str_truthy icebox
                 && negb (String.eqb (or_empty (file_parent_path (app st) f)) icebox)
              then Forall (move_event icebox f newPath) l
                   /\ ((ensureFolder icebox st).1 = Normal tt ->
                       exists l0,
                         l = (l0 ++ [Rename f newPath
                                       (res_err (rename f newPath
                                                   (app (ensureFolder icebox st).2)).1)])%list)
              else l = []
          | None => l = [] /\ r.2 = st
          end.
Proof.
  intros s icebox r. subst r. rewrite moveToIcebox_eq. cbv zeta.
  change (buildPath (Extended.rootFolder (settings st))
            (Extended.iceboxFolder (settings st))) with icebox.
  assert (Hquiet : forall msg,
             let r : Outcome unit * Plugin Extended.TaskflowPluginSettings H :=
               (Normal tt, (Commands.Notice msg st).2) in
             settings r.2 = s /\ processing r.2 = processing st /\ r.1 <> Return
             /\ exists l, journal r.2 = (journal st ++ l)%list
                          /\ outcome_ok r.1 l /\ l = []).
  { intros msg. simpl. split; [reflexivity |]. split; [reflexivity |].
    split; [discriminate |]. exists []. rewrite app_nil_r.
    split; [reflexivity |]. split; [constructor | reflexivity]. }
  clearbody icebox.
  destruct (Workspace_getActiveFile (app st)) as [f |].
  - destruct (startsWith (file_name (app st) f) "[TASK-"); cbn [negb andb];
      [| exact (Hquiet "Taskflow: Active file is not a task file.")].
    destruct (str_truthy icebox); cbn [negb andb];
      [| exact (Hquiet "Taskflow: Icebox folder is not configured.")].
    destruct (String.eqb _ icebox); cbn [negb andb];
      [exact (Hquiet "Taskflow: File is already in the icebox.") |].
    destruct (move_call icebox (icebox ++ "/" ++ file_name (app st) f)
                "Taskflow: Moved to icebox." f st)
      as (Hs & Hp & Hnr & l & Hj & Hk & Ho & Hlive).
    split; [exact Hs |]. split; [exact Hp |]. split; [exact Hnr |].
    exists l. auto.
  - simpl. split; [reflexivity |]. split; [reflexivity |]. split; [discriminate |].
    exists []. rewrite app_nil_r. split; [reflexivity |].
    split; [constructor | split; reflexivity].
Qed.

(** X14. [moveOutOfBacklog] likewise: settings and guard set are untouched,
    host calls are issued only for an active document whose name starts with
    "[TASK-" and whose parent differs from the root folder, and they are
    container creations along the root path and renames of that document
    to [root/name] (to [name] when no root is configured); a rejection is
    rethrown.  Every host. *)
Theorem moveOutOfBacklog_summary {H : Type} `{Host H} `{Desk H}
    (st : Plugin Extended.TaskflowPluginSettings H) :
  let s := settings st in
  let root := Extended.rootFolder s in
  let r := Commands.moveOutOfBacklog st in
  settings r.2 = s /\ processing r.2 = processing st /\ r.1 <> Return
  /\ exists l,
       journal r.2 = (journal st ++ l)%list
       /\ outcome_ok r.1 l
       /\ match Workspace_getActiveFile (app st) with
          | Some f =>
              let name := file_name (app st) f in
              let newPath := if str_truthy root then root ++ "/" ++ name else name in
              if startsWith name "[TASK-"
                 && negb (String.eqb (or_empty (file_parent_path (app st) f)) root)
              then Forall (move_event root f newPath) l
                   /\ ((ensureFolder root st).1 = Normal tt ->
                       exists l0,
                         l = (l0 ++ [Rename f newPath
                                       (res_err (rename f newPath
                                                   (app (ensureFolder root st).2)).1)])%list)
              else l = []
          | None => l = [] /\ r.2 = st
          end.
Proof.
  intros s root r. subst r. rewrite moveOutOfBacklog_eq. cbv zeta.
  rewrite or_self_empty. fold s root.
  assert (Hquiet : forall msg,
             let r : Outcome unit * Plugin Extended.TaskflowPluginSettings H :=
               (Normal tt, (Commands.Notice msg st).2) in
             settings r.2 = s /\ processing r.2 = processing st /\ r.1 <> Return
             /\ exists l, journal r.2 = (journal st ++ l)%list
                          /\ outcome_ok r.1 l /\ l = []).
  { intros msg. simpl. split; [reflexivity |]. split; [reflexivity |].
    split; [discriminate |]. exists []. rewrite app_nil_r.
    split; [reflexivity |]. split; [constructor | reflexivity]. }
  clearbody root.
  destruct (Workspace_getActiveFile (app st)) as [f |].
  - destruct (startsWith (file_name (app st) f) "[TASK-"); cbn [negb andb];
      [| exact (Hquiet "Taskflow: Active file is not a task file.")].
    destruct (String.eqb _ root); cbn [negb andb];
      [exact (Hquiet "Taskflow: File is already in the root folder.") |].
    destruct (move_call root
                (if str_truthy root then root ++ "/" ++ file_name (app st) f
                 else file_name (app st) f)
                "Taskflow: Moved out of backlog." f st)
      as (Hs & Hp & Hnr & l & Hj & Hk & Ho & Hlive).
    split; [exact Hs |]. split; [exact Hp |]. split; [exact Hnr |].
    exists l. auto.
  - simpl. split; [reflexivity |]. split; [reflexivity |]. split; [discriminate |].
    exists []. rewrite app_nil_r. split; [reflexivity |].
    split; [constructor | split; reflexivity].
Qed.

(** X15. With no root folder configured, [moveOutOfBacklog] does not
    recognise a task at the top level of the vault as being in place when
    the host reports the root container's path as "/": it issues one call,
    the rename of the document to its own name, and ends as that call
    ends.  Every host. *)
Theorem moveOutOfBacklog_rootless {H : Type} `{Host H} `{Desk H}
    (st : Plugin Extended.TaskflowPluginSettings H) (f : TFile) :
  let name := file_name (app st) f in
  let r := Commands.moveOutOfBacklog st in
  Extended.rootFolder (settings st) = "" ->
  Workspace_getActiveFile (app st) = Some f ->
  startsWith name "[TASK-" = true ->
  file_parent_path (app st) f = Some "/" ->
  journalled st r = [Rename f name (res_err (rename f name (app st)).1)]
  /\ r.1 = outcome_of (rename f name (app st)).1.
Proof.
  intros name r Hroot Hactive Htask Hparent. subst r.
  rewrite moveOutOfBacklog_eq. cbv zeta. rewrite Hroot, Hactive. fold name.
  rewrite Htask, Hparent. simpl.
  unfold call, mbind, M_bind, ensureFolder, call, return_, vault_rename, await. simpl.
  destruct (rename f name (app st)) as [[[] | e] h2]; simpl.
  - split; [| reflexivity]. unfold journalled. simpl. apply drop_app_length.
  - split; [| reflexivity]. unfold journalled. simpl. apply drop_app_length.
Qed.

Lemma moveOutOfBacklog_rootless_witness :
  journalled Scene.rootless_plugin (Commands.moveOutOfBacklog Scene.rootless_plugin)
  = [Rename 0%nat (file_name (app Scene.rootless_plugin) 0%nat)
       (res_err (rename 0%nat (file_name (app Scene.rootless_plugin) 0%nat)
                   (app Scene.rootless_plugin)).1)]
  /\ (Commands.moveOutOfBacklog Scene.rootless_plugin).1
     = outcome_of (rename 0%nat (file_name (app Scene.rootless_plugin) 0%nat)
                     (app Scene.rootless_plugin)).1.
Proof.
  apply (moveOutOfBacklog_rootless Scene.rootless_plugin 0%nat).
  - reflexivity.
  - reflexivity.
  - reflexivity.
  - reflexivity.
Defined.

(** X16. Settings survive a restart: when [loadData] yields what
    [saveSettings] handed to [saveData] for settings [s], [loadSettings]
    makes [s] the settings again, field by field and the counter included,
    and reports that no counter scan is needed.  Every host. *)
Theorem loadSettings_round_trip {H : Type}
    (loadData : H -> Res (option Commands.SavedData) * H)
    (st : Plugin Extended.TaskflowPluginSettings H)
    (s : Extended.TaskflowPluginSettings) (h' : H) :
  loadData (app st) = (Ok (Some (Commands.saved_of s)), h') ->
  Commands.loadSettings loadData st
  = (Normal false, mkPlugin s (processing st) (journal st) h').
Proof.
  intros Hload.
  unfold Commands.loadSettings, mbind, M_bind, host_call, set_settings, mret, M_ret.
  rewrite Hload. simpl. by rewrite assign_saved_of.
Qed.

Lemma loadSettings_round_trip_witness :
  Commands.loadSettings Office.loadData
    (Extended.saveSettings Office.saveData Scene.scanned_plugin).2
  = (Normal false,
     mkPlugin (settings Scene.scanned_plugin)
       (processing (Extended.saveSettings Office.saveData Scene.scanned_plugin).2)
       (journal (Extended.saveSettings Office.saveData Scene.scanned_plugin).2)
       (app (Extended.saveSettings Office.saveData Scene.scanned_plugin).2)).
Proof.
  apply (loadSettings_round_trip Office.loadData
           (Extended.saveSettings Office.saveData Scene.scanned_plugin).2
           (settings Scene.scanned_plugin)).
  reflexivity.
Defined.

(** X17. Loading the data the basic variant persisted: its five fields are
    kept, every other field takes its default, so the root folder is
    "taskflow", and a counter scan is requested.  The containers are thereby
    re-rooted, the target for a value being the basic one under "taskflow/",
    and a document outside "taskflow/" is no longer relocated: a
    notification for it issues no container creation, no rename and no
    metadata patch.  Every host. *)
Theorem loadSettings_from_basic {H : Type} `{Host H}
    (loadData : H -> Res (option Commands.SavedData) * H)
    (st : Plugin Extended.TaskflowPluginSettings H)
    (b : Basic.TaskflowPluginSettings) (h' : H) :
  loadData (app st) = (Ok (Some (Commands.basic_saved b)), h') ->
  let r := Commands.loadSettings loadData st in
  r.1 = Normal true
  /\ settings r.2
     = Extended.mkSettings "taskflow" "" (Basic.propertyName b) (Basic.trueFolder b)
         (Basic.falseFolder b) "icebox" false "backlog" (Basic.enableCompletedDate b)
         (Basic.completedDatePropertyName b) (Fin 1)
  /\ (forall value,
        ext_target (settings r.2) value
        = if str_truthy (bas_target b value) then "taskflow/" ++ bas_target b value
          else "taskflow")
  /\ (forall file,
        startsWith (file_path (app r.2) file) "taskflow/" = false ->
        exists l, Extended.processFile file r.2 = (Normal tt, logged r.2 l)
                  /\ Forall (fun ev => is_mutation ev = false) l).
Proof.
  intros Hload r.
  assert (Hr : r = (Normal true,
                    mkPlugin (Extended.mkSettings "taskflow" "" (Basic.propertyName b)
                                (Basic.trueFolder b) (Basic.falseFolder b) "icebox" false
                                "backlog" (Basic.enableCompletedDate b)
                                (Basic.completedDatePropertyName b) (Fin 1))
                      (processing st) (journal st) h')).
  { subst r.
    unfold Commands.loadSettings, mbind, M_bind, host_call, set_settings, mret, M_ret.
    rewrite Hload. reflexivity. }
  rewrite Hr. simpl.
  split; [reflexivity |]. split; [reflexivity |]. split.
  - intros value. unfold ext_target, Extended.absoluteTrueFolder,
      Extended.absoluteFalseFolder, buildPath. simpl.
    destruct value; simpl.
    + by destruct (str_truthy (Basic.trueFolder b)).
    + by destruct (str_truthy (Basic.falseFolder b)).
  - intros file Hout. apply ext_quiet. unfold ext_relocates, ext_in_scope.
    cbn [settings app Extended.rootFolder].
    change ("taskflow" ++ "/") with "taskflow/". by rewrite Hout.
Qed.

Lemma loadSettings_from_basic_witness :
  let r := Commands.loadSettings Office.loadData Scene.legacy_plugin in
  r.1 = Normal true
  /\ settings r.2
     = Extended.mkSettings "taskflow" "" (Basic.propertyName Fixture.basic_settings)
         (Basic.trueFolder Fixture.basic_settings)
         (Basic.falseFolder Fixture.basic_settings) "icebox" false "backlog"
         (Basic.enableCompletedDate Fixture.basic_settings)
         (Basic.completedDatePropertyName Fixture.basic_settings) (Fin 1)
  /\ (forall value,
        ext_target (settings r.2) value
        = if str_truthy (bas_target Fixture.basic_settings value)
          then "taskflow/" ++ bas_target Fixture.basic_settings value
          else "taskflow")
  /\ (forall file,
        startsWith (file_path (app r.2) file) "taskflow/" = false ->
        exists l, Extended.processFile file r.2 = (Normal tt, logged r.2 l)
                  /\ Forall (fun ev => is_mutation ev = false) l).
Proof.
  apply (loadSettings_from_basic Office.loadData Scene.legacy_plugin
           Fixture.basic_settings (app Scene.legacy_plugin)).
  reflexivity.
Defined.

(** X18. Editing the root folder in the settings tab stores the new root,
    persists it, and recomputes the counter from the new scope: when the
    save is accepted and no identifier in the new scope exceeds 2^53 - 1,
    the counter becomes one above the highest identifier under the new root,
    whatever it was before; when the save is rejected the rejection is
    rethrown with the new root in memory and the counter not recomputed.
    Every host. *)
Theorem onChange_rootFolder_rescans {H : Type} `{Host H}
    (saveData : Extended.TaskflowPluginSettings -> H -> Res unit * H)
    (value : string) (st : Plugin Extended.TaskflowPluginSettings H) :
  let s := settings st in
  let saved := saveData (Commands.with_rootFolder s value) (app st) in
  let numbers := task_numbers saved.2 value (getMarkdownFiles saved.2) in
  let r := Commands.onChange_rootFolder saveData value st in
  (forall e, saved.1 = Fail e ->
     r = (Throw e,
          mkPlugin (Commands.with_rootFolder s value) (processing st) (journal st)
            saved.2))
  /\ (saved.1 = Ok tt ->
      Forall (fun n => (n <= MAX_SAFE_INTEGER)%N) numbers ->
      settings r.2
      = Extended.with_taskCounter (Commands.with_rootFolder s value)
          (Fin (highest numbers + 1))).
Proof.
  intros s saved numbers r. subst r.
  unfold Commands.onChange_rootFolder, call, mbind, M_bind, gets, set_settings,
    Extended.saveSettings.
  simpl. fold s. fold saved.
  destruct saved as [[[] | e] h1] eqn:Hsaved; simpl.
  - split; [discriminate |]. intros _ Hsafe.
    pose proof (detectTaskCounter_settings saveData
                  (mkPlugin (Commands.with_rootFolder s value) (processing st)
                     (journal st) h1) Hsafe) as Hset.
    simpl in Hset.
    destruct (Extended.detectTaskCounter saveData _) as [[[] | | e] st2];
      simpl in *; exact Hset.
  - split; [| discriminate]. intros e' [= <-]. reflexivity.
Qed.

Lemma onChange_rootFolder_rescans_witness :
  settings (Commands.onChange_rootFolder Office.saveData "taskflow"
              Scene.scanned_plugin).2
  = Extended.with_taskCounter
      (Commands.with_rootFolder (settings Scene.scanned_plugin) "taskflow")
      (Fin (highest
              (task_numbers
                 (Office.saveData
                    (Commands.with_rootFolder (settings Scene.scanned_plugin) "taskflow")
                    (app Scene.scanned_plugin)).2
                 "taskflow"
                 (getMarkdownFiles
                    (Office.saveData
                       (Commands.with_rootFolder (settings Scene.scanned_plugin)
                          "taskflow")
                       (app Scene.scanned_plugin)).2)) + 1)).
Proof.
  apply (onChange_rootFolder_rescans Office.saveData "taskflow" Scene.scanned_plugin).
  - reflexivity.
  - assert (Hn : task_numbers
                   (Office.saveData
                      (Commands.with_rootFolder (settings Scene.scanned_plugin)
                         "taskflow")
                      (app Scene.scanned_plugin)).2
                   "taskflow"
                   (getMarkdownFiles
                      (Office.saveData
                         (Commands.with_rootFolder (settings Scene.scanned_plugin)
                            "taskflow")
                         (app Scene.scanned_plugin)).2) = [1%N])
      by (vm_compute; reflexivity).
    rewrite Hn. repeat constructor. unfold MAX_SAFE_INTEGER. lia.
Defined.

(** X19. How the target container is ensured before a rename.  (1) In the
    extended variant the target container is ensured by [ensureFolder]: on
    the reference vault, for a target path with no empty component none of
    whose containers is held by a document, it returns normally, creates
    exactly the missing containers along the path, ancestors first, so that
    all of them exist afterwards, and leaves the documents alone.  (2) Over every host, a rename journalled by the
    extended [processFile] was issued after [ensureFolder] returned normally,
    in the host state it left.  (3) Over every host, a rename journalled by
    the basic [processFile] was issued with the target found to be a
    container, or found absent and created by one accepted [createFolder]
    call.  (4) In the basic variant, when the target path is held by a
    document the call logs an error and returns: no container creation, no
    rename, no metadata patch, and the host is as before. *)
Theorem ensure_target_container :
  (forall (S : Type) (st : Plugin S Vault.t) (target : string),
      Forall (fun part => part <> "") (split slash target) ->
      (forall q, q ∈ container_paths target -> Vault.file_at (app st) q = None) ->
      let r := ensureFolder target st in
      r.1 = Normal tt
      /\ journal r.2 = (journal st ++ creations (app st) (container_paths target))%list
      /\ Vault.folders (app r.2)
         = Vault.folders (app st) ∪ list_to_set (container_paths target)
      /\ Vault.files (app r.2) = Vault.files (app st))
  /\ (forall (H : Type) (HH : Host H) (file : TFile)
        (st : Plugin Extended.TaskflowPluginSettings H) (np : string) (res : option Err),
      Rename file np res ∈ journalled st (Extended.processFile file st) ->
      exists value st1,
        snapshot_value (app st) file (Extended.propertyName (settings st))
          = Some (VBool value)
        /\ ensureFolder (ext_target (settings st) value)
             (entered (file_path (app st) file) st) = (Normal tt, st1)
        /\ res = res_err (rename file np (app st1)).1)
  /\ (forall (H : Type) (HH : Host H) (file : TFile)
        (st : Plugin Basic.TaskflowPluginSettings H) (np : string) (res : option Err),
      Rename file np res ∈ journalled st (Basic.processFile file st) ->
      exists value st1,
        snapshot_value (app st) file (Basic.propertyName (settings st))
          = Some (VBool value)
        /\ ((exists d, getAbstractFileByPath (app st) (bas_target (settings st) value)
                        = Some (IsFolder d)
                       /\ st1 = entered (file_path (app st) file) st)
            \/ (getAbstractFileByPath (app st) (bas_target (settings st) value) = None
                /\ vault_createFolder (bas_target (settings st) value)
                     (entered (file_path (app st) file) st) = (Normal tt, st1)))
        /\ res = res_err (rename file np (app st1)).1)
  /\ (forall (H : Type) (HH : Host H) (file : TFile)
        (st : Plugin Basic.TaskflowPluginSettings H) (value : bool) (g : TFile),
      let p := file_path (app st) file in
      let target := bas_target (settings st) value in
      p ∉ processing st ->
      bas_relocates (settings st) (app st) file = Some value ->
      getAbstractFileByPath (app st) target = Some (IsFile g) ->
      Basic.processFile file st =
        (Normal tt,
         logged st [GuardAdd p; ConsoleError (target_is_file_message target) None;
                    GuardDelete p])).
Proof.
  split; [| split; [| split]].
  - intros S st target. apply ensureFolder_vault.
  - intros H HH file st np res Hin.
    destruct (ext_renamed file st np res Hin)
      as (value & st1 & Hgo & _ & _ & Hens & Hres & _).
    exists value, st1. split; [by apply ext_relocates_value | auto].
  - intros H HH file st np res Hin.
    destruct (bas_renamed file st np res Hin)
      as (value & st1 & Hgo & _ & _ & Hst1 & Hres & _).
    exists value, st1. split; [by apply bas_relocates_value | auto].
  - intros H HH file st value g p target Hout Hgo Hat.
    rewrite (bas_reach file st value Hout Hgo). fold target. by rewrite Hat.
Qed.

Lemma ensure_target_container_witness :
  (let r := ensureFolder "Done/2024/Q4" Fixture.deep_plugin in
   r.1 = Normal tt
   /\ journal r.2
      = (journal Fixture.deep_plugin
           ++ creations (app Fixture.deep_plugin) (container_paths "Done/2024/Q4"))%list
   /\ Vault.folders (app r.2)
      = Vault.folders (app Fixture.deep_plugin)
        ∪ list_to_set (container_paths "Done/2024/Q4")
   /\ Vault.files (app r.2) = Vault.files (app Fixture.deep_plugin))
  /\ Basic.processFile 0%nat Fixture.blocked_basic =
       (Normal tt,
        logged Fixture.blocked_basic
          [GuardAdd (file_path (app Fixture.blocked_basic) 0%nat);
           ConsoleError
             (target_is_file_message (bas_target (settings Fixture.blocked_basic) true)) None;
           GuardDelete (file_path (app Fixture.blocked_basic) 0%nat)]).
Proof.
  destruct ensure_target_container as (Hensure & _ & _ & Hblocked).
  split.
  - apply Hensure.
    + vm_compute. repeat (constructor; [discriminate |]). constructor.
    + intros q Hq. vm_compute in Hq.
      repeat (apply elem_of_cons in Hq as [-> | Hq]; [reflexivity |]).
      by apply elem_of_nil in Hq.
  - apply (Hblocked Vault.t Vault.host 0%nat Fixture.blocked_basic true 1%nat).
    + apply not_elem_of_empty.
    + reflexivity.
    + reflexivity.
Defined.

(** The missing containers are created ancestors first. *)
Example ensureFolder_ancestors_first :
  journal (Extended.processFile 0%nat Fixture.deep_plugin).2
  = [GuardAdd "Inbox/t.md";
     CreateFolder "Done" None;
     CreateFolder "Done/2024" None;
     CreateFolder "Done/2024/Q4" None;
     Rename 0%nat "Done/2024/Q4/t.md" None;
     ConsoleLog (moved_message "Inbox/t.md" "Done/2024/Q4/t.md");
     ProcessFrontMatter 0%nat
       (StampCompleted "completed_date" "2023-11-15T03:43:20+05:30") None;
     GuardDelete "Inbox/t.md"].
Proof. by vm_compute. Qed.

(** X20. Below 2^53 [detectTaskCounter] does what its docstring says: it
    sets [taskCounter] to exactly one above the highest identifier number
    carried by the names of the in-scope markdown documents the host lists
    (those under the root folder, or all of them when the root is empty),
    provided no such number exceeds the largest integer a JavaScript number
    holds exactly, 2^53 - 1; and to 1 when no in-scope name carries an
    identifier.  This does not depend on whether persisting the
    settings succeeds.  Every host. *)
Theorem detectTaskCounter_one_above_highest {H : Type} `{Host H}
    (saveData : Extended.TaskflowPluginSettings -> H -> Res unit * H)
    (st : Plugin Extended.TaskflowPluginSettings H) :
  let s := settings st in
  let numbers := task_numbers (app st) (Extended.rootFolder s) (getMarkdownFiles (app st)) in
  let r := Extended.detectTaskCounter saveData st in
  Forall (fun n => (n <= MAX_SAFE_INTEGER)%N) numbers ->
  settings r.2 = Extended.with_taskCounter s (Fin (highest numbers + 1))
  /\ (numbers = [] -> Extended.taskCounter (settings r.2) = Fin 1).
Proof.
  intros s numbers r Hsafe.
  assert (Hset : settings r.2 = Extended.with_taskCounter s (Fin (highest numbers + 1))).
  { subst r. unfold Extended.detectTaskCounter, call, mbind, M_bind, read, gets,
      set_settings, Extended.saveSettings. simpl.
    destruct (saveData _ (app st)) as [[[] | e] h']; simpl; fold s;
      rewrite detect_loop_highest by (try exact Hsafe; by vm_compute);
      fold numbers; simpl;
      rewrite to_double_exact by
        (pose proof (highest_le _ _ Hsafe); unfold MAX_SAFE_INTEGER in *; lia);
      do 2 f_equal; lia. }
  split; [exact Hset |].
  intros Hnone. rewrite Hset, Hnone. reflexivity.
Qed.

Lemma detectTaskCounter_one_above_highest_witness :
  settings (Extended.detectTaskCounter Fixture.saveData Fixture.tasks_plugin).2
  = Extended.with_taskCounter (settings Fixture.tasks_plugin)
      (Fin (highest (task_numbers (app Fixture.tasks_plugin)
                       (Extended.rootFolder (settings Fixture.tasks_plugin))
                       (getMarkdownFiles (app Fixture.tasks_plugin))) + 1)).
Proof.
  refine (proj1 (detectTaskCounter_one_above_highest (H := Vault.t) Fixture.saveData
                   Fixture.tasks_plugin _)).
  assert (Hn : task_numbers (app Fixture.tasks_plugin)
                 (Extended.rootFolder (settings Fixture.tasks_plugin))
                 (getMarkdownFiles (app Fixture.tasks_plugin)) = [12%N; 7%N])
    by (vm_compute; reflexivity).
  rewrite Hn. repeat constructor; unfold MAX_SAFE_INTEGER; lia.
Defined.

(** Tasks 7 and 12 are in scope, task 40 is not: the counter becomes 13. *)
Example detectTaskCounter_thirteen :
  task_numbers Fixture.tasks_vault "taskflow" (getMarkdownFiles Fixture.tasks_vault)
  = [12%N; 7%N]
  /\ Extended.taskCounter
       (settings (Extended.detectTaskCounter Fixture.saveData Fixture.tasks_plugin).2)
     = Fin 13.
Proof. by vm_compute. Qed.
